(** * Firestore reporting scripts: day windows, timestamp normalisation,
      field probing and freshness tracking

    A shallow embedding of the TypeScript sources

    - [stats-today.ts]      (modules [StatsToday], [StatsTodayReport]),
    - [gameStats-today.ts]  (modules [GameStatsToday], [GameStatsTodayRows]),
    - [index.ts]            (modules [Watch], [WatchUsers], [WatchPrint]),

    together with the part of the ECMAScript [Date] semantics they rely on
    (module [ESDate]), the JavaScript [Map] (module [JSMap]) and the
    [users] lookup that the three scripts share (module [Users]).
    [loadDbFromConfig.ts] only builds the Firestore client, which the
    scripts use through [getDocs] and [getDoc]; the two final printing
    steps ([printTable], the sorted lines of [stats-today.ts]) rest on the
    host's sort and collation and are not modelled.

    Conventions of the embedding.
    - A JavaScript number is modelled on its integral values ([Z]) plus
      [NaN] and the two infinities; doubles with a fractional part and the
      rounding of integers beyond 2^53 are outside the model.
    - A [Date] object is its time value: [Some t] for [t] milliseconds since
      the epoch, [None] for an Invalid Date (time value [NaN]).
    - An abrupt completion ([throw]) is explicit: functions that can raise
      return a [Completion].
    - The host services (the Intl time-zone formatter, [Date.parse] on
      strings, [toLocaleString], the conversions of objects to numbers
      and strings, the Firestore client) are Section variables; concrete
      instances are defined only to evaluate examples. *)

From stdpp Require Import base numbers gmap strings list fin_maps sorting.
From Stdlib Require Import ZArith Lia.

Local Open Scope Z_scope.

(** ** Completions *)

Inductive Error : Type :=
| RangeError
| TypeError
| Thrown (what : string).

Inductive Completion (A : Type) : Type :=
| Normal (a : A)
| Throw (e : Error).
Arguments Normal {A} a.
Arguments Throw {A} e.

Definition bindC {A B} (c : Completion A) (k : A -> Completion B) : Completion B :=
  match c with
  | Normal a => k a
  | Throw e => Throw e
  end.

Declare Scope completion_scope.
Delimit Scope completion_scope with completion.
Notation "'let!' x ':=' c 'in' k" := (bindC c (fun x => k))
  (at level 10, x pattern, c at level 100, k at level 200) : completion_scope.
Local Open Scope completion_scope.

Definition isThrow {A} (c : Completion A) : bool :=
  match c with Throw _ => true | Normal _ => false end.

(** ** ECMAScript dates *)

Module ESDate.

Definition msPerSecond : Z := 1000.
Definition msPerMinute : Z := 60000.
Definition msPerHour : Z := 3600000.
Definition msPerDay : Z := 86400000.

(** The largest magnitude of a time value (ECMA-262, Time Values and Time
    Range): 100,000,000 days on either side of the epoch. *)
Definition maxTimeValue : Z := 8640000000000000.

(** A [Date] object, reduced to its [[DateValue]] slot. *)
Record Date : Type := mkDate { getTime : option Z }.

Definition InvalidDate : Date := mkDate None.

(** [TimeClip]: a time beyond the range becomes [NaN]. *)
Definition TimeClip (t : Z) : option Z :=
  if Z.abs t <=? maxTimeValue then Some t else None.

(** [new Date(ms)] for a number [ms] that is finite or [NaN]. *)
Definition newDate (ms : option Z) : Date :=
  mkDate (match ms with Some t => TimeClip t | None => None end).

Definition isLeapYear (y : Z) : bool :=
  (y mod 4 =? 0) && (negb (y mod 100 =? 0) || (y mod 400 =? 0)).

Definition DayFromYear (y : Z) : Z :=
  365 * (y - 1970) + (y - 1969) / 4 - (y - 1901) / 100 + (y - 1601) / 400.

(** Number of days of the year before month [mn] (0 = January). *)
Definition daysBeforeMonth (leap : bool) (mn : Z) : Z :=
  let l := if leap then 1 else 0 in
  match mn with
  | 0 => 0
  | 1 => 31
  | 2 => 59 + l
  | 3 => 90 + l
  | 4 => 120 + l
  | 5 => 151 + l
  | 6 => 181 + l
  | 7 => 212 + l
  | 8 => 243 + l
  | 9 => 273 + l
  | 10 => 304 + l
  | _ => 334 + l
  end.

(** [MakeDay]: the day number of the first of month [mn] of year [ym],
    plus [date - 1]; [NaN] when no time value falls on that first of
    the month. *)
Definition MakeDay (year month date : Z) : option Z :=
  let ym := year + month / 12 in
  let mn := month mod 12 in
  let first := DayFromYear ym + daysBeforeMonth (isLeapYear ym) mn in
  match TimeClip (first * msPerDay) with
  | Some _ => Some (first + date - 1)
  | None => None
  end.

Definition MakeTime (hour min sec ms : Z) : Z :=
  hour * msPerHour + min * msPerMinute + sec * msPerSecond + ms.

Definition MakeDate (day : option Z) (time : Z) : option Z :=
  match day with
  | Some dy => Some (dy * msPerDay + time)
  | None => None
  end.

(** [Date.UTC(year, month, date, hours, minutes, seconds, ms)]; a year
    from 0 to 99 stands for 1900 + year. *)
Definition Date_UTC (year month date hours minutes seconds ms : Z) : option Z :=
  let yr := if (0 <=? year) && (year <=? 99) then 1900 + year else year in
  match MakeDate (MakeDay yr month date) (MakeTime hours minutes seconds ms) with
  | Some tv => TimeClip tv
  | None => None
  end.

(** [a - b] on numbers that are finite or [NaN]. *)
Definition numSub (a b : option Z) : option Z :=
  match a, b with
  | Some x, Some y => Some (x - y)
  | _, _ => None
  end.

(** *** From a time value back to calendar fields *)

Definition Day (t : Z) : Z := t / msPerDay.

(** The year of day number [dy]: an estimate from the mean length of a
    Gregorian year, corrected by at most one. *)
Definition yearOfDay (dy : Z) : Z :=
  let y := 1970 + (400 * dy) / 146097 in
  if dy <? DayFromYear y then y - 1
  else if DayFromYear (y + 1) <=? dy then y + 1
  else y.

Definition YearFromTime (t : Z) : Z := yearOfDay (Day t).

Definition DayWithinYear (t : Z) : Z := Day t - DayFromYear (YearFromTime t).

Definition MonthFromTime (t : Z) : Z :=
  let leap := isLeapYear (YearFromTime t) in
  let d := DayWithinYear t in
  if d <? daysBeforeMonth leap 1 then 0
  else if d <? daysBeforeMonth leap 2 then 1
  else if d <? daysBeforeMonth leap 3 then 2
  else if d <? daysBeforeMonth leap 4 then 3
  else if d <? daysBeforeMonth leap 5 then 4
  else if d <? daysBeforeMonth leap 6 then 5
  else if d <? daysBeforeMonth leap 7 then 6
  else if d <? daysBeforeMonth leap 8 then 7
  else if d <? daysBeforeMonth leap 9 then 8
  else if d <? daysBeforeMonth leap 10 then 9
  else if d <? daysBeforeMonth leap 11 then 10
  else 11.

Definition DateFromTime (t : Z) : Z :=
  DayWithinYear t
  - daysBeforeMonth (isLeapYear (YearFromTime t)) (MonthFromTime t) + 1.

Definition HourFromTime (t : Z) : Z := (t / msPerHour) mod 24.
Definition MinFromTime (t : Z) : Z := (t / msPerMinute) mod 60.
Definition SecFromTime (t : Z) : Z := (t / msPerSecond) mod 60.

End ESDate.
Export ESDate.

(** ** The Intl time-zone formatter *)

(** The numeric readings of the parts that
    [Intl.DateTimeFormat(...).formatToParts] yields for the options
    [year], [month], [day], [hour], [minute], [second]. *)
Record WallClock : Type := mkWallClock {
  wc_year : Z;
  wc_month : Z;   (* 1-based, as printed *)
  wc_day : Z;
  wc_hour : Z;
  wc_minute : Z;
  wc_second : Z
}.

(** A formatter service: [None] for a time-zone name that the constructor
    rejects with a [RangeError], otherwise the wall clock shown for a
    (valid) time value. *)
Definition DateTimeFormat : Type := string -> option (Z -> WallClock).

(** The helper [tzOffsetMsAt], written identically in [stats-today.ts]
    and [gameStats-today.ts]. *)
Definition tzOffsetMsAt (Intl : DateTimeFormat) (date : Date) (timeZone : string)
  : Completion (option Z) :=
  match Intl timeZone with
  | None => Throw RangeError                       (* new Intl.DateTimeFormat *)
  | Some dtf =>
      match getTime date with
      | None => Throw RangeError                   (* formatToParts(Invalid Date) *)
      | Some t =>
          let map := dtf t in
          let wallUTC :=
            Date_UTC (wc_year map) (wc_month map - 1) (wc_day map)
                     (wc_hour map) (wc_minute map) (wc_second map) 0 in
          Normal (numSub wallUTC (Some t))
      end
  end.

Record DayRange : Type := mkDayRange { start : Date; end_ : Date }.

(** ** JavaScript values *)

Inductive number : Type :=
| NaN
| Infinity (negative : bool)
| Num (z : Z).

(** A function value is represented by the outcome of calling it with no
    argument; following the declared type [toDate: () => Date], it
    returns a [Date] or throws. *)
#[warnings="-register-all"]
Inductive JSValue : Type :=
| VUndefined
| VNull
| VBoolean (b : bool)
| VNumber (n : number)
| VString (s : string)
| VDate (d : Date)
| VArray (items : list JSValue)
| VObject (props : gmap string JSValue)
| VFunction (call : Completion Date).

(** A plain object, as produced by [{ id: d.id, ...d.data() }]. *)
Abbreviation Obj := (gmap string JSValue).

Module JS.

Inductive TypeTag : Type :=
| TUndefined | TObject | TBoolean | TNumber | TString | TFunction.

Definition typeof (v : JSValue) : TypeTag :=
  match v with
  | VUndefined => TUndefined
  | VNull => TObject
  | VBoolean _ => TBoolean
  | VNumber _ => TNumber
  | VString _ => TString
  | VDate _ | VArray _ | VObject _ => TObject
  | VFunction _ => TFunction
  end.

Definition typeofIs (v : JSValue) (t : TypeTag) : bool :=
  match typeof v, t with
  | TUndefined, TUndefined | TObject, TObject | TBoolean, TBoolean
  | TNumber, TNumber | TString, TString | TFunction, TFunction => true
  | _, _ => false
  end.

(** [ToBoolean]. *)
Definition truthy (v : JSValue) : bool :=
  match v with
  | VUndefined | VNull => false
  | VBoolean b => b
  | VNumber NaN => false
  | VNumber (Num z) => negb (z =? 0)
  | VNumber (Infinity _) => true
  | VString s => negb (String.eqb s "")
  | VDate _ | VArray _ | VObject _ | VFunction _ => true
  end.

(** [v !== 0]. *)
Definition strictNotZero (v : JSValue) : bool :=
  match v with
  | VNumber (Num z) => negb (z =? 0)
  | _ => true
  end.

(** [o[k]] on a plain object. *)
Definition field (o : Obj) (k : string) : JSValue :=
  default VUndefined (o !! k).

(** [v.k] for the property names the scripts read ([toDate], [seconds],
    [nanoseconds]): own properties of plain objects; dates, arrays and
    wrapped primitives have no property of these names. *)
Definition get (v : JSValue) (k : string) : JSValue :=
  match v with
  | VObject props => field props k
  | _ => VUndefined
  end.

(** Calling a value with no argument. *)
Definition call0 (f : JSValue) : Completion Date :=
  match f with
  | VFunction c => c
  | _ => Throw TypeError
  end.

Definition instanceofDate (v : JSValue) : option Date :=
  match v with
  | VDate d => Some d
  | _ => None
  end.

(** The number held by a value whose [typeof] is ["number"]. *)
Definition numberOf (v : JSValue) : number :=
  match v with
  | VNumber n => n
  | _ => NaN
  end.

(** [x * 1000]. *)
Definition times1000 (x : number) : number :=
  match x with
  | NaN => NaN
  | Infinity s => Infinity s
  | Num z => Num (z * 1000)
  end.

(** [Math.floor(x / 1_000_000)]. *)
Definition floorDivMillion (x : number) : number :=
  match x with
  | NaN => NaN
  | Infinity s => Infinity s
  | Num z => Num (z / 1000000)
  end.

(** [x + y]. *)
Definition add (x y : number) : number :=
  match x, y with
  | NaN, _ | _, NaN => NaN
  | Infinity a, Infinity b => if Bool.eqb a b then Infinity a else NaN
  | Infinity a, Num _ | Num _, Infinity a => Infinity a
  | Num a, Num b => Num (a + b)
  end.

(** [new Date(n)] for a number [n]. *)
Definition newDateOfNumber (n : number) : Date :=
  match n with
  | Num z => newDate (Some z)
  | _ => InvalidDate
  end.

(** [isNaN(d.getTime()) ? null : d]. *)
Definition nullIfInvalid (d : Date) : option Date :=
  match getTime d with
  | None => None
  | Some _ => Some d
  end.

(** [a > b] on time values; false as soon as one is [NaN]. *)
Definition gtTime (a b : option Z) : bool :=
  match a, b with
  | Some x, Some y => y <? x
  | _, _ => false
  end.

(** [a >= b] and [a < b] on dates. *)
Definition geDate (a b : Date) : bool :=
  match getTime a, getTime b with
  | Some x, Some y => y <=? x
  | _, _ => false
  end.

Definition ltDate (a b : Date) : bool :=
  match getTime a, getTime b with
  | Some x, Some y => x <? y
  | _, _ => false
  end.

End JS.

(** ** Firestore documents *)

(** A [QueryDocumentSnapshot]: [d.id] and [d.data()]. *)
Record Doc : Type := mkDoc { id : string; data : Obj }.

(** [{ id: d.id, ...d.data() }]: a field [id] of the data overrides
    the document id. *)
Definition withId (d : Doc) : Obj := data d ∪ {[ "id"%string := VString (id d) ]}.

(** ** Firestore queries and script outcomes *)

Module Firestore.

Inductive Op : Type := OpGe | OpLt.

(** [where(field, op, value)]. *)
Record Where (Timestamp : Type) : Type := mkWhere {
  w_field : string;
  w_op : Op;
  w_value : Timestamp
}.
Arguments mkWhere {Timestamp} _ _ _.

(** [query(collection(db, name), ...constraints)]; a bare collection
    reference is the query without constraint. *)
Record Query (Timestamp : Type) : Type := mkQuery {
  q_collection : string;
  q_where : list (Where Timestamp)
}.
Arguments mkQuery {Timestamp} _ _.

End Firestore.
Export Firestore.

(** How the top-level async function of a script ends: it runs to its
    end, calls [process.exit(code)], or rejects with an uncaught error. *)
Inductive Outcome (A : Type) : Type :=
| Finished (a : A)
| Exited (code : Z)
| Rejected (e : Error).
Arguments Finished {A} a.
Arguments Exited {A} code.
Arguments Rejected {A} e.

(** [index.ts] *)
Module Watch.
Import JS.

Section Normalizer.

(** [Date.parse] on a string, host-defined outside the ISO format:
    [None] is [NaN]. *)
Variable Date_parse : string -> option Z.

Definition isFSTimestampMethod (v : JSValue) : bool :=
  truthy v && typeofIs v TObject && typeofIs (get v "toDate") TFunction.

Definition isFSTimestampPojo (v : JSValue) : bool :=
  truthy v && typeofIs v TObject
  && typeofIs (get v "seconds") TNumber
  && typeofIs (get v "nanoseconds") TNumber.

Definition toDateStrict (v : JSValue) : Completion (option Date) :=
  if negb (truthy v) && strictNotZero v then Normal None
  else if isFSTimestampMethod v then
    let! d := call0 (get v "toDate") in Normal (Some d)
  else if isFSTimestampPojo v then
    let ms := add (times1000 (numberOf (get v "seconds")))
                  (floorDivMillion (numberOf (get v "nanoseconds"))) in
    let d := newDateOfNumber ms in
    Normal (nullIfInvalid d)
  else
    match instanceofDate v with
    | Some d => Normal (Some d)
    | None =>
        match v with
        | VString s => Normal (nullIfInvalid (newDate (Date_parse s)))
        | VNumber n => Normal (nullIfInvalid (newDateOfNumber n))
        | _ => Normal None
        end
    end.

End Normalizer.

(** *** The live listener *)

(** What one run of the listener callback leaves behind: the variable
    [lastSeen], the documents whose [printDoc] completed, in order, and
    how the callback ended. *)
Record Run : Type := mkRun {
  lastSeenAfter : option Date;
  printed : list Obj;
  outcome : Completion unit
}.

Section Listener.

Variable Date_parse : string -> option Z.

(** [printDoc]: formats one document, looks the email up and writes to
    the console; it may raise (a nested [toDate], [JSON.stringify]). *)
Variable printDoc : Obj -> Completion unit.

Definition submittedAt (d : Obj) : JSValue := field d "submittedAt".

(** The filter callback:
    [dt && lastSeen && dt.getTime() > lastSeen.getTime()]. *)
Definition isFresh (lastSeen : Date) (d : Obj) : Completion bool :=
  let! dt := toDateStrict Date_parse (submittedAt d) in
  Normal match dt with
         | Some dt => gtTime (getTime dt) (getTime lastSeen)
         | None => false
         end.

(** [toDateStrict(a.submittedAt)?.getTime() ?? 0]. *)
Definition timeOrZero (d : Obj) : Completion (option Z) :=
  let! dt := toDateStrict Date_parse (submittedAt d) in
  Normal match dt with
         | Some dt => getTime dt
         | None => Some 0
         end.

(** The sort comparator, [da - dbt]. *)
Definition oldestFirst (a b : Obj) : Completion (option Z) :=
  let! da := timeOrZero a in
  let! dbt := timeOrZero b in
  Normal (numSub da dbt).

Fixpoint filterC {A} (p : A -> Completion bool) (l : list A)
  : Completion (list A) :=
  match l with
  | [] => Normal []
  | x :: l' =>
      let! keep := p x in
      let! rest := filterC p l' in
      Normal (if keep : bool then x :: rest else rest)
  end.

(** [Array.prototype.sort] is stable; with a comparator that is a
    difference of keys its result is the stable ordering by key, here
    computed by insertion.  A comparator result of [NaN] counts as 0. *)
Definition isPositive (c : option Z) : bool :=
  match c with
  | Some z => 0 <? z
  | None => false
  end.

Fixpoint insertC {A} (cmp : A -> A -> Completion (option Z)) (x : A) (l : list A)
  : Completion (list A) :=
  match l with
  | [] => Normal [x]
  | y :: l' =>
      let! c := cmp x y in
      if isPositive c
      then let! r := insertC cmp x l' in Normal (y :: r)
      else Normal (x :: y :: l')
  end.

Fixpoint sortC {A} (cmp : A -> A -> Completion (option Z)) (l : list A)
  : Completion (list A) :=
  match l with
  | [] => Normal []
  | x :: l' => let! s := sortC cmp l' in insertC cmp x s
  end.

(** [for (const doc of fresh) await printDoc(db, doc)]. *)
Fixpoint printAll (docs : list Obj) : list Obj * Completion unit :=
  match docs with
  | [] => ([], Normal tt)
  | d :: rest =>
      match printDoc d with
      | Normal _ => let '(p, c) := printAll rest in (d :: p, c)
      | Throw e => ([], Throw e)
      end
  end.

(** The final guard:
    [latest && (!lastSeen || latest.getTime() > lastSeen.getTime())]. *)
Definition advances (latest : option Date) (lastSeen : option Date) : bool :=
  match latest with
  | None => false
  | Some l =>
      match lastSeen with
      | None => true
      | Some s => gtTime (getTime l) (getTime s)
      end
  end.

(** [nowDocs.filter(...).sort(...)]. *)
Definition freshOf (lastSeen : Date) (nowDocs : list Obj) : Completion (list Obj) :=
  let! kept := filterC (isFresh lastSeen) nowDocs in
  sortC oldestFirst kept.

(** The callback passed to [onSnapshot], on the snapshot's [docs] and
    the current value of [lastSeen]. *)
Definition onSnapshot (lastSeen : option Date) (snap : list Doc) : Run :=
  let nowDocs := map withId snap in
  match nowDocs with
  | [] => mkRun lastSeen [] (Normal tt)
  | first :: _ =>
      match toDateStrict Date_parse (submittedAt first) with
      | Throw e => mkRun lastSeen [] (Throw e)
      | Normal newestTime =>
          match lastSeen with
          | None =>
              mkRun (match newestTime with Some d => Some d | None => lastSeen end)
                    [] (Normal tt)
          | Some seen =>
              match freshOf seen nowDocs with
              | Throw e => mkRun lastSeen [] (Throw e)
              | Normal [] => mkRun lastSeen [] (Normal tt)
              | Normal fresh =>
                  match printAll fresh with
                  | (p, Throw e) => mkRun lastSeen p (Throw e)
                  | (p, Normal _) =>
                      match toDateStrict Date_parse
                              (default VUndefined (submittedAt <$> last fresh)) with
                      | Throw e => mkRun lastSeen p (Throw e)
                      | Normal latest =>
                          if advances latest lastSeen
                          then mkRun latest p (Normal tt)
                          else mkRun lastSeen p (Normal tt)
                      end
                  end
              end
          end
      end
  end.

(** The initial load, which runs once before the listener is
    attached: prints the newest documents and sets [lastSeen] from the
    first one. *)
Definition initialLoad (snap : list Doc) : Run :=
  let docs := map withId snap in
  let lastSeen : option Date := None in
  match docs with
  | [] => mkRun lastSeen [] (Normal tt)
  | first :: _ =>
      match printAll docs with
      | (p, Throw e) => mkRun lastSeen p (Throw e)
      | (p, Normal _) =>
          match toDateStrict Date_parse (submittedAt first) with
          | Throw e => mkRun lastSeen p (Throw e)
          | Normal (Some d) => mkRun (Some d) p (Normal tt)
          | Normal None => mkRun lastSeen p (Normal tt)
          end
      end
  end.

(** [lastSeen] after a sequence of snapshots, delivered one at a
    time. *)
Definition observeAll (lastSeen : option Date) (snaps : list (list Doc))
  : option Date :=
  fold_left (fun s snap => lastSeenAfter (onSnapshot s snap)) snaps lastSeen.

(** **** Overlapping invocations

    The callback is an [async] function and the subscription does not
    wait for the promise it returns: a later snapshot can be delivered
    while an earlier invocation is suspended at an [await] of its print
    loop.  [lastSeen] is read at delivery (the baseline test and the
    filter) and read again and written at the final guard.  A listener is
    therefore the variable [lastSeen] and the invocations that are
    suspended, each holding its own [fresh]; printing does not touch
    [lastSeen], so an invocation is resumed in one step, from its loop to
    its final guard. *)
Record Listener : Type := mkListener {
  lastSeen : option Date;
  suspended : list (list Obj)
}.

Inductive Event : Type :=
| Deliver (snap : list Doc)   (* a snapshot arrives *)
| Resume (i : nat).           (* the i-th suspended invocation runs to its end *)

(** The callback from its start to its first [await]. *)
Definition deliver (l : Listener) (snap : list Doc) : Listener :=
  let nowDocs := map withId snap in
  match nowDocs with
  | [] => l
  | first :: _ =>
      match toDateStrict Date_parse (submittedAt first) with
      | Throw _ => l
      | Normal newestTime =>
          match lastSeen l with
          | None =>
              mkListener (match newestTime with Some d => Some d | None => None end)
                         (suspended l)
          | Some seen =>
              match freshOf seen nowDocs with
              | Normal ((_ :: _) as fresh) =>
                  mkListener (lastSeen l) (suspended l ++ [fresh])
              | _ => l
              end
          end
      end
  end.

(** The rest of a suspended invocation: the print loop, then the guard
    against the value [lastSeen] has by then. *)
Definition resume (l : Listener) (i : nat) : Listener :=
  match suspended l !! i with
  | None => l
  | Some fresh =>
      let others := delete i (suspended l) in
      match printAll fresh with
      | (_, Throw _) => mkListener (lastSeen l) others
      | (_, Normal _) =>
          match toDateStrict Date_parse
                  (default VUndefined (submittedAt <$> last fresh)) with
          | Throw _ => mkListener (lastSeen l) others
          | Normal latest =>
              if advances latest (lastSeen l)
              then mkListener latest others
              else mkListener (lastSeen l) others
          end
      end
  end.

Definition handle (l : Listener) (ev : Event) : Listener :=
  match ev with
  | Deliver snap => deliver l snap
  | Resume i => resume l i
  end.

Definition handleAll (l : Listener) (evs : list Event) : Listener :=
  fold_left handle evs l.

End Listener.

End Watch.

(** [stats-today.ts] *)
Module StatsToday.

Definition defaultTimeZone : string := "America/Indiana/Indiana polis".

(** The [timeZone] argument ([None] when omitted) is bound and never
    read: the body fixes [tz]. *)
Definition dayRangeUTC (Intl : DateTimeFormat)
    (year month1Based day : Z) (timeZone : option string)
  : Completion DayRange :=
  let timeZone := default defaultTimeZone timeZone in
  let tz := "America/Indiana/Indianapolis"%string in
  let probe := mkDate (Date_UTC year (month1Based - 1) day 12 0 0 0) in
  let! offsetMs := tzOffsetMsAt Intl probe tz in
  let localMidnightUTCms :=
    numSub (Date_UTC year (month1Based - 1) day 0 0 0 0) offsetMs in
  let nextMidnightUTCms :=
    numSub (Date_UTC year (month1Based - 1) (day + 1) 0 0 0 0) offsetMs in
  Normal {| start := newDate localMidnightUTCms;
            end_ := newDate nextMidnightUTCms |}.

Section Main.

Variable Intl : DateTimeFormat.

(** The Firestore client: the [Timestamp] class with [fromDate], and
    [getDocs], which answers a query with the documents of its
    snapshot or rejects. *)
Variable Timestamp : Type.
Variable Timestamp_fromDate : Date -> Completion Timestamp.
Variable getDocs : Query Timestamp -> Completion (list Doc).

Definition guessesQuery (startTs endTs : Timestamp) : Query Timestamp :=
  mkQuery "guesses"
    [mkWhere "submittedAt" OpGe startTs; mkWhere "submittedAt" OpLt endTs].

(** The main function up to the point where the documents to
    aggregate are known, with the queries issued.  What follows in the
    source (email lookups with placeholder defaults, counting,
    printing) contains no [process.exit]. *)
Definition main : Outcome (list Doc) * list (Query Timestamp) :=
  match dayRangeUTC Intl 2025 10 4 (Some "America/Indiana/Indianapolis"%string) with
  | Throw e => (Rejected e, [])
  | Normal w =>
      match Timestamp_fromDate (start w) with
      | Throw e => (Rejected e, [])
      | Normal startTs =>
          match Timestamp_fromDate (end_ w) with
          | Throw e => (Rejected e, [])
          | Normal endTs =>
              let q := guessesQuery startTs endTs in
              match getDocs q with
              | Throw _ => (Exited 1, [q])
              | Normal snap => (Finished snap, [q])
              end
          end
      end
  end.

End Main.

End StatsToday.

(** [gameStats-today.ts] *)
Module GameStatsToday.

Definition defaultTimeZone : string := "America/Indiana/Indianapolis".

Definition dayRangeUTC (Intl : DateTimeFormat)
    (year month1Based day : Z) (timeZone : option string)
  : Completion DayRange :=
  let timeZone := default defaultTimeZone timeZone in
  let probe := mkDate (Date_UTC year (month1Based - 1) day 12 0 0 0) in
  let! offsetMs := tzOffsetMsAt Intl probe timeZone in
  let localMidnightUTCms :=
    numSub (Date_UTC year (month1Based - 1) day 0 0 0 0) offsetMs in
  let nextMidnightUTCms :=
    numSub (Date_UTC year (month1Based - 1) (day + 1) 0 0 0 0) offsetMs in
  Normal {| start := newDate localMidnightUTCms;
            end_ := newDate nextMidnightUTCms |}.

Import JS.

Definition TIME_FIELDS : list string :=
  ["submittedAt"; "updatedAt"; "lastUpdatedAt"; "createdAt"; "gameDate"]%string.

Inductive Diagnostic : Type :=
| FilteredBy (f : string)      (* (Filtered by 'f' in local-day window) *)
| NoUsableDateField.           (* (No usable date field found; showing all docs) *)

(** The variables [usedField] and [docs] when the rows are built, and
    the diagnostic line printed from [usedField]. *)
Record Report : Type := mkReport {
  usedField : option string;
  docs : list Obj;
  diagnostic : Diagnostic
}.

Section Main.

Variable Intl : DateTimeFormat.
Variable Date_parse : string -> option Z.

(** [ToNumber] on a value that is neither a number nor nullish (string
    parsing, object-to-primitive conversion), left to the host. *)
Variable ToNumber : JSValue -> Completion number.

Variable Timestamp : Type.
Variable Timestamp_fromDate : Date -> Completion Timestamp.
Variable getDocs : Query Timestamp -> Completion (list Doc).

Definition rangeQuery (f : string) (startTs endTs : Timestamp) : Query Timestamp :=
  mkQuery "gameStats" [mkWhere f OpGe startTs; mkWhere f OpLt endTs].

Definition allQuery : Query Timestamp := mkQuery "gameStats" [].

(** The loop over the candidate fields: [usedField], [docs] and the
    queries issued, appended to [issued]. *)
Fixpoint rangeLoop (fields : list string) (startTs endTs : Timestamp)
    (issued : list (Query Timestamp))
  : option string * list Obj * list (Query Timestamp) :=
  match fields with
  | [] => (None, [], issued)
  | f :: rest =>
      let qStats := rangeQuery f startTs endTs in
      match getDocs qStats with
      | Normal (d :: snap) => (Some f, map withId (d :: snap), issued ++ [qStats])
      | Normal [] => rangeLoop rest startTs endTs (issued ++ [qStats])
      | Throw _ => rangeLoop rest startTs endTs (issued ++ [qStats])
      end
  end.

(** [(v.nanoseconds ?? 0)] as a number. *)
Definition nanosOrZero (v : JSValue) : Completion number :=
  match get v "nanoseconds" with
  | VUndefined | VNull => Normal (Num 0)
  | VNumber n => Normal n
  | other => ToNumber other
  end.

(** The value of [dt] after the chain of conversions, for a truthy
    field value [v]. *)
Definition fieldDate (v : JSValue) : Completion (option Date) :=
  if truthy (get v "toDate") then
    let! d := call0 (get v "toDate") in Normal (Some d)
  else if typeofIs (get v "seconds") TNumber then
    let! nanos := nanosOrZero v in
    Normal (Some (newDateOfNumber
                    (add (times1000 (numberOf (get v "seconds")))
                         (floorDivMillion nanos))))
  else
    match instanceofDate v with
    | Some d => Normal (Some d)
    | None =>
        match v with
        | VString s => Normal (nullIfInvalid (newDate (Date_parse s)))
        | VNumber n => Normal (nullIfInvalid (newDateOfNumber n))
        | _ => Normal None
        end
    end.

(** [dt && dt >= start && dt < end]. *)
Definition inWindow (start end_ : Date) (dt : option Date) : bool :=
  match dt with
  | Some dt => geDate dt start && ltDate dt end_
  | None => false
  end.

(** The body of the filter callback on one document: the field that
    makes it return [true], if any. *)
Fixpoint matchingField (fields : list string) (start end_ : Date) (d : Obj)
  : Completion (option string) :=
  match fields with
  | [] => Normal None
  | f :: rest =>
      let v := field d f in
      if negb (truthy v) then matchingField rest start end_ d
      else
        let! dt := fieldDate v in
        if inWindow start end_ dt then Normal (Some f)
        else matchingField rest start end_ d
  end.

(** [all.filter(...)], threading the captured variable [usedField]. *)
Fixpoint filterInRange (fields : list string) (start end_ : Date)
    (all : list Obj) (usedField : option string)
  : Completion (list Obj * option string) :=
  match all with
  | [] => Normal ([], usedField)
  | d :: rest =>
      let! m := matchingField fields start end_ d in
      match m with
      | Some f =>
          let! r := filterInRange fields start end_ rest (Some f) in
          Normal (d :: fst r, snd r)
      | None => filterInRange fields start end_ rest usedField
      end
  end.

Definition report (usedField : option string) (docs : list Obj) : Report :=
  mkReport usedField docs
    match usedField with
    | Some f => if String.eqb f "" then NoUsableDateField else FilteredBy f
    | None => NoUsableDateField
    end.

(** The main function from the candidate list to the diagnostic line,
    for a window [start, end_) and its two Firestore timestamps.  What
    follows in the source (building and printing the rows) contains no
    [process.exit]. *)
Definition probe (fields : list string) (start end_ : Date)
    (startTs endTs : Timestamp)
  : Outcome Report * list (Query Timestamp) :=
  let '(usedField, docs, issued) := rangeLoop fields startTs endTs [] in
  match docs with
  | _ :: _ => (Finished (report usedField docs), issued)
  | [] =>
      match (let! allSnap := getDocs allQuery in
             let all := map withId allSnap in
             let! r := filterInRange fields start end_ all usedField in
             Normal (match fst r with _ :: _ => fst r | [] => all end, snd r)) with
      | Normal (docs, used) => (Finished (report used docs), issued ++ [allQuery])
      | Throw _ => (Exited 1, issued ++ [allQuery])
      end
  end.

Definition main : Outcome Report * list (Query Timestamp) :=
  match dayRangeUTC Intl 2025 10 4 (Some "America/Indiana/Indianapolis"%string) with
  | Throw e => (Rejected e, [])
  | Normal w =>
      match Timestamp_fromDate (start w) with
      | Throw e => (Rejected e, [])
      | Normal startTs =>
          match Timestamp_fromDate (end_ w) with
          | Throw e => (Rejected e, [])
          | Normal endTs => probe TIME_FIELDS (start w) (end_ w) startTs endTs
          end
      end
  end.

End Main.

End GameStatsToday.

(** ** A concrete formatter, for evaluating examples *)

Module Zones.

(** Day number of the [n]-th Sunday (n = 1, 2, ...) of month [mn]
    (0-based) of year [y]. *)
Definition nthSunday (y mn n : Z) : Z :=
  let first := DayFromYear y + daysBeforeMonth (isLeapYear y) mn in
  let wd := (first + 4) mod 7 in
  first + (7 - wd) mod 7 + 7 * (n - 1).

(** United States Eastern time under the rules in force since 2007:
    daylight time from the second Sunday of March, 02:00 standard time
    (07:00 UTC), to the first Sunday of November, 02:00 daylight time
    (06:00 UTC). *)
Definition usEastern (t : Z) : Z :=
  let y := YearFromTime t in
  let dstStart := nthSunday y 2 2 * msPerDay + 7 * msPerHour in
  let dstEnd := nthSunday y 10 1 * msPerDay + 6 * msPerHour in
  if (dstStart <=? t) && (t <? dstEnd) then -4 * msPerHour else -5 * msPerHour.

Definition zoneOffset (tz : string) : option (Z -> Z) :=
  if decide (tz = "UTC"%string) then Some (fun _ => 0)
  else if decide (tz = "America/New_York"%string) then Some usEastern
  else if decide (tz = "America/Indiana/Indianapolis"%string) then Some usEastern
  else None.

Definition wallClockAt (local : Z) : WallClock :=
  {| wc_year := YearFromTime local;
     wc_month := MonthFromTime local + 1;
     wc_day := DateFromTime local;
     wc_hour := HourFromTime local;
     wc_minute := MinFromTime local;
     wc_second := SecFromTime local |}.

(** A formatter that knows three zone names and prints hours 0..23. *)
Definition icu : DateTimeFormat := fun tz =>
  match zoneOffset tz with
  | Some off => Some (fun t => wallClockAt (t + off t))
  | None => None
  end.

End Zones.

(** ** JavaScript [Map] *)

(** A [Map] with arbitrary values as keys: the entries in insertion order,
    keys compared by SameValueZero.  Two primitives are the same key when
    they are the same value ([NaN] included); whether two objects are the
    same reference is not visible in a value and is left to [sameRef]. *)
Module JSMap.

Definition isPrimitive (v : JSValue) : bool :=
  match v with
  | VUndefined | VNull | VBoolean _ | VNumber _ | VString _ => true
  | VDate _ | VArray _ | VObject _ | VFunction _ => false
  end.

Section Keys.

Variable sameRef : JSValue -> JSValue -> bool.

Definition sameNumber (a b : number) : bool :=
  match a, b with
  | NaN, NaN => true
  | Infinity x, Infinity y => Bool.eqb x y
  | Num x, Num y => x =? y
  | _, _ => false
  end.

Definition sameValueZero (a b : JSValue) : bool :=
  match a, b with
  | VUndefined, VUndefined | VNull, VNull => true
  | VBoolean x, VBoolean y => Bool.eqb x y
  | VNumber x, VNumber y => sameNumber x y
  | VString x, VString y => String.eqb x y
  | (VDate _ | VArray _ | VObject _ | VFunction _),
    (VDate _ | VArray _ | VObject _ | VFunction _) => sameRef a b
  | _, _ => false
  end.

(** [m.get(k)]; [m.has(k)] is whether it is some entry. *)
Fixpoint get {V} (m : list (JSValue * V)) (k : JSValue) : option V :=
  match m with
  | [] => None
  | (k', v) :: m' => if sameValueZero k' k then Some v else get m' k
  end.

(** [m.set(k, v)]: an existing entry keeps its place and its key. *)
Fixpoint set {V} (m : list (JSValue * V)) (k : JSValue) (v : V) : list (JSValue * V) :=
  match m with
  | [] => [(k, v)]
  | (k', v') :: m' =>
      if sameValueZero k' k then (k', v) :: m' else (k', v') :: set m' k v
  end.

End Keys.

End JSMap.

(** ** The [users] lookup with its cache *)

(** [getUserEmail] is written three times, in [index.ts], [stats-today.ts]
    and [gameStats-today.ts].  The three differ in the operator that
    replaces a missing email and in what the [catch] does. *)
Module Users.
Import JS.

(** One call: the email returned (or the error of a call that rejects),
    the cache afterwards, and the ids for which a lookup was started. *)
Record Lookup : Type := mkLookup {
  email : Completion JSValue;
  cacheAfter : list (JSValue * JSValue);
  lookedUp : list JSValue
}.

(** [a || b] and [a ?? b]. *)
Definition orElse (a b : JSValue) : JSValue := if truthy a then a else b.

Definition nullishElse (a b : JSValue) : JSValue :=
  match a with
  | VUndefined | VNull => b
  | _ => a
  end.

Section GetUserEmail.

Variable sameRef : JSValue -> JSValue -> bool.

(** [getDoc(doc(collection(db, "users"), playerId))], both inside the
    [try]: a throw of either, or the snapshot, [None] when [exists()] is
    false and [data()] otherwise.  The answer may change during a run:
    it is a function of the lookups started before, too. *)
Variable getDoc : list JSValue -> JSValue -> Completion (option Obj).

(** The common shape.  [emailOr] is [data.email || "(no email)"] or
    [data?.email ?? "(no email)"]; [onError] is what the [catch] block
    does with the id before it returns ["(error)"]. *)
Definition getUserEmailWith (emailOr : JSValue -> JSValue -> JSValue)
    (onError : JSValue -> Completion unit) (before : list JSValue)
    (cache : list (JSValue * JSValue)) (playerId : JSValue) : Lookup :=
  if negb (truthy playerId) then mkLookup (Normal (VString "(no playerId)")) cache []
  else
    match JSMap.get sameRef cache playerId with
    | Some cached => mkLookup (Normal cached) cache []
    | None =>
        match getDoc before playerId with
        | Normal (Some data) =>
            let email := emailOr (field data "email") (VString "(no email)") in
            mkLookup (Normal email) (JSMap.set sameRef cache playerId email) [playerId]
        | Normal None =>
            mkLookup (Normal (VString "(not found)"))
                     (JSMap.set sameRef cache playerId (VString "(not found)"))
                     [playerId]
        | Throw _ =>
            mkLookup (let! _ := onError playerId in Normal (VString "(error)"))
                     cache [playerId]
        end
    end.

(** The conversion of an object to a string, left to the host. *)
Variable ToString : JSValue -> Completion string.

(** [console.error(`... ${playerId}:`, err)]: the template converts the
    id to a string, which cannot fail on a primitive. *)
Definition logWithId (playerId : JSValue) : Completion unit :=
  if JSMap.isPrimitive playerId then Normal tt
  else let! _ := ToString playerId in Normal tt.

(** [catch { return "(error)"; }] *)
Definition silent (playerId : JSValue) : Completion unit := Normal tt.

End GetUserEmail.

End Users.

(** [index.ts] *)
Module WatchUsers.

Definition getUserEmail sameRef getDoc ToString :=
  Users.getUserEmailWith sameRef getDoc Users.orElse (Users.logWithId ToString).

End WatchUsers.

(** ** The aggregation of [stats-today.ts] *)

(** The loop of [main] over the documents of the snapshot, up to the
    [stats] map.  Numbers are the integers, [NaN] and the infinities. *)
Module StatsTodayReport.
Import JS.

Definition getUserEmail sameRef getDoc ToString :=
  Users.getUserEmailWith sameRef getDoc Users.nullishElse (Users.logWithId ToString).

(** [{ total, correct }] *)
Record Entry : Type := mkEntry { total : Z; correct : Z }.

(** The [stats] map when the loop ends, or the error that stops it; the
    email cache and the lookups started, in order. *)
Record Aggregation : Type := mkAggregation {
  stats : Completion (list (JSValue * Entry));
  emailCache : list (JSValue * JSValue);
  lookups : list JSValue
}.

Section Aggregate.

Variable sameRef : JSValue -> JSValue -> bool.
Variable getDoc : list JSValue -> JSValue -> Completion (option Obj).
Variable ToString : JSValue -> Completion string.
Variable ToNumber : JSValue -> Completion number.

(** [Number(data?.pointsAwarded ?? 0)]. *)
Definition pointsAwarded (data : Obj) : Completion number :=
  match field data "pointsAwarded" with
  | VUndefined | VNull => Normal (Num 0)
  | VNumber n => Normal n
  | other => ToNumber other
  end.

(** [!Number.isNaN(pa) && pa !== 0]. *)
Definition isCorrect (pa : number) : bool :=
  match pa with
  | NaN => false
  | Num z => negb (z =? 0)
  | Infinity _ => true
  end.

Fixpoint aggregate (docs : list Doc) (stats : list (JSValue * Entry))
    (before : list JSValue) (cache : list (JSValue * JSValue)) : Aggregation :=
  match docs with
  | [] => mkAggregation (Normal stats) cache []
  | docSnap :: rest =>
      let data := data docSnap in
      let l := getUserEmail sameRef getDoc ToString before cache
                              (field data "playerId") in
      let stopped e := mkAggregation (Throw e) (Users.cacheAfter l) (Users.lookedUp l) in
      match Users.email l with
      | Throw e => stopped e
      | Normal email =>
          let entry := default (mkEntry 0 0) (JSMap.get sameRef stats email) in
          let entry := mkEntry (total entry + 1) (correct entry) in
          match pointsAwarded data with
          | Throw e => stopped e
          | Normal pa =>
              let entry :=
                if isCorrect pa then mkEntry (total entry) (correct entry + 1)
                else entry in
              let r := aggregate rest (JSMap.set sameRef stats email entry)
                                 (before ++ Users.lookedUp l) (Users.cacheAfter l) in
              mkAggregation (StatsTodayReport.stats r) (emailCache r)
                            (Users.lookedUp l ++ lookups r)
          end
      end
  end.

End Aggregate.

End StatsTodayReport.

(** ** The rows of [gameStats-today.ts] *)

(** The loop of [main] that turns the documents found by the probe into
    the rows handed to [printTable]. *)
Module GameStatsTodayRows.
Import JS.

Definition getUserEmail sameRef getDoc :=
  Users.getUserEmailWith sameRef getDoc Users.nullishElse Users.silent.

Record Row : Type := mkRow {
  email : JSValue;
  totalPoints : number;
  totalPredictions : number
}.

Record Rows : Type := mkRows {
  rows : Completion (list Row);
  emailCache : list (JSValue * JSValue);
  lookups : list JSValue
}.

Section BuildRows.

Variable sameRef : JSValue -> JSValue -> bool.
Variable getDoc : list JSValue -> JSValue -> Completion (option Obj).
Variable ToNumber : JSValue -> Completion number.

(** [typeof v === "number" ? v : Number(v ?? 0) || 0]. *)
Definition numberOrZero (v : JSValue) : Completion number :=
  if typeofIs v TNumber then Normal (numberOf v)
  else
    let! n := match v with
              | VUndefined | VNull => Normal (Num 0)
              | other => ToNumber other
              end in
    Normal (if truthy (VNumber n) then n else Num 0).

(** [let email = d.email;
     if (!email && d.playerId) email = await getUserEmail(db, d.playerId);] *)
Definition emailOf (before : list JSValue) (cache : list (JSValue * JSValue))
    (d : Obj) : Users.Lookup :=
  let email := field d "email" in
  if negb (truthy email) && truthy (field d "playerId") then
    getUserEmail sameRef getDoc before cache (field d "playerId")
  else Users.mkLookup (Normal email) cache [].

Fixpoint buildRows (docs : list Obj) (before : list JSValue)
    (cache : list (JSValue * JSValue)) : Rows :=
  match docs with
  | [] => mkRows (Normal []) cache []
  | d :: rest =>
      let l := emailOf before cache d in
      let stopped e := mkRows (Throw e) (Users.cacheAfter l) (Users.lookedUp l) in
      match Users.email l with
      | Throw e => stopped e
      | Normal email =>
          match numberOrZero (field d "totalPoints") with
          | Throw e => stopped e
          | Normal points =>
              match numberOrZero (field d "totalPredictions") with
              | Throw e => stopped e
              | Normal predictions =>
                  let row := mkRow (Users.nullishElse email (VString "(no email)"))
                                   points predictions in
                  let r := buildRows rest (before ++ Users.lookedUp l)
                                     (Users.cacheAfter l) in
                  mkRows (let! rs := rows r in Normal (row :: rs)) (emailCache r)
                         (Users.lookedUp l ++ lookups r)
              end
          end
      end
  end.

End BuildRows.

End GameStatsTodayRows.

(** ** Printing a guess in [index.ts] *)

(** [toESTString], [deepTransformTimestamps], [stripFields] and
    [printDoc], up to the value handed to [JSON.stringify]. *)
Module WatchPrint.
Import JS.

(** One call of [printDoc]: the value printed (or the error of a call
    that rejects), the email cache afterwards and the lookups started. *)
Record Printed : Type := mkPrinted {
  output : Completion JSValue;
  cacheAfter : list (JSValue * JSValue);
  lookedUp : list JSValue
}.

Section PrintDoc.

Variable Date_parse : string -> option Z.

(** [date.toLocaleString("en-US", { timeZone: "America/New_York",
    hour12: false })], a host service that may reject the zone. *)
Variable toLocaleString : Date -> Completion string.

Definition toESTString (date : option Date) : Completion string :=
  match date with
  | None => Normal "(no submittedAt)"%string
  | Some d => toLocaleString d
  end.

(** The loop over [Object.entries(value)] builds [out] key by key.  A
    [gmap] keeps no insertion order: when several fields raise, the
    source raises the error of the first one and the model that of one
    of them.  [out[k] = v] creates the property [k], except for the key
    [__proto__], where it calls the setter inherited from
    [Object.prototype] and [out] gets no property of its own. *)
Fixpoint deepTransformTimestamps (value : JSValue) : Completion JSValue :=
  let! dt := Watch.toDateStrict Date_parse value in
  match dt with
  | Some d => let! s := toESTString (Some d) in Normal (VString s)
  | None =>
      match value with
      | VArray items =>
          let! out :=
            (fix each (l : list JSValue) : Completion (list JSValue) :=
               match l with
               | [] => Normal []
               | v :: rest =>
                   let! v' := deepTransformTimestamps v in
                   let! rest' := each rest in
                   Normal (v' :: rest')
               end) items in
          Normal (VArray out)
      | VObject props =>
          let! out :=
            map_fold (fun k v (acc : Completion Obj) =>
                        let! out := acc in
                        let! v' := deepTransformTimestamps v in
                        Normal (if String.eqb k "__proto__" then out
                                else <[k := v']> out))
                     (Normal ∅) props in
          Normal (VObject out)
      | _ => Normal value
      end
  end.

(** [const { mode, pointsAwarded, groupId, userName, ...rest } = doc] *)
Definition stripFields (doc : Obj) : Obj :=
  delete "userName"%string
    (delete "groupId"%string (delete "pointsAwarded"%string (delete "mode"%string doc))).

Variable sameRef : JSValue -> JSValue -> bool.
Variable getDoc : list JSValue -> JSValue -> Completion (option Obj).
Variable ToString : JSValue -> Completion string.

(** Whether the module runs as strict code. *)
Variable strictMode : bool.

(** [target.k = v].  On the string that [deepTransformTimestamps]
    returns for a document that itself reads as a timestamp, the
    assignment raises in strict code and does nothing otherwise. *)
Definition assign (target : JSValue) (k : string) (v : JSValue) : Completion JSValue :=
  match target with
  | VObject props => Normal (VObject (<[k := v]> props))
  | _ => if strictMode then Throw TypeError else Normal target
  end.

Definition printDoc (before : list JSValue) (cache : list (JSValue * JSValue))
    (rawDoc : Obj) : Printed :=
  let stopped e := mkPrinted (Throw e) cache [] in
  match (let! dt := Watch.toDateStrict Date_parse (field rawDoc "submittedAt") in
         let! submittedAtStr := toESTString dt in
         let body := stripFields rawDoc in
         let! transformed :=
           deepTransformTimestamps (VObject (<["id"%string := field rawDoc "id"]> body)) in
         assign transformed "submittedAt" (VString submittedAtStr)) with
  | Throw e => stopped e
  | Normal transformed =>
      let l := WatchUsers.getUserEmail sameRef getDoc ToString before cache
                                       (field rawDoc "playerId") in
      mkPrinted (let! email := Users.email l in assign transformed "email" email)
                (Users.cacheAfter l) (Users.lookedUp l)
  end.

End PrintDoc.

End WatchPrint.

(** * Vocabulary of the properties *)

Import Zones JS Watch GameStatsToday.

(** ** Day windows *)

Section DayWindowVocabulary.

Variable Intl : DateTimeFormat.

(** [s] is the instant at which the wall clock of zone [tz] shows
    00:00:00 on the calendar day [(y, m, d)]: the offset sampled at
    [s] itself carries [s] to the UTC midnight of that date. *)
Definition isLocalMidnight (tz : string) (y m d : Z) (s : Z) : Prop :=
  exists o, tzOffsetMsAt Intl (mkDate (Some s)) tz = Normal (Some o)
            /\ Date_UTC y (m - 1) d 0 0 0 0 = Some (s + o).

(** The reading of the data-model invariant: the window spans the local
    calendar day, from its local midnight to the next, each boundary
    taken with the offset in force at that boundary. *)
Definition spansLocalDay
    (dayRange : DateTimeFormat -> Z -> Z -> Z -> option string -> Completion DayRange)
  : Prop :=
  forall y m d tz w st en s e,
    dayRange Intl y m d (Some tz) = Normal w ->
    getTime (start w) = Some st ->
    getTime (end_ w) = Some en ->
    isLocalMidnight tz y m d s ->
    isLocalMidnight tz y m (d + 1) e ->
    en - st = e - s.


End DayWindowVocabulary.

(** ** The timestamp normaliser *)

Section NormalizerVocabulary.

Variable Date_parse : string -> option Z.

(** The result is a valid instant or [null]. *)
Definition instantOrNull (c : Completion (option Date)) : Prop :=
  c = Normal None \/ exists t, c = Normal (Some (mkDate (Some t))).


(** The reading of C4: total, a valid instant or [null], never a
    throw. *)
Definition totalInstantOrNull : Prop :=
  forall v : JSValue, instantOrNull (toDateStrict Date_parse v).

End NormalizerVocabulary.


(** A Firestore [Timestamp]: [seconds], [nanoseconds] and the method
    [toDate]. *)
Definition fsTimestamp (seconds nanoseconds : Z) : JSValue :=
  VObject {[ "seconds"%string := VNumber (Num seconds);
             "nanoseconds"%string := VNumber (Num nanoseconds);
             "toDate"%string :=
               VFunction (Normal (newDate (Some (seconds * 1000 + nanoseconds / 1000000)))) ]}.

(** An object whose [toDate] throws. *)
Definition brokenTimestamp : JSValue :=
  VObject {[ "toDate"%string := VFunction (Throw (Thrown "toDate failed")) ]}.

(** ** The freshness tracker *)

(** Stable insertion sort by an integer key, the pure counterpart of
    [sortC] on documents whose keys are all valid. *)
Section SortByKey.

Context {A : Type} (key : A -> Z).

Fixpoint insertBy (x : A) (l : list A) : list A :=
  match l with
  | [] => [x]
  | y :: l' => if 0 <? key x - key y then y :: insertBy x l' else x :: y :: l'
  end.

Fixpoint sortBy (l : list A) : list A :=
  match l with
  | [] => []
  | x :: l' => insertBy x (sortBy l')
  end.


End SortByKey.

Section TrackerVocabulary.

Variable Date_parse : string -> option Z.

(** The instant of a document: its [submittedAt], when it normalises to
    a valid date. *)
Definition instantOf (d : Obj) : option Z :=
  match toDateStrict Date_parse (submittedAt d) with
  | Normal (Some dt) => getTime dt
  | _ => None
  end.

Definition timeKey (d : Obj) : Z := default 0 (instantOf d).

(** The document is strictly newer than [t0]. *)
Definition exceeds (t0 : Z) (d : Obj) : bool :=
  match instantOf d with
  | Some t => t0 <? t
  | None => false
  end.

Definition normalises (d : Obj) : Prop :=
  isThrow (toDateStrict Date_parse (submittedAt d)) = false.

Definition hasInstant (d : Obj) : Prop := is_Some (instantOf d).

(** Newest first: no later document of the batch has a later instant. *)
Definition newestFirst (l : list Obj) : Prop :=
  StronglySorted
    (fun a b => forall ta tb, instantOf a = Some ta -> instantOf b = Some tb -> tb <= ta) l.

(** The order on the tracked state: nothing seen is below everything, a
    valid instant is below the later ones, an Invalid Date only below
    itself. *)
Definition notEarlier (before after : option Date) : Prop :=
  match before, after with
  | None, _ => True
  | Some _, None => False
  | Some b, Some a =>
      match getTime b, getTime a with
      | Some tb, Some ta => tb <= ta
      | None, None => True
      | _, _ => False
      end
  end.

End TrackerVocabulary.

(** The documents of the worked example; [t] is in seconds. *)
Definition guess (name : string) (t : Z) : Doc :=
  mkDoc name {[ "submittedAt"%string := fsTimestamp t 0 ]}.

Definition d1 : Doc := guess "d1" 5.
Definition d2 : Doc := guess "d2" 3.
Definition d3 : Doc := guess "d3" 7.

Definition atSecond (t : Z) : option Date := Some (mkDate (Some (t * 1000))).

(** ** The field probe of [gameStats-today.ts] *)

Section ProbeVocabulary.

Variable Date_parse : string -> option Z.
Variable ToNumber : JSValue -> Completion number.
Variable Timestamp : Type.
Variable getDocs : Query Timestamp -> Completion (list Doc).
Variables (start end_ : Date) (startTs endTs : Timestamp).

(** The range query on a candidate field fails or returns no document. *)
Definition misses (f : string) : Prop :=
  getDocs (rangeQuery Timestamp f startTs endTs) = Normal []
  \/ exists e, getDocs (rangeQuery Timestamp f startTs endTs) = Throw e.


(** The fallback fetch rejects, or the client-side scan of its
    documents throws. *)
Definition fallbackFails (fields : list string) : Prop :=
  (exists e, getDocs (allQuery Timestamp) = Throw e)
  \/ exists allSnap e,
      getDocs (allQuery Timestamp) = Normal allSnap
      /\ filterInRange Date_parse ToNumber fields start end_ (map withId allSnap) None
         = Throw e.

End ProbeVocabulary.

(** A concrete Firestore, for evaluating examples. *)
Module Examples.

Definition stat (name : string) (fields : Obj) : Doc := mkDoc name fields.

(** Two rows updated on 2025-10-04 (local), one updated in 2020. *)
Definition s1 : Doc :=
  stat "s1" {[ "email"%string := VString "ann@example.org";
               "updatedAt"%string := fsTimestamp 1759580000 0 ]}.
Definition s2 : Doc :=
  stat "s2" {[ "playerId"%string := VString "p2";
               "updatedAt"%string := fsTimestamp 1759590000 0 ]}.
Definition old1 : Doc :=
  stat "old1" {[ "email"%string := VString "bob@example.org";
                 "updatedAt"%string := fsTimestamp 1600000000 0 ]}.

Definition firstField {T} (q : Query T) : option string :=
  match q_where T q with
  | w :: _ => Some (w_field T w)
  | [] => None
  end.

(** [submittedAt] is not indexed; [updatedAt] finds two rows. *)
Definition indexedOnUpdatedAt : Query Date -> Completion (list Doc) := fun q =>
  match firstField q with
  | None => Normal [s1; s2; old1]
  | Some f =>
      if String.eqb f "submittedAt" then Throw (Thrown "The query requires an index")
      else if String.eqb f "updatedAt" then Normal [s1; s2]
      else Normal []
  end.


(** Every request is rejected. *)
Definition unavailable : Query Date -> Completion (list Doc) :=
  fun _ => Throw (Thrown "unavailable").

Definition noParse : string -> option Z := fun _ => None.
Definition toNumberNaN : JSValue -> Completion number := fun _ => Normal NaN.
Definition fromDate : Date -> Completion Date := fun d => Normal d.

(** The window of 2025-10-04 in Indianapolis. *)
Definition oct4 : Date := mkDate (Some 1759550400000).
Definition oct5 : Date := mkDate (Some 1759636800000).

End Examples.
Import Examples.

(** The reading of C5 for the [gameStats] script: whatever fails, it
    never ends in [process.exit]. *)
Definition gameStatsNeverExits : Prop :=
  forall (Intl : DateTimeFormat) (Date_parse : string -> option Z)
         (ToNumber : JSValue -> Completion number)
         (getDocs : Query Date -> Completion (list Doc)) (code : Z),
    fst (GameStatsToday.main Intl Date_parse ToNumber Date fromDate getDocs)
    <> Exited code.

(** Proves [Forall P l] on a literal list, running [tac] on each element. *)
Ltac forall_elements tac :=
  repeat (apply List.Forall_cons; [tac |]); apply List.Forall_nil.

(** ** Calendar dates and ideal formatters *)

(** Length of month [mn] (0 = January). *)
Definition daysInMonth (leap : bool) (mn : Z) : Z :=
  match mn with
  | 1 => if leap then 29 else 28
  | 3 | 5 | 8 | 10 => 30
  | _ => 31
  end.

(** [(y, m, d)] names a day of the calendar, [m] counted from 1. *)
Definition validCalendarDate (y m d : Z) : Prop :=
  1 <= m <= 12 /\ 1 <= d <= daysInMonth (isLeapYear y) (m - 1).

(** The formatter of a zone whose offset from UTC at instant [t] is
    [off t]: it shows the calendar fields of [t + off t], hours from 0 to
    23. *)
Definition clockOf (off : Z -> Z) : Z -> WallClock :=
  fun t => wallClockAt (t + off t).

(** Linear arithmetic with division and remainder by constants. *)
Ltac dlia := Z.div_mod_to_equations; lia.

(** ** The client-side scan *)

Section ScanVocabulary.

Variable Date_parse : string -> option Z.
Variable ToNumber : JSValue -> Completion number.
Variables (start end_ : Date).

(** The candidate field is skipped or converts to something outside the
    window. *)
Definition outOfWindow (d : Obj) (f : string) : Prop :=
  truthy (field d f) = false
  \/ exists dt, fieldDate Date_parse ToNumber (field d f) = Normal dt
                /\ inWindow start end_ dt = false.

(** The candidate field holds a value that converts to a date inside the
    window. *)
Definition insideWindow (d : Obj) (f : string) : Prop :=
  truthy (field d f) = true
  /\ exists dt, fieldDate Date_parse ToNumber (field d f) = Normal dt
                /\ inWindow start end_ dt = true.

(** The field by which the document passes the filter, if it does. *)
Definition matchOf (fields : list string) (d : Obj) : option string :=
  match matchingField Date_parse ToNumber fields start end_ d with
  | Normal m => m
  | Throw _ => None
  end.

Definition passes (fields : list string) (d : Obj) : bool :=
  match matchOf fields d with
  | Some _ => true
  | None => false
  end.

End ScanVocabulary.

(** Rows stamped by different fields, both inside 2025-10-04 (local). *)
Definition byUpdatedAt : Doc :=
  mkDoc "u" {[ "updatedAt"%string := fsTimestamp 1759580000 0 ]}.
Definition byCreatedAt : Doc :=
  mkDoc "c" {[ "updatedAt"%string := fsTimestamp 1600000000 0;
               "createdAt"%string := fsTimestamp 1759590000 0 ]}.

(** No range query is served; the three rows come with the full fetch. *)
Definition notIndexed : Query Date -> Completion (list Doc) := fun q =>
  match firstField q with
  | None => Normal [byUpdatedAt; old1; byCreatedAt]
  | Some _ => Throw (Thrown "The query requires an index")
  end.

(** ** The users lookup, the aggregation and the rows *)

Section LookupVocabulary.

Variable sameRef : JSValue -> JSValue -> bool.

(** How often the key [id] occurs in a list of ids. *)
Definition occurrences (id : JSValue) (ids : list JSValue) : nat :=
  length (List.filter (fun k => JSMap.sameValueZero sameRef k id) ids).

Definition playerIds (docs : list Doc) : list JSValue :=
  map (fun d => field (data d) "playerId") docs.

End LookupVocabulary.

Section AggregateVocabulary.
Import StatsTodayReport.

Variable sameRef : JSValue -> JSValue -> bool.
Variable getDoc : list JSValue -> JSValue -> Completion (option Obj).
Variable ToString : JSValue -> Completion string.
Variable ToNumber : JSValue -> Completion number.

(** The guess counts as correct. *)
Definition scoresPoint (d : Doc) : bool :=
  match pointsAwarded ToNumber (data d) with
  | Normal pa => isCorrect pa
  | Throw _ => false
  end.

(** The guesses of [docs] that a run files under the email [e]: those
    for which [getUserEmail], called for each guess in turn, answers [e]. *)
Fixpoint guessesUnder (e : JSValue) (docs : list Doc) (before : list JSValue)
    (cache : list (JSValue * JSValue)) : list Doc :=
  match docs with
  | [] => []
  | d :: rest =>
      let l := getUserEmail sameRef getDoc ToString before cache
                            (field (data d) "playerId") in
      let others :=
        guessesUnder e rest (before ++ Users.lookedUp l) (Users.cacheAfter l) in
      match Users.email l with
      | Normal e' => if JSMap.sameValueZero sameRef e' e then d :: others else others
      | Throw _ => others
      end
  end.

(** The sum of one counter over the entries of [stats]. *)
Definition sumOf (f : Entry -> Z) (stats : list (JSValue * Entry)) : Z :=
  foldr (fun kv acc => f (snd kv) + acc) 0 stats.

(** An entry that counts some guess, and no more correct ones than guesses. *)
Definition sound (kv : JSValue * Entry) : Prop :=
  1 <= total (snd kv) /\ 0 <= correct (snd kv) <= total (snd kv).

(** The entry [e0] after the guesses [g] have been added to it. *)
Definition entryOf (e0 : Entry) (g : list Doc) : Entry :=
  mkEntry (total e0 + Z.of_nat (length g))
          (correct e0 + Z.of_nat (length (List.filter scoresPoint g))).

End AggregateVocabulary.

Definition isNullish (v : JSValue) : bool :=
  match v with
  | VUndefined | VNull => true
  | _ => false
  end.

(** Falsy without being [null] or [undefined]: the empty string, [0],
    [NaN], [false]. *)
Definition blank (v : JSValue) : bool := negb (truthy v) && negb (isNullish v).

(** What a row of [gameStats-today.ts] keeps of a stored value: a number
    as it is, and [NaN] only for a stored [NaN]. *)
Definition keepsNumber (v : JSValue) (n : number) : Prop :=
  (forall x, v = VNumber x -> n = x) /\ (n = NaN -> v = VNumber NaN).

Definition rowFor (d : Obj) (r : GameStatsTodayRows.Row) : Prop :=
  (truthy (field d "email") = true -> GameStatsTodayRows.email r = field d "email")
  /\ isNullish (GameStatsTodayRows.email r) = false
  /\ keepsNumber (field d "totalPoints") (GameStatsTodayRows.totalPoints r)
  /\ keepsNumber (field d "totalPredictions") (GameStatsTodayRows.totalPredictions r).

(** The document has no email of its own and names a player. *)
Definition needsLookup (d : Obj) : bool :=
  negb (truthy (field d "email")) && truthy (field d "playerId").

(** ** Printing a guess *)

(** The fields that [stripFields] leaves out, and those that [printDoc]
    sets itself. *)
Definition hiddenFields : list string :=
  ["mode"; "pointsAwarded"; "groupId"; "userName"]%string.

Definition addedFields : list string := ["submittedAt"; "email"]%string.

(** The object that [printDoc] hands to [deepTransformTimestamps]. *)
Definition shown (rawDoc : Obj) : Obj :=
  <["id"%string := field rawDoc "id"]> (WatchPrint.stripFields rawDoc).

(** The loop of [deepTransformTimestamps] over the fields of an object. *)
Definition eachField (Date_parse : string -> option Z)
    (toLocaleString : Date -> Completion string) (props : Obj) : Completion Obj :=
  map_fold (fun k v (acc : Completion Obj) =>
              let! out := acc in
              let! v' := WatchPrint.deepTransformTimestamps Date_parse toLocaleString v in
              Normal (if String.eqb k "__proto__" then out else <[k := v']> out))
           (Normal ∅) props.

(** The time value as which [toDateStrict] reads a number or a string. *)
Definition readsAsDate (Date_parse : string -> option Z) (v : JSValue) : option Z :=
  match v with
  | VNumber (Num n) => TimeClip n
  | VString s => if String.eqb s "" then None else Date_parse s ≫= TimeClip
  | _ => None
  end.

Module UserExamples.

(** The [users] collection: [p1] has an email, [p2] an empty one, [p3]
    does not exist, anything else cannot be read. *)
Definition directory : list JSValue -> JSValue -> Completion (option Obj) := fun _ id =>
  match id with
  | VString s =>
      if String.eqb s "p1" then
        Normal (Some {[ "email"%string := VString "ann@example.org" ]})
      else if String.eqb s "p2" then Normal (Some {[ "email"%string := VString "" ]})
      else if String.eqb s "p3" then Normal None
      else Throw (Thrown "unavailable")
  | _ => Throw TypeError
  end.

Definition noRefs : JSValue -> JSValue -> bool := fun _ _ => false.
Definition noString : JSValue -> Completion string := fun _ => Throw TypeError.
Definition noNumber : JSValue -> Completion number := fun _ => Throw TypeError.

Definition guessOf (name player : string) (points : Z) : Doc :=
  mkDoc name {[ "playerId"%string := VString player;
                "pointsAwarded"%string := VNumber (Num points) ]}.

(** Five guesses of three players. *)
Definition guesses : list Doc :=
  [guessOf "g1" "p1" 0; guessOf "g2" "p9" 1; guessOf "g3" "p1" 3;
   guessOf "g4" "p9" 0; guessOf "g5" "p3" 2].

Definition tallied : list (JSValue * StatsTodayReport.Entry) :=
  [(VString "ann@example.org", StatsTodayReport.mkEntry 2 1);
   (VString "(error)", StatsTodayReport.mkEntry 2 1);
   (VString "(not found)", StatsTodayReport.mkEntry 1 1)].

(** Two rows of [gameStats]: one with its own email and a text where a
    number is expected, one that names a player. *)
Definition statRows : list Obj :=
  [ {[ "email"%string := VString "bob@example.org";
       "totalPoints"%string := VNumber (Num 7);
       "totalPredictions"%string := VNull ]};
    {[ "playerId"%string := VString "p1";
       "totalPoints"%string := VNumber NaN;
       "totalPredictions"%string := VNumber (Num 4) ]} ].


(** A formatter that shows the time value only as valid or not. *)
Definition someDate : Date -> Completion string := fun d =>
  match getTime d with
  | Some _ => Normal "10/4/2025, 08:00:00"%string
  | None => Normal "Invalid Date"%string
  end.

(** A guess as the listener hands it to [printDoc]. *)
Definition rawGuess : Obj :=
  {[ "id"%string := VString "g1";
     "playerId"%string := VString "p1";
     "submittedAt"%string := VNumber (Num 1759579200000);
     "guess"%string := VNumber (Num 42);
     "mode"%string := VString "daily";
     "pointsAwarded"%string := VNumber (Num 3) ]}.

Definition printedGuess : Obj :=
  {[ "id"%string := VString "g1";
     "playerId"%string := VString "p1";
     "submittedAt"%string := VString "10/4/2025, 08:00:00";
     "guess"%string := VString "10/4/2025, 08:00:00";
     "email"%string := VString "ann@example.org" ]}.


End UserExamples.

(** ** The two readers of timestamps *)

(** The value has a [toDate] method or nothing truthy under that name. *)
Definition toDateIsMethodOrAbsent (v : JSValue) : bool :=
  typeofIs (get v "toDate") TFunction || negb (truthy (get v "toDate")).

(** * Properties *)

(** ** Day windows *)

Section DayWindow.

Variable Intl : DateTimeFormat.

Lemma TimeClip_Some t t' : TimeClip t = Some t' -> t' = t.
Proof.
  unfold TimeClip. destruct (Z.abs t <=? maxTimeValue); congruence.
Qed.

Lemma TimeClip_in_range t : Z.abs t <= maxTimeValue -> TimeClip t = Some t.
Proof.
  intros H. unfold TimeClip. destruct (Z.leb_spec (Z.abs t) maxTimeValue); [done | lia].
Qed.

(** Consecutive days are [msPerDay] apart under [Date.UTC], whatever the
    month and day arguments roll over to. *)
Lemma Date_UTC_next_day y m d a b :
  Date_UTC y m d 0 0 0 0 = Some a ->
  Date_UTC y m (d + 1) 0 0 0 0 = Some b ->
  b - a = msPerDay.
Proof.
  unfold Date_UTC, MakeDate, MakeDay.
  set (yr := if (0 <=? y) && (y <=? 99) then 1900 + y else y).
  set (first := DayFromYear (yr + m / 12)
                + daysBeforeMonth (isLeapYear (yr + m / 12)) (m mod 12)).
  destruct (TimeClip (first * msPerDay)); [| discriminate].
  intros Ha%TimeClip_Some Hb%TimeClip_Some. subst a b.
  unfold MakeTime, msPerHour, msPerMinute, msPerSecond, msPerDay. lia.
Qed.

Lemma newDate_getTime ms t : getTime (newDate ms) = Some t -> ms = Some t.
Proof.
  destruct ms as [x |]; simpl; [| discriminate].
  intros H. by rewrite (TimeClip_Some _ _ H).
Qed.

Lemma numSub_Some a b t :
  numSub a b = Some t -> exists x y, a = Some x /\ b = Some y /\ t = x - y.
Proof.
  destruct a as [x |], b as [y |]; simpl; try discriminate.
  intros [= <-]. eauto.
Qed.

(** Both boundaries come from one offset: the window, when it is made of
    two valid instants, spans [msPerDay]. *)
Lemma window_span offsetMs y m d s e :
  getTime (newDate (numSub (Date_UTC y m d 0 0 0 0) offsetMs)) = Some s ->
  getTime (newDate (numSub (Date_UTC y m (d + 1) 0 0 0 0) offsetMs)) = Some e ->
  e - s = msPerDay.
Proof.
  intros Hs%newDate_getTime He%newDate_getTime.
  apply numSub_Some in Hs as (a & o & Ha & Ho & ->).
  apply numSub_Some in He as (b & o' & Hb & Ho' & ->).
  assert (o' = o) as -> by congruence.
  pose proof (Date_UTC_next_day _ _ _ _ _ Ha Hb). lia.
Qed.

Lemma gameStats_window_span y m d tz w s e :
  GameStatsToday.dayRangeUTC Intl y m d tz = Normal w ->
  getTime (start w) = Some s ->
  getTime (end_ w) = Some e ->
  e - s = msPerDay.
Proof.
  unfold GameStatsToday.dayRangeUTC.
  destruct (tzOffsetMsAt Intl _ _) as [offsetMs | err]; simpl; [| discriminate].
  intros [= <-]; simpl. apply window_span.
Qed.

Lemma statsToday_window_span y m d tz w s e :
  StatsToday.dayRangeUTC Intl y m d tz = Normal w ->
  getTime (start w) = Some s ->
  getTime (end_ w) = Some e ->
  e - s = msPerDay.
Proof.
  unfold StatsToday.dayRangeUTC.
  destruct (tzOffsetMsAt Intl _ _) as [offsetMs | err]; simpl; [| discriminate].
  intros [= <-]; simpl. apply window_span.
Qed.

End DayWindow.

(** 2025-03-09: daylight time starts in Indianapolis at 07:00 UTC.  The
    local day runs from 05:00 UTC to 04:00 UTC of the next day (23 hours);
    the computed window runs from 04:00 UTC to 04:00 UTC. *)
Example spring_forward_window :
  GameStatsToday.dayRangeUTC icu 2025 3 9 (Some "America/Indiana/Indianapolis"%string)
  = Normal {| start := mkDate (Some 1741492800000);
              end_ := mkDate (Some 1741579200000) |}.
Proof. vm_compute. reflexivity. Qed.

Example spring_forward_local_midnights :
  isLocalMidnight icu "America/Indiana/Indianapolis" 2025 3 9 1741496400000
  /\ isLocalMidnight icu "America/Indiana/Indianapolis" 2025 3 10 1741579200000.
Proof.
  split.
  - exists (-18000000). split; vm_compute; reflexivity.
  - exists (-14400000). split; vm_compute; reflexivity.
Qed.

(** C1 (as stated, refuted).  The window does not span the local calendar
    day: on 2025-03-09 in America/Indiana/Indianapolis the local day lasts
    23 hours (05:00 UTC to 04:00 UTC), while both versions of
    [dayRangeUTC] return a window of 24 hours. *)
Lemma dayRangeUTC_not_local_day_span :
  ~ spansLocalDay icu GameStatsToday.dayRangeUTC
  /\ ~ spansLocalDay icu StatsToday.dayRangeUTC.
Proof.
  pose proof spring_forward_local_midnights as [Hs He].
  split; intros H;
    specialize (H 2025 3 9 "America/Indiana/Indianapolis"%string
                  {| start := mkDate (Some 1741492800000);
                     end_ := mkDate (Some 1741579200000) |}
                  1741492800000 1741579200000 1741496400000 1741579200000);
    cut (1741579200000 - 1741492800000 = 1741579200000 - 1741496400000);
    [ discriminate | apply H; first [ exact Hs | exact He | vm_compute; reflexivity ]
    | discriminate | apply H; first [ exact Hs | exact He | vm_compute; reflexivity ] ].
Qed.

(** C1 (amended).  Whenever [dayRangeUTC] (either version) returns a
    window of two valid instants, [end - start] is exactly 86,400,000 ms:
    both boundaries are the UTC midnights of [day] and [day + 1] moved by
    the single offset sampled at the noon probe, so the span is a fixed 24
    hours, also on a day with a daylight-saving transition. *)
Theorem dayRangeUTC_spans_24h (Intl : DateTimeFormat) y m d tz w s e :
  GameStatsToday.dayRangeUTC Intl y m d tz = Normal w
  \/ StatsToday.dayRangeUTC Intl y m d tz = Normal w ->
  getTime (start w) = Some s ->
  getTime (end_ w) = Some e ->
  e - s = 86400000.
Proof.
  intros [H | H] Hs He.
  - exact (gameStats_window_span Intl y m d tz w s e H Hs He).
  - exact (statsToday_window_span Intl y m d tz w s e H Hs He).
Qed.

Lemma dayRangeUTC_spans_24h_witness :
  GameStatsToday.dayRangeUTC icu 2025 3 9 (Some "America/Indiana/Indianapolis"%string)
  = Normal {| start := mkDate (Some 1741492800000);
              end_ := mkDate (Some 1741579200000) |}
  /\ 1741579200000 - 1741492800000 = 86400000.
Proof.
  split; [vm_compute; reflexivity |].
  apply (dayRangeUTC_spans_24h icu 2025 3 9 (Some "America/Indiana/Indianapolis"%string)
           {| start := mkDate (Some 1741492800000);
              end_ := mkDate (Some 1741579200000) |});
    [left; vm_compute; reflexivity | reflexivity | reflexivity].
Defined.



(** C10.  [dayRangeUTC] of [stats-today.ts] never reads its [timeZone]
    argument: any two arguments, omitted, valid or invalid, give the same
    completion; and whether the call throws depends on the date alone (an
    out-of-range probe) and on the host knowing the hardcoded zone, never
    on the name passed. *)
Theorem statsToday_dayRangeUTC_ignores_timeZone (Intl : DateTimeFormat) y m d :
  (forall tz1 tz2 : option string,
      StatsToday.dayRangeUTC Intl y m d tz1 = StatsToday.dayRangeUTC Intl y m d tz2)
  /\ (forall tz : option string,
         isThrow (StatsToday.dayRangeUTC Intl y m d tz) = true
         <-> Intl "America/Indiana/Indianapolis"%string = None
             \/ Date_UTC y (m - 1) d 12 0 0 0 = None).
Proof.
  split; [reflexivity |].
  intros tz. unfold StatsToday.dayRangeUTC, tzOffsetMsAt. simpl.
  destruct (Intl "America/Indiana/Indianapolis"%string) as [dtf |]; simpl.
  - destruct (Date_UTC y (m - 1) d 12 0 0 0); simpl; split.
    + discriminate.
    + intros [? | ?]; discriminate.
    + intros _. by right.
    + done.
  - split; [intros _; by left | done].
Qed.

Lemma statsToday_dayRangeUTC_ignores_timeZone_witness :
  StatsToday.dayRangeUTC icu 2025 10 4 (Some "Mars/Olympus_Mons"%string)
  = StatsToday.dayRangeUTC icu 2025 10 4 None
  /\ isThrow (StatsToday.dayRangeUTC icu 2025 10 4 (Some "Mars/Olympus_Mons"%string))
     <> true.
Proof.
  destruct (statsToday_dayRangeUTC_ignores_timeZone icu 2025 10 4) as [Hsame Hthrow].
  split; [apply Hsame |].
  intros H. apply Hthrow in H as [H | H].
  - unfold icu in H.
    change (zoneOffset "America/Indiana/Indianapolis") with (Some usEastern) in H.
    discriminate.
  - vm_compute in H. discriminate.
Defined.

(** The host formatter [icu] rejects the misspelt default name, and the
    [stats-today.ts] version still returns; the [gameStats-today.ts]
    version, which reads its argument, throws on the same name. *)
Example misspelt_zone_name :
  icu StatsToday.defaultTimeZone = None
  /\ StatsToday.dayRangeUTC icu 2025 10 4 None
     = Normal {| start := mkDate (Some 1759550400000);
                 end_ := mkDate (Some 1759636800000) |}
  /\ GameStatsToday.dayRangeUTC icu 2025 10 4 (Some StatsToday.defaultTimeZone)
     = Throw RangeError.
Proof. repeat split; vm_compute; reflexivity. Qed.

(** ** The timestamp normaliser *)

Section NormalizerFacts.

Variable Date_parse : string -> option Z.

Lemma nullIfInvalid_instantOrNull d : instantOrNull (Normal (nullIfInvalid d)).
Proof.
  destruct d as [[t |]]; unfold nullIfInvalid; simpl; [right; eauto | by left].
Qed.

Lemma newDate_in_range t :
  Z.abs t <= 8640000000000000 -> newDate (Some t) = mkDate (Some t).
Proof. intros H. unfold newDate. by rewrite TimeClip_in_range. Qed.



End NormalizerFacts.




(** C4 (as stated, refuted).  Two inputs of the declared type
    [MaybeTimestamp] on which the result is neither a valid instant nor
    [null]: an invalid native [Date] is returned as it is, and an object
    whose [toDate] throws makes the normaliser throw. *)
Lemma toDateStrict_not_total :
  toDateStrict (fun _ => None) (VDate InvalidDate) = Normal (Some InvalidDate)
  /\ toDateStrict (fun _ => None) brokenTimestamp = Throw (Thrown "toDate failed")
  /\ ~ totalInstantOrNull (fun _ => None).
Proof.
  split; [reflexivity |]. split; [vm_compute; reflexivity |].
  intros Hall. destruct (Hall (VDate InvalidDate)) as [H | [t H]]; discriminate.
Qed.

(** C4 (amended).  On every input that is not an object with a callable
    [toDate] and not an invalid native [Date], the normaliser returns a
    valid instant or [null] and does not raise.  On an object with a
    callable [toDate] it returns what [toDate()] returns and raises what
    [toDate()] raises. *)
Theorem toDateStrict_total_without_delegation
    (Date_parse : string -> option Z) (v : JSValue) :
  (isFSTimestampMethod v = false ->
   v <> VDate InvalidDate ->
   instantOrNull (toDateStrict Date_parse v))
  /\ (isFSTimestampMethod v = true ->
      toDateStrict Date_parse v
      = (let! d := call0 (get v "toDate") in Normal (Some d))).
Proof.
  split.
  - intros Hm Hd. unfold toDateStrict. rewrite Hm.
    destruct (negb (truthy v) && strictNotZero v); [by left |].
    destruct (isFSTimestampPojo v); [apply nullIfInvalid_instantOrNull |].
    destruct v as [| | b | n | s | [[t |]] | items | props | f]; simpl;
      try (by left); try apply nullIfInvalid_instantOrNull.
    right. eauto.
  - intros Hm. unfold toDateStrict. rewrite Hm.
    destruct (negb (truthy v) && strictNotZero v) eqn:Hfalsy; [| reflexivity].
    unfold isFSTimestampMethod in Hm.
    destruct (truthy v); simpl in *; discriminate.
Qed.

Lemma toDateStrict_total_without_delegation_witness :
  instantOrNull (toDateStrict (fun _ => None) (VString "not a date"))
  /\ toDateStrict (fun _ => None) (fsTimestamp 1700000000 500000000)
     = Normal (Some (mkDate (Some 1700000000500))).
Proof.
  split.
  - apply (proj1 (toDateStrict_total_without_delegation
                    (fun _ => None) (VString "not a date")));
      [reflexivity | discriminate].
  - rewrite (proj2 (toDateStrict_total_without_delegation
                      (fun _ => None) (fsTimestamp 1700000000 500000000)));
      vm_compute; reflexivity.
Defined.

(** The inputs listed with the property, for a host parser that rejects
    the string. *)
Example toDateStrict_listed_inputs (Date_parse : string -> option Z) :
  Date_parse "soon" = None ->
  toDateStrict Date_parse VNull = Normal None
  /\ toDateStrict Date_parse VUndefined = Normal None
  /\ toDateStrict Date_parse (VNumber NaN) = Normal None
  /\ toDateStrict Date_parse (VString "soon") = Normal None
  /\ toDateStrict Date_parse (VObject {[ "points"%string := VNumber (Num 3) ]})
     = Normal None
  /\ toDateStrict Date_parse (VDate (mkDate (Some 1700000000500)))
     = Normal (Some (mkDate (Some 1700000000500)))
  /\ toDateStrict Date_parse (VNumber (Num 0)) = Normal (Some (mkDate (Some 0))).
Proof.
  intros Hp. repeat split; try reflexivity.
  cbn. rewrite Hp. reflexivity.
Qed.

(** ** The freshness tracker *)

Section SortBy.

Context {A : Type} (key : A -> Z).

Lemma insertBy_Permutation x l : insertBy key x l ≡ₚ x :: l.
Proof.
  induction l as [| y l IH]; simpl; [done |].
  destruct (0 <? key x - key y); [| done].
  rewrite IH. apply Permutation_swap.
Qed.

Lemma sortBy_Permutation l : sortBy key l ≡ₚ l.
Proof.
  induction l as [| x l IH]; simpl; [done |].
  by rewrite insertBy_Permutation, IH.
Qed.



End SortBy.

Section Tracker.

Variable Date_parse : string -> option Z.
Variable printDoc : Obj -> Completion unit.

Abbreviation toDate := (toDateStrict Date_parse).
Abbreviation observe := (onSnapshot Date_parse printDoc).

Lemma instantOf_Some d t :
  instantOf Date_parse d = Some t -> toDate (submittedAt d) = Normal (Some (mkDate (Some t))).
Proof.
  unfold instantOf.
  destruct (toDate (submittedAt d)) as [[[tv] |] | e]; simpl; congruence.
Qed.

Lemma exceeds_instantOf t0 d :
  exceeds Date_parse t0 d = true -> exists t, instantOf Date_parse d = Some t /\ t0 < t.
Proof.
  unfold exceeds. destruct (instantOf Date_parse d) as [t |]; [| discriminate].
  intros H%Z.ltb_lt. eauto.
Qed.

Lemma isFresh_exceeds t0 d :
  normalises Date_parse d ->
  isFresh Date_parse (mkDate (Some t0)) d = Normal (exceeds Date_parse t0 d).
Proof.
  unfold normalises, isFresh, exceeds, instantOf.
  destruct (toDate (submittedAt d)) as [[[[t |]] |] | e]; simpl; done.
Qed.

Lemma filterC_filter {A} (p : A -> Completion bool) (q : A -> bool) (l : list A) :
  Forall (fun x => p x = Normal (q x)) l ->
  filterC p l = Normal (List.filter q l).
Proof.
  induction 1 as [| x l Hx _ IH]; simpl; [done |].
  rewrite Hx, IH. simpl. by destruct (q x).
Qed.

Lemma oldestFirst_keys a b ta tb :
  instantOf Date_parse a = Some ta -> instantOf Date_parse b = Some tb ->
  oldestFirst Date_parse a b = Normal (Some (timeKey Date_parse a - timeKey Date_parse b)).
Proof.
  intros Ha Hb. unfold oldestFirst, timeOrZero, timeKey.
  rewrite Ha, Hb.
  rewrite (instantOf_Some _ _ Ha), (instantOf_Some _ _ Hb). reflexivity.
Qed.

Lemma insertC_insertBy x l :
  hasInstant Date_parse x -> Forall (hasInstant Date_parse) l ->
  insertC (oldestFirst Date_parse) x l = Normal (insertBy (timeKey Date_parse) x l).
Proof.
  intros [tx Hx]. induction 1 as [| y l [ty Hy] _ IH]; simpl; [done |].
  rewrite (oldestFirst_keys _ _ _ _ Hx Hy). simpl.
  destruct (0 <? timeKey Date_parse x - timeKey Date_parse y); [| done].
  by rewrite IH.
Qed.

Lemma sortC_sortBy l :
  Forall (hasInstant Date_parse) l ->
  sortC (oldestFirst Date_parse) l = Normal (sortBy (timeKey Date_parse) l).
Proof.
  induction 1 as [| x l Hx Hl IH]; simpl; [done |].
  rewrite IH. simpl. apply insertC_insertBy; [done |].
  by rewrite sortBy_Permutation.
Qed.

Lemma filter_exceeds_hasInstant t0 l :
  Forall (hasInstant Date_parse) (List.filter (exceeds Date_parse t0) l).
Proof.
  apply Forall_forall. intros d Hd%list_elem_of_In%filter_In.
  destruct Hd as [_ (t & Ht & _)%exceeds_instantOf]. by exists t.
Qed.

(** The filtered and sorted batch is the pure one. *)
Lemma freshOf_pure t0 nowDocs :
  Forall (normalises Date_parse) nowDocs ->
  freshOf Date_parse (mkDate (Some t0)) nowDocs
  = Normal (sortBy (timeKey Date_parse) (List.filter (exceeds Date_parse t0) nowDocs)).
Proof.
  intros Hn. unfold freshOf.
  rewrite (filterC_filter _ (exceeds Date_parse t0)).
  - simpl. apply sortC_sortBy, filter_exceeds_hasInstant.
  - eapply Forall_impl; [exact Hn |]. intros d. apply isFresh_exceeds.
Qed.

Lemma printAll_all l :
  Forall (fun d => printDoc d = Normal tt) l ->
  printAll printDoc l = (l, Normal tt).
Proof.
  induction 1 as [| d l Hd _ IH]; simpl; [done |].
  by rewrite Hd, IH.
Qed.

(** One run of the callback once something has been seen, in terms of
    its intermediate values. *)
Lemma onSnapshot_subsequent seen d snap newest f fresh latest :
  toDate (submittedAt (withId d)) = Normal newest ->
  freshOf Date_parse seen (map withId (d :: snap)) = Normal (f :: fresh) ->
  printAll printDoc (f :: fresh) = (f :: fresh, Normal tt) ->
  toDate (default VUndefined (submittedAt <$> last (f :: fresh))) = Normal latest ->
  observe (Some seen) (d :: snap)
  = mkRun (if advances latest (Some seen) then latest else Some seen)
          (f :: fresh) (Normal tt).
Proof.
  intros Hnew Hfresh Hprint Hlatest.
  unfold onSnapshot. cbn [map] in *. rewrite Hnew, Hfresh, Hprint, Hlatest.
  by destruct (advances latest (Some seen)).
Qed.

Lemma onSnapshot_nothing_fresh seen d snap newest :
  toDate (submittedAt (withId d)) = Normal newest ->
  freshOf Date_parse seen (map withId (d :: snap)) = Normal [] ->
  observe (Some seen) (d :: snap) = mkRun (Some seen) [] (Normal tt).
Proof.
  intros Hnew Hfresh. unfold onSnapshot. cbn [map] in *. by rewrite Hnew, Hfresh.
Qed.

Lemma notEarlier_refl s : notEarlier s s.
Proof. destruct s as [[[t |]] |]; simpl; done. Qed.

Lemma notEarlier_trans s1 s2 s3 :
  notEarlier s1 s2 -> notEarlier s2 s3 -> notEarlier s1 s3.
Proof.
  destruct s1 as [[[t1 |]] |], s2 as [[[t2 |]] |], s3 as [[[t3 |]] |];
    simpl; try done; lia.
Qed.

Lemma advances_notEarlier latest s :
  advances latest s = true -> notEarlier s latest.
Proof.
  destruct latest as [[[tl |]] |], s as [[[ts |]] |]; simpl; try done.
  intros H%Z.ltb_lt. lia.
Qed.

(** One observation never moves the tracked state back, however the
    callback ends. *)
Lemma onSnapshot_notEarlier s snap :
  notEarlier s (lastSeenAfter (observe s snap)).
Proof.
  unfold onSnapshot.
  destruct (map withId snap) as [| first rest]; [apply notEarlier_refl |].
  destruct (toDate (submittedAt first)) as [newest | e]; [| apply notEarlier_refl].
  destruct s as [seen |]; [| done].
  destruct (freshOf Date_parse seen (first :: rest)) as [[| f fresh] | e];
    try apply notEarlier_refl.
  destruct (printAll printDoc (f :: fresh)) as [p [u | e]];
    [| apply notEarlier_refl].
  destruct (toDate _) as [latest | e]; [| apply notEarlier_refl].
  destruct (advances latest (Some seen)) eqn:Hadv;
    [by apply advances_notEarlier | apply notEarlier_refl].
Qed.

Lemma observeAll_app s snaps1 snaps2 :
  observeAll Date_parse printDoc s (snaps1 ++ snaps2)
  = observeAll Date_parse printDoc (observeAll Date_parse printDoc s snaps1) snaps2.
Proof. unfold observeAll. apply fold_left_app. Qed.

Lemma observeAll_notEarlier s snaps :
  notEarlier s (observeAll Date_parse printDoc s snaps).
Proof.
  revert s. induction snaps as [| snap snaps IH]; intros s; simpl.
  - apply notEarlier_refl.
  - eapply notEarlier_trans; [apply onSnapshot_notEarlier | apply IH].
Qed.

(** With overlapping invocations too, no event moves the state back. *)
Lemma handle_notEarlier l ev :
  notEarlier (lastSeen l) (lastSeen (handle Date_parse printDoc l ev)).
Proof.
  destruct ev as [snap | i]; cbn [handle].
  - unfold deliver.
    destruct (map withId snap) as [| first rest]; [apply notEarlier_refl |].
    destruct (toDate (submittedAt first)) as [newest | e]; [| apply notEarlier_refl].
    destruct (lastSeen l) as [seen |] eqn:Hseen; [| done].
    destruct (freshOf Date_parse seen (first :: rest)) as [[| f fresh] | e];
      cbn [lastSeen]; rewrite ?Hseen; apply notEarlier_refl.
  - unfold resume.
    destruct (suspended l !! i) as [fresh |]; [| apply notEarlier_refl].
    destruct (printAll printDoc fresh) as [p [u | e]];
      [| apply notEarlier_refl].
    destruct (toDate _) as [latest | e]; [| apply notEarlier_refl].
    destruct (advances latest (lastSeen l)) eqn:Hadv;
      [by apply advances_notEarlier | apply notEarlier_refl].
Qed.

Lemma handleAll_notEarlier l evs :
  notEarlier (lastSeen l) (lastSeen (handleAll Date_parse printDoc l evs)).
Proof.
  revert l. induction evs as [| ev evs IH]; intros l; simpl.
  - apply notEarlier_refl.
  - eapply notEarlier_trans; [apply handle_notEarlier | apply IH].
Qed.

End Tracker.

Section TrackerBehaviour.

Variable Date_parse : string -> option Z.
Variable printDoc : Obj -> Completion unit.


Lemma newestFirst_head d l t :
  newestFirst Date_parse (d :: l) ->
  instantOf Date_parse d = Some t ->
  forall d' t', d' ∈ d :: l -> instantOf Date_parse d' = Some t' -> t' <= t.
Proof.
  intros Hs%StronglySorted_inv Hd d' t' Hin Hd'. destruct Hs as [_ Hall].
  apply elem_of_cons in Hin as [-> | Hin].
  - assert (t' = t) by congruence. lia.
  - rewrite Forall_forall in Hall. by apply (Hall d' Hin).
Qed.

Lemma instantOf_of_toDateStrict d t :
  toDateStrict Date_parse (submittedAt d) = Normal (Some (mkDate (Some t))) ->
  instantOf Date_parse d = Some t.
Proof. intros H. unfold instantOf. by rewrite H. Qed.

(** A later observation: what is printed and where the state goes. *)
Lemma onSnapshot_fresh t0 snap :
  Forall (normalises Date_parse) (map withId snap) ->
  Forall (fun d => printDoc d = Normal tt) (map withId snap) ->
  let fresh := sortBy (timeKey Date_parse)
                 (List.filter (exceeds Date_parse t0) (map withId snap)) in
  onSnapshot Date_parse printDoc (Some (mkDate (Some t0))) snap
  = mkRun (Some (mkDate (Some match last fresh with
                                | Some d => timeKey Date_parse d
                                | None => t0
                                end)))
          fresh (Normal tt).
Proof.
  intros Hn Hp fresh.
  destruct snap as [| d snap]; [reflexivity |].
  pose proof (freshOf_pure Date_parse t0 _ Hn) as Hfresh. fold fresh in Hfresh.
  assert (Hnew : exists newest,
             toDateStrict Date_parse (submittedAt (withId d)) = Normal newest).
  { apply Forall_inv in Hn. unfold normalises in Hn.
    destruct (toDateStrict Date_parse (submittedAt (withId d))); [eauto | done]. }
  destruct Hnew as [newest Hnew].
  assert (Hsub : forall x, x ∈ fresh -> x ∈ map withId (d :: snap)
                                        /\ exceeds Date_parse t0 x = true).
  { intros x Hx. subst fresh. rewrite sortBy_Permutation in Hx.
    apply list_elem_of_In, filter_In in Hx as [Hx ?]. by apply list_elem_of_In in Hx. }
  destruct fresh as [| f rest] eqn:Hf.
  { by apply onSnapshot_nothing_fresh with (newest := newest). }
  destruct (last (f :: rest)) as [dl |] eqn:Hlast;
    [| by apply last_None in Hlast].
  destruct (Hsub dl (last_Some_elem_of _ _ Hlast)) as [_ Hex].
  apply exceeds_instantOf in Hex as (tl & Htl & Hlt).
  rewrite (onSnapshot_subsequent Date_parse printDoc _ d snap newest f rest
             (Some (mkDate (Some tl))) Hnew Hfresh).
  - unfold advances, gtTime. cbn [getTime].
    destruct (Z.ltb_spec t0 tl); [| lia].
    unfold timeKey. by rewrite Htl.
  - apply printAll_all, Forall_forall. intros x Hx.
    rewrite Forall_forall in Hp. by apply Hp, Hsub.
  - rewrite Hlast. cbn. by apply instantOf_Some.
Qed.

End TrackerBehaviour.



(** C6.  The tracked state never moves back: after one observation,
    however the callback ends, and hence between any two points of any
    sequence of observed batches, the later state is not earlier than the
    former; this includes the state left by the initial load, batches
    that are stale with respect to the state, and invocations of the
    callback that overlap at their awaits. *)
Theorem lastSeen_never_decreases
    (Date_parse : string -> option Z) (printDoc : Obj -> Completion unit) :
  (forall s snap,
      notEarlier s (lastSeenAfter (onSnapshot Date_parse printDoc s snap)))
  /\ (forall s snaps1 snaps2,
         notEarlier (observeAll Date_parse printDoc s snaps1)
                    (observeAll Date_parse printDoc s (snaps1 ++ snaps2)))
  /\ (forall initial snaps,
         notEarlier (lastSeenAfter (initialLoad Date_parse printDoc initial))
                    (observeAll Date_parse printDoc
                       (lastSeenAfter (initialLoad Date_parse printDoc initial)) snaps))
  /\ (forall l evs1 evs2,
         notEarlier (lastSeen (handleAll Date_parse printDoc l evs1))
                    (lastSeen (handleAll Date_parse printDoc l (evs1 ++ evs2)))).
Proof.
  split; [| split; [| split]].
  - apply onSnapshot_notEarlier.
  - intros s snaps1 snaps2. rewrite observeAll_app. apply observeAll_notEarlier.
  - intros initial snaps. apply observeAll_notEarlier.
  - intros l evs1 evs2. unfold handleAll. rewrite fold_left_app.
    apply handleAll_notEarlier.
Qed.

(** A stale batch after the state has reached t=7: nothing is printed and
    the state stays. *)
Example stale_batch_keeps_state :
  onSnapshot (fun _ => None) (fun _ => Normal tt) (atSecond 7) [d1; d2]
  = mkRun (atSecond 7) [] (Normal tt)
  /\ observeAll (fun _ => None) (fun _ => Normal tt) None [[d1; d2]; [d3; d1; d2]; [d1; d2]]
     = atSecond 7.
Proof. split; vm_compute; reflexivity. Qed.

(** Two overlapping invocations: the first is suspended holding [[d3]],
    the second sees a document at t=9 and finishes first; when the first
    one resumes, its newest document (t=7) is older than the state and the
    final guard leaves the state at 9. *)
Example overlapping_invocations_keep_newest :
  lastSeen (handleAll (fun _ => None) (fun _ => Normal tt)
              (mkListener (atSecond 5) [])
              [Deliver [d3; d1; d2]; Deliver [guess "d4" 9; d3; d1];
               Resume 1; Resume 0])
  = atSecond 9.
Proof. vm_compute. reflexivity. Qed.

(** ** The field probe of [gameStats-today.ts] *)

Section Probe.

Variable Date_parse : string -> option Z.
Variable ToNumber : JSValue -> Completion number.
Variable Timestamp : Type.
Variable getDocs : Query Timestamp -> Completion (list Doc).

Variables (start end_ : Date) (startTs endTs : Timestamp).

Abbreviation rq := (fun f : string => rangeQuery Timestamp f startTs endTs).

(** The two ways out of the loop over the candidates: every candidate
    missed, or a first candidate returned documents. *)
Lemma rangeLoop_spec fields issued :
  (Forall (misses Timestamp getDocs startTs endTs) fields
   /\ rangeLoop Timestamp getDocs fields startTs endTs issued
      = (None, [], issued ++ map rq fields))
  \/ (exists pre f post d ds,
         fields = pre ++ f :: post
         /\ Forall (misses Timestamp getDocs startTs endTs) pre
         /\ getDocs (rq f) = Normal (d :: ds)
         /\ rangeLoop Timestamp getDocs fields startTs endTs issued
            = (Some f, map withId (d :: ds), issued ++ map rq (pre ++ [f]))).
Proof.
  revert issued. induction fields as [| g fields IH]; intros issued.
  - left. split; [constructor |]. simpl. by rewrite app_nil_r.
  - cbn [rangeLoop].
    destruct (getDocs (rangeQuery Timestamp g startTs endTs)) as [[| d ds] | e] eqn:Hg.
    + destruct (IH (issued ++ [rq g]))
        as [[Hall Heq] | (pre & f & post & d & ds & -> & Hpre & Hf & Heq)].
      * left. split; [constructor; [by left | done] |].
        rewrite Heq. cbn [map]. by rewrite <- app_assoc.
      * right. exists (g :: pre), f, post, d, ds.
        split; [done |]. split; [constructor; [by left | done] |]. split; [done |].
        rewrite Heq. cbn [map app]. by rewrite <- app_assoc.
    + right. exists [], g, fields, d, ds. repeat split; try done.
    + destruct (IH (issued ++ [rq g]))
        as [[Hall Heq] | (pre & f & post & d & ds & -> & Hpre & Hf & Heq)].
      * left. split; [constructor; [right; eauto | done] |].
        rewrite Heq. cbn [map]. by rewrite <- app_assoc.
      * right. exists (g :: pre), f, post, d, ds.
        split; [done |]. split; [constructor; [right; eauto | done] |]. split; [done |].
        rewrite Heq. cbn [map app]. by rewrite <- app_assoc.
Qed.

Lemma misses_not_hit f d ds :
  misses Timestamp getDocs startTs endTs f -> getDocs (rq f) = Normal (d :: ds) -> False.
Proof. intros [H | [e H]] Hhit; congruence. Qed.

Lemma rangeLoop_first_hit pre f post d ds issued :
  Forall (misses Timestamp getDocs startTs endTs) pre ->
  getDocs (rq f) = Normal (d :: ds) ->
  rangeLoop Timestamp getDocs (pre ++ f :: post) startTs endTs issued
  = (Some f, map withId (d :: ds), issued ++ map rq (pre ++ [f])).
Proof.
  intros Hpre Hf. revert issued.
  induction Hpre as [| g pre Hg _ IH]; intros issued; cbn [app rangeLoop].
  - by rewrite Hf.
  - rewrite IH, <- app_assoc. cbn [map app].
    by destruct Hg as [-> | [e ->]].
Qed.

Lemma rangeLoop_all_miss fields issued :
  Forall (misses Timestamp getDocs startTs endTs) fields ->
  rangeLoop Timestamp getDocs fields startTs endTs issued
  = (None, [], issued ++ map rq fields).
Proof.
  intros Hall. revert issued.
  induction Hall as [| g fields Hg _ IH]; intros issued; cbn [rangeLoop map].
  - by rewrite app_nil_r.
  - rewrite IH, <- app_assoc. cbn [app].
    by destruct Hg as [-> | [e ->]].
Qed.



Lemma probe_exits fields code :
  fst (probe Date_parse ToNumber Timestamp getDocs fields start end_ startTs endTs)
  = Exited code
  <-> code = 1
      /\ Forall (misses Timestamp getDocs startTs endTs) fields
      /\ fallbackFails Date_parse ToNumber Timestamp getDocs start end_ fields.
Proof.
  unfold probe.
  destruct (rangeLoop_spec fields [])
    as [[Hall ->] | (pre & f & post & d & ds & -> & Hpre & Hf & ->)].
  - unfold fallbackFails.
    destruct (getDocs (allQuery Timestamp)) as [allSnap | e]; cbn [bindC].
    + destruct (filterInRange _ _ _ _ _ _ _) as [[kept used] | e] eqn:Hscan;
        cbn [bindC fst snd].
      * split; [discriminate |].
        intros (_ & _ & [[e He] | (snap & e & [= <-] & He)]); congruence.
      * split; [| by intros (-> & _)].
        intros [= <-]. split; [done |]. split; [done |].
        right. by exists allSnap, e.
    + split; [| by intros (-> & _)].
      intros [= <-]. split; [done |]. split; [done |]. left. by exists e.
  - cbn [map fst]. split; [discriminate |].
    intros (_ & Hall & _). apply Forall_app in Hall as [_ Hall].
    apply Forall_cons in Hall as [Hmiss _].
    destruct (misses_not_hit f d ds Hmiss Hf).
Qed.

End Probe.

(** C3.  The candidates are tried in order, each with one range query
    [field >= start], [field < end] on [gameStats]; candidates whose query
    throws or returns nothing are passed over; the first candidate whose
    query returns at least one document is accepted with exactly those
    documents, and the queries issued are those of the candidates up to
    that one: no later candidate and no full fetch is attempted.  In
    particular, for candidates [A; B; C] with A throwing and B returning
    two documents, the field is B, the documents are those two, and C is
    not queried. *)
Theorem probe_accepts_first_match
    (Date_parse : string -> option Z) (ToNumber : JSValue -> Completion number)
    (Timestamp : Type) (getDocs : Query Timestamp -> Completion (list Doc))
    (start end_ : Date) (startTs endTs : Timestamp) :
  (forall pre f post d ds,
      Forall (misses Timestamp getDocs startTs endTs) pre ->
      getDocs (rangeQuery Timestamp f startTs endTs) = Normal (d :: ds) ->
      probe Date_parse ToNumber Timestamp getDocs (pre ++ f :: post)
            start end_ startTs endTs
      = (Finished (report (Some f) (map withId (d :: ds))),
         map (fun g => mkQuery "gameStats" [mkWhere g OpGe startTs; mkWhere g OpLt endTs])
             (pre ++ [f])))
  /\ (forall A B C e x y,
         getDocs (rangeQuery Timestamp A startTs endTs) = Throw e ->
         getDocs (rangeQuery Timestamp B startTs endTs) = Normal [x; y] ->
         probe Date_parse ToNumber Timestamp getDocs [A; B; C] start end_ startTs endTs
         = (Finished (report (Some B) [withId x; withId y]),
            [rangeQuery Timestamp A startTs endTs; rangeQuery Timestamp B startTs endTs])).
Proof.
  assert (Hgen : forall pre f post d ds,
             Forall (misses Timestamp getDocs startTs endTs) pre ->
             getDocs (rangeQuery Timestamp f startTs endTs) = Normal (d :: ds) ->
             probe Date_parse ToNumber Timestamp getDocs (pre ++ f :: post)
                   start end_ startTs endTs
             = (Finished (report (Some f) (map withId (d :: ds))),
                map (fun g => rangeQuery Timestamp g startTs endTs) (pre ++ [f]))).
  { intros pre f post d ds Hpre Hf. unfold probe.
    by rewrite (rangeLoop_first_hit Timestamp getDocs startTs endTs
                  pre f post d ds [] Hpre Hf). }
  split; [exact Hgen |].
  intros A B C e x y HA HB.
  apply (Hgen [A] B [C] x [y]); [| exact HB].
  constructor; [right; by exists e | constructor].
Qed.

Lemma probe_accepts_first_match_witness :
  probe noParse toNumberNaN Date indexedOnUpdatedAt TIME_FIELDS oct4 oct5 oct4 oct5
  = (Finished {| usedField := Some "updatedAt"%string;
                 docs := [withId s1; withId s2];
                 diagnostic := FilteredBy "updatedAt" |},
     [rangeQuery Date "submittedAt" oct4 oct5; rangeQuery Date "updatedAt" oct4 oct5]).
Proof.
  destruct (probe_accepts_first_match noParse toNumberNaN Date indexedOnUpdatedAt
              oct4 oct5 oct4 oct5) as [Hgen _].
  apply (Hgen ["submittedAt"%string] "updatedAt"%string
              ["lastUpdatedAt"; "createdAt"; "gameDate"]%string s1 [s2]).
  - constructor; [| constructor]. right. eexists. reflexivity.
  - reflexivity.
Defined.



(** C5 (as stated, refuted).  With a Firestore that rejects every
    request, [gameStats-today.ts] passes over its five candidate queries
    and then terminates with [process.exit(1)] on the full fetch. *)
Lemma gameStats_exits_when_fetch_fails :
  GameStatsToday.main icu noParse toNumberNaN Date fromDate unavailable
  = (Exited 1,
     map (fun g => rangeQuery Date g oct4 oct5) TIME_FIELDS ++ [allQuery Date])
  /\ ~ gameStatsNeverExits.
Proof.
  assert (H : GameStatsToday.main icu noParse toNumberNaN Date fromDate unavailable
              = (Exited 1,
                 map (fun g => rangeQuery Date g oct4 oct5) TIME_FIELDS ++ [allQuery Date]))
    by (vm_compute; reflexivity).
  split; [exact H |].
  intros Hnever.
  apply (Hnever icu noParse toNumberNaN unavailable 1). by rewrite H.
Qed.

(** C5 (amended).  [process.exit(1)] is reached on exactly two paths.  In
    [stats-today.ts]: when the range query on [guesses.submittedAt]
    rejects.  In [gameStats-today.ts]: when every candidate range query
    has failed or returned no document and then the full fetch rejects or
    the client-side scan of its documents throws.  A candidate range query
    that fails is passed over and does not end the process by itself. *)
Theorem explicit_exit_paths
    (Intl : DateTimeFormat) (Date_parse : string -> option Z)
    (ToNumber : JSValue -> Completion number)
    (Timestamp : Type) (Timestamp_fromDate : Date -> Completion Timestamp)
    (getDocs : Query Timestamp -> Completion (list Doc)) (code : Z) :
  (fst (StatsToday.main Intl Timestamp Timestamp_fromDate getDocs) = Exited code
   <-> code = 1
       /\ exists w startTs endTs,
           StatsToday.dayRangeUTC Intl 2025 10 4 (Some "America/Indiana/Indianapolis"%string)
           = Normal w
           /\ Timestamp_fromDate (start w) = Normal startTs
           /\ Timestamp_fromDate (end_ w) = Normal endTs
           /\ exists e, getDocs (StatsToday.guessesQuery Timestamp startTs endTs) = Throw e)
  /\ (fst (GameStatsToday.main Intl Date_parse ToNumber Timestamp Timestamp_fromDate getDocs)
      = Exited code
      <-> code = 1
          /\ exists w startTs endTs,
              GameStatsToday.dayRangeUTC Intl 2025 10 4
                (Some "America/Indiana/Indianapolis"%string) = Normal w
              /\ Timestamp_fromDate (start w) = Normal startTs
              /\ Timestamp_fromDate (end_ w) = Normal endTs
              /\ Forall (misses Timestamp getDocs startTs endTs) TIME_FIELDS
              /\ fallbackFails Date_parse ToNumber Timestamp getDocs
                   (start w) (end_ w) TIME_FIELDS).
Proof.
  split.
  - unfold StatsToday.main.
    destruct (StatsToday.dayRangeUTC Intl 2025 10 4 _) as [w | e0]; cbn [fst].
    2: { split; [discriminate | intros (_ & w & ? & ? & ? & _); discriminate]. }
    destruct (Timestamp_fromDate (start w)) as [startTs | e0] eqn:Hs; cbn [fst].
    2: { split; [discriminate |].
         intros (_ & w' & ? & ? & [= <-] & ? & _). congruence. }
    destruct (Timestamp_fromDate (end_ w)) as [endTs | e0] eqn:He; cbn [fst].
    2: { split; [discriminate |].
         intros (_ & w' & ? & ? & [= <-] & ? & ? & _). congruence. }
    destruct (getDocs (StatsToday.guessesQuery Timestamp startTs endTs))
      as [snap | e0] eqn:Hq; cbn [fst].
    + split; [discriminate |].
      intros (_ & w' & s' & e' & [= <-] & Hs' & He' & e1 & Hq').
      assert (s' = startTs) as -> by congruence.
      assert (e' = endTs) as -> by congruence. congruence.
    + split; [| by intros (-> & _)].
      intros [= <-]. split; [done |]. exists w, startTs, endTs. eauto 6.
  - unfold GameStatsToday.main.
    destruct (GameStatsToday.dayRangeUTC Intl 2025 10 4 _) as [w | e0]; cbn [fst].
    2: { split; [discriminate | intros (_ & w & ? & ? & ? & _); discriminate]. }
    destruct (Timestamp_fromDate (start w)) as [startTs | e0] eqn:Hs; cbn [fst].
    2: { split; [discriminate |].
         intros (_ & w' & ? & ? & [= <-] & ? & _). congruence. }
    destruct (Timestamp_fromDate (end_ w)) as [endTs | e0] eqn:He; cbn [fst].
    2: { split; [discriminate |].
         intros (_ & w' & ? & ? & [= <-] & ? & ? & _). congruence. }
    rewrite probe_exits. split.
    + intros (-> & Hmiss & Hfail). split; [done |]. exists w, startTs, endTs. eauto 6.
    + intros (-> & w' & s' & e' & [= <-] & Hs' & He' & Hmiss & Hfail).
      assert (s' = startTs) as -> by congruence.
      assert (e' = endTs) as -> by congruence. done.
Qed.

Lemma explicit_exit_paths_witness :
  fst (StatsToday.main icu Date fromDate unavailable) = Exited 1
  /\ fst (GameStatsToday.main icu noParse toNumberNaN Date fromDate unavailable) = Exited 1
  /\ fst (GameStatsToday.main icu noParse toNumberNaN Date fromDate indexedOnUpdatedAt)
     <> Exited 1.
Proof.
  pose proof (explicit_exit_paths icu noParse toNumberNaN Date fromDate unavailable 1)
    as [Hstats Hgame].
  pose proof (explicit_exit_paths icu noParse toNumberNaN Date fromDate
                indexedOnUpdatedAt 1) as [_ Hindexed].
  split; [| split].
  - apply Hstats. split; [reflexivity |].
    exists {| start := oct4; end_ := oct5 |}, oct4, oct5.
    split; [vm_compute; reflexivity |]. split; [reflexivity |]. split; [reflexivity |].
    eexists. reflexivity.
  - apply Hgame. split; [reflexivity |].
    exists {| start := oct4; end_ := oct5 |}, oct4, oct5.
    split; [vm_compute; reflexivity |]. split; [reflexivity |]. split; [reflexivity |].
    split.
    + forall_elements ltac:(right; eexists; reflexivity).
    + left. eexists. reflexivity.
  - intros Hexit. apply Hindexed in Hexit
      as (_ & w & startTs & endTs & Hw & Hs & He & Hmiss & _).
    apply Forall_cons in Hmiss as [_ Hmiss]. apply Forall_cons in Hmiss as [Hupd _].
    vm_compute in Hw. injection Hw as <-.
    vm_compute in Hs. injection Hs as <-.
    vm_compute in He. injection He as <-.
    destruct Hupd as [Hupd | [e Hupd]]; vm_compute in Hupd; discriminate.
Defined.

(** * Further properties of the scripts *)

(** ** Day windows of consecutive days *)

Section WindowBounds.

Variable Intl : DateTimeFormat.

(** Both boundaries of a returned window, in terms of the offset sampled
    at the probe. *)
Lemma gameStats_window_bounds y m d tz w :
  GameStatsToday.dayRangeUTC Intl y m d tz = Normal w ->
  exists o,
    tzOffsetMsAt Intl (mkDate (Date_UTC y (m - 1) d 12 0 0 0))
                 (default GameStatsToday.defaultTimeZone tz) = Normal o
    /\ start w = newDate (numSub (Date_UTC y (m - 1) d 0 0 0 0) o)
    /\ end_ w = newDate (numSub (Date_UTC y (m - 1) (d + 1) 0 0 0 0) o).
Proof.
  unfold GameStatsToday.dayRangeUTC.
  destruct (tzOffsetMsAt Intl _ _) as [o | e]; cbn [bindC]; [| discriminate].
  intros [= <-]. by exists o.
Qed.

Lemma statsToday_window_bounds y m d tz w :
  StatsToday.dayRangeUTC Intl y m d tz = Normal w ->
  exists o,
    tzOffsetMsAt Intl (mkDate (Date_UTC y (m - 1) d 12 0 0 0))
                 "America/Indiana/Indianapolis" = Normal o
    /\ start w = newDate (numSub (Date_UTC y (m - 1) d 0 0 0 0) o)
    /\ end_ w = newDate (numSub (Date_UTC y (m - 1) (d + 1) 0 0 0 0) o).
Proof.
  unfold StatsToday.dayRangeUTC.
  destruct (tzOffsetMsAt Intl _ _) as [o | e]; cbn [bindC]; [| discriminate].
  intros [= <-]. by exists o.
Qed.

Lemma consecutive_bounds y m d o1 o2 e1 s2 :
  getTime (newDate (numSub (Date_UTC y m (d + 1) 0 0 0 0) (Some o1))) = Some e1 ->
  getTime (newDate (numSub (Date_UTC y m (d + 1) 0 0 0 0) (Some o2))) = Some s2 ->
  s2 - e1 = o1 - o2.
Proof.
  intros He%newDate_getTime Hs%newDate_getTime.
  apply numSub_Some in He as (a & o & Ha & [= <-] & ->).
  apply numSub_Some in Hs as (b & o' & Hb & [= <-] & ->).
  assert (b = a) as -> by congruence. lia.
Qed.

End WindowBounds.

(** X1.  The windows of two consecutive days, [d] and [d + 1], meet
    exactly when the offsets sampled at their two noon probes are equal.
    In general the start of the second window lies [o1 - o2] after the end
    of the first, [o1] and [o2] being the offsets of day [d] and day
    [d + 1]: across a daylight-saving change the two windows overlap or
    leave a gap of one hour. *)
Theorem consecutive_windows_offset_gap
    (Intl : DateTimeFormat) y m d (tz : string) w1 w2 o1 o2 e1 s2 :
  GameStatsToday.dayRangeUTC Intl y m d (Some tz) = Normal w1 ->
  GameStatsToday.dayRangeUTC Intl y m (d + 1) (Some tz) = Normal w2 ->
  tzOffsetMsAt Intl (mkDate (Date_UTC y (m - 1) d 12 0 0 0)) tz = Normal (Some o1) ->
  tzOffsetMsAt Intl (mkDate (Date_UTC y (m - 1) (d + 1) 12 0 0 0)) tz = Normal (Some o2) ->
  getTime (end_ w1) = Some e1 ->
  getTime (start w2) = Some s2 ->
  s2 - e1 = o1 - o2.
Proof.
  intros (o & Ho & _ & He)%gameStats_window_bounds
         (o' & Ho' & Hs & _)%gameStats_window_bounds Ho1 Ho2 He1 Hs2.
  change (default GameStatsToday.defaultTimeZone (Some tz)) with tz in Ho, Ho'.
  assert (o = Some o1) as -> by congruence.
  assert (o' = Some o2) as -> by congruence.
  rewrite He in He1. rewrite Hs in Hs2.
  exact (consecutive_bounds y (m - 1) d o1 o2 e1 s2 He1 Hs2).
Qed.

(** 8 and 9 March 2025 in Indianapolis: the window of the 9th starts one
    hour before the window of the 8th ends. *)
Lemma consecutive_windows_offset_gap_witness :
  GameStatsToday.dayRangeUTC icu 2025 3 8 (Some "America/Indiana/Indianapolis"%string)
  = Normal {| start := mkDate (Some 1741410000000);
              end_ := mkDate (Some 1741496400000) |}
  /\ GameStatsToday.dayRangeUTC icu 2025 3 (8 + 1)
       (Some "America/Indiana/Indianapolis"%string)
     = Normal {| start := mkDate (Some 1741492800000);
                 end_ := mkDate (Some 1741579200000) |}
  /\ 1741492800000 - 1741496400000 = -18000000 - -14400000.
Proof.
  assert (H1 : GameStatsToday.dayRangeUTC icu 2025 3 8
                 (Some "America/Indiana/Indianapolis"%string)
               = Normal {| start := mkDate (Some 1741410000000);
                           end_ := mkDate (Some 1741496400000) |})
    by (vm_compute; reflexivity).
  assert (H2 : GameStatsToday.dayRangeUTC icu 2025 3 (8 + 1)
                 (Some "America/Indiana/Indianapolis"%string)
               = Normal {| start := mkDate (Some 1741492800000);
                           end_ := mkDate (Some 1741579200000) |})
    by (vm_compute; reflexivity).
  split; [exact H1 |]. split; [exact H2 |].
  apply (consecutive_windows_offset_gap icu 2025 3 8 "America/Indiana/Indianapolis"%string
           _ _ (-18000000) (-14400000) _ _ H1 H2);
    vm_compute; reflexivity.
Defined.

(** ** Calendar arithmetic *)

Lemma isLeapYear_spec y :
  isLeapYear y = true <-> y mod 4 = 0 /\ (y mod 100 <> 0 \/ y mod 400 = 0).
Proof.
  unfold isLeapYear.
  rewrite andb_true_iff, orb_true_iff, negb_true_iff, !Z.eqb_eq, Z.eqb_neq. tauto.
Qed.

Lemma DayFromYear_succ y :
  DayFromYear (y + 1) = DayFromYear y + 365 + (if isLeapYear y then 1 else 0).
Proof.
  unfold DayFromYear. destruct (isLeapYear y) eqn:Hl.
  - apply isLeapYear_spec in Hl. dlia.
  - assert (~ (y mod 4 = 0 /\ (y mod 100 <> 0 \/ y mod 400 = 0)))
      by (rewrite <- isLeapYear_spec; congruence).
    dlia.
Qed.

Lemma DayFromYear_mono y1 y2 : y1 <= y2 -> DayFromYear y1 <= DayFromYear y2.
Proof. unfold DayFromYear. dlia. Qed.

(** [yearOfDay] is the year that contains the day. *)
Lemma yearOfDay_bounds dy :
  DayFromYear (yearOfDay dy) <= dy < DayFromYear (yearOfDay dy + 1).
Proof.
  unfold yearOfDay.
  set (y := 1970 + 400 * dy / 146097).
  assert (Hy : 146097 * (y - 1970) <= 400 * dy < 146097 * (y - 1970) + 146097)
    by (subst y; dlia).
  clearbody y.
  destruct (Z.ltb_spec dy (DayFromYear y));
    [| destruct (Z.leb_spec (DayFromYear (y + 1)) dy)].
  - replace (y - 1 + 1) with y by lia. split; [| lia].
    unfold DayFromYear in *. dlia.
  - split; [lia |]. unfold DayFromYear in *. dlia.
  - lia.
Qed.

Lemma yearOfDay_unique dy y :
  DayFromYear y <= dy < DayFromYear (y + 1) -> yearOfDay dy = y.
Proof.
  intros Hy. pose proof (yearOfDay_bounds dy) as Hb.
  destruct (Z.lt_trichotomy (yearOfDay dy) y) as [Hlt | [Heq | Hgt]]; [| done |].
  - pose proof (DayFromYear_mono (yearOfDay dy + 1) y ltac:(lia)). lia.
  - pose proof (DayFromYear_mono (y + 1) (yearOfDay dy) ltac:(lia)). lia.
Qed.

Lemma DayWithinYear_bounds t :
  0 <= DayWithinYear t < 365 + (if isLeapYear (YearFromTime t) then 1 else 0).
Proof.
  unfold DayWithinYear, YearFromTime.
  pose proof (yearOfDay_bounds (Day t)) as Hb.
  rewrite DayFromYear_succ in Hb. lia.
Qed.

(** The month and the day of the month add up to the day of the year. *)
Lemma month_date_of_day t :
  0 <= MonthFromTime t <= 11
  /\ 1 <= DateFromTime t
  /\ daysBeforeMonth (isLeapYear (YearFromTime t)) (MonthFromTime t) + DateFromTime t - 1
     = DayWithinYear t.
Proof.
  pose proof (DayWithinYear_bounds t) as Hb.
  unfold DateFromTime, MonthFromTime.
  destruct (isLeapYear (YearFromTime t)); cbn [daysBeforeMonth] in *;
    repeat match goal with
           | |- context [?a <? ?b] => destruct (Z.ltb_spec a b)
           end; cbn [daysBeforeMonth]; lia.
Qed.

Lemma yearOfDay_at_least dy y : DayFromYear y <= dy -> y <= yearOfDay dy.
Proof.
  intros Hy. pose proof (yearOfDay_bounds dy) as Hb.
  destruct (Z.le_gt_cases y (yearOfDay dy)) as [| Hlt]; [done |].
  pose proof (DayFromYear_mono (yearOfDay dy + 1) y ltac:(lia)). lia.
Qed.

Lemma yearOfDay_at_most dy y : dy < DayFromYear (y + 1) -> yearOfDay dy <= y.
Proof.
  intros Hy. pose proof (yearOfDay_bounds dy) as Hb.
  destruct (Z.le_gt_cases (yearOfDay dy) y) as [| Hlt]; [done |].
  pose proof (DayFromYear_mono (y + 1) (yearOfDay dy) ltac:(lia)). lia.
Qed.

(** Splits a goal on the twelve values of a month index. *)
Ltac each_month mn H :=
  assert (mn = 0 \/ mn = 1 \/ mn = 2 \/ mn = 3 \/ mn = 4 \/ mn = 5 \/ mn = 6
          \/ mn = 7 \/ mn = 8 \/ mn = 9 \/ mn = 10 \/ mn = 11) as H by lia;
  repeat (destruct H as [H | H]); subst mn.

Lemma daysBeforeMonth_bounds leap mn :
  0 <= mn <= 11 -> 0 <= daysBeforeMonth leap mn <= 335.
Proof. intros Hmn. each_month mn H; destruct leap; cbn; lia. Qed.

(** The time of day, truncated to the second, from its three fields. *)
Lemma time_fields_of t :
  Day t * msPerDay + MakeTime (HourFromTime t) (MinFromTime t) (SecFromTime t) 0
  = t - t mod 1000.
Proof.
  unfold Day, MakeTime, HourFromTime, MinFromTime, SecFromTime,
    msPerDay, msPerHour, msPerMinute, msPerSecond.
  dlia.
Qed.

(** Reading the calendar fields of a time value and handing them to
    [Date.UTC] gives the time value back, truncated to the second, from
    the year 100 on: an earlier year from 0 to 99 would be taken for
    1900 + year. *)
Lemma Date_UTC_of_fields t :
  100 <= YearFromTime t ->
  t <= maxTimeValue ->
  Date_UTC (YearFromTime t) (MonthFromTime t) (DateFromTime t)
           (HourFromTime t) (MinFromTime t) (SecFromTime t) 0
  = Some (t - t mod 1000).
Proof.
  intros Hyear Hmax.
  pose proof (month_date_of_day t) as (Hmon & Hdate & Hsum).
  pose proof (DayWithinYear_bounds t) as Hwithin.
  pose proof (time_fields_of t) as Htime.
  assert (Hday : DayFromYear 100 <= Day t).
  { pose proof (yearOfDay_bounds (Day t)) as Hb. unfold YearFromTime in Hyear.
    pose proof (DayFromYear_mono 100 (yearOfDay (Day t)) Hyear). lia. }
  unfold Date_UTC, MakeDate, MakeDay.
  destruct (Z.leb_spec (YearFromTime t) 99); [lia |].
  rewrite andb_false_r.
  rewrite (Z.div_small (MonthFromTime t) 12), (Z.mod_small (MonthFromTime t) 12) by lia.
  rewrite Z.add_0_r.
  set (first := DayFromYear (YearFromTime t)
                + daysBeforeMonth (isLeapYear (YearFromTime t)) (MonthFromTime t)) in *.
  assert (Hfirst : first + DateFromTime t - 1 = Day t)
    by (unfold DayWithinYear in Hsum; lia).
  assert (Hrange : DayFromYear 100 <= first <= Day t).
  { split; [| lia]. subst first.
    pose proof (DayFromYear_mono 100 (YearFromTime t) Hyear).
    pose proof (daysBeforeMonth_bounds (isLeapYear (YearFromTime t))
                  (MonthFromTime t) Hmon). lia. }
  assert (Hd100 : DayFromYear 100 = -683003) by reflexivity.
  assert (Ht : Day t * msPerDay <= t) by (unfold Day, msPerDay; dlia).
  unfold maxTimeValue, msPerDay in *.
  rewrite (TimeClip_in_range (first * 86400000)) by (unfold maxTimeValue; lia).
  rewrite Hfirst, Htime.
  apply TimeClip_in_range. unfold maxTimeValue.
  assert (0 <= t mod 1000 < 1000) by (apply Z.mod_pos_bound; lia). lia.
Qed.

Lemma DayFromYear_range y :
  100 <= y <= 200000 -> -683003 <= DayFromYear y <= 72328972.
Proof.
  intros Hy.
  pose proof (DayFromYear_mono 100 y ltac:(lia)) as Hlo.
  pose proof (DayFromYear_mono y 200000 ltac:(lia)) as Hhi.
  change (DayFromYear 100) with (-683003) in Hlo.
  change (DayFromYear 200000) with 72328972 in Hhi. lia.
Qed.

(** [Date.UTC] on a year from 100 to 200000 and a month index from 0 to
    11: the day number is the first of the month plus [d - 1], whatever
    [d] is, and only the final clip can fail. *)
Lemma Date_UTC_calendar y mn d h mi s :
  100 <= y <= 200000 -> 0 <= mn <= 11 ->
  Date_UTC y mn d h mi s 0
  = TimeClip ((DayFromYear y + daysBeforeMonth (isLeapYear y) mn + d - 1) * msPerDay
              + MakeTime h mi s 0).
Proof.
  intros Hy Hmn. unfold Date_UTC, MakeDate, MakeDay.
  destruct (Z.leb_spec y 99); [lia |]. rewrite andb_false_r.
  rewrite (Z.div_small mn 12), (Z.mod_small mn 12), Z.add_0_r by lia.
  pose proof (DayFromYear_range y Hy).
  pose proof (daysBeforeMonth_bounds (isLeapYear y) mn Hmn).
  rewrite TimeClip_in_range by (unfold maxTimeValue, msPerDay; lia).
  reflexivity.
Qed.

Lemma daysBeforeMonth_succ leap mn :
  0 <= mn <= 10 ->
  daysBeforeMonth leap (mn + 1) = daysBeforeMonth leap mn + daysInMonth leap mn.
Proof.
  intros Hmn.
  assert (mn = 0 \/ mn = 1 \/ mn = 2 \/ mn = 3 \/ mn = 4 \/ mn = 5 \/ mn = 6
          \/ mn = 7 \/ mn = 8 \/ mn = 9 \/ mn = 10) as H by lia.
  repeat (destruct H as [H | H]); subst mn; destruct leap; reflexivity.
Qed.

(** A day counted past the end of its month is a day of the next month,
    December running into January of the next year. *)
Lemma Date_UTC_day_overflow y mn d h mi s :
  100 <= y <= 199999 -> 0 <= mn <= 11 ->
  Date_UTC y mn (daysInMonth (isLeapYear y) mn + d) h mi s 0
  = Date_UTC y (mn + 1) d h mi s 0.
Proof.
  intros Hy Hmn.
  rewrite Date_UTC_calendar by lia.
  destruct (Z.eq_dec mn 11) as [-> | Hne].
  - unfold Date_UTC, MakeDate, MakeDay.
    destruct (Z.leb_spec y 99); [lia |]. rewrite andb_false_r.
    change ((11 + 1) / 12) with 1. change ((11 + 1) mod 12) with 0.
    pose proof (DayFromYear_range (y + 1) ltac:(lia)).
    change (daysBeforeMonth (isLeapYear (y + 1)) 0) with 0.
    rewrite (TimeClip_in_range ((DayFromYear (y + 1) + 0) * msPerDay))
      by (unfold maxTimeValue, msPerDay; lia).
    rewrite DayFromYear_succ. f_equal.
    destruct (isLeapYear y); cbn [daysBeforeMonth daysInMonth]; unfold msPerDay; lia.
  - rewrite Date_UTC_calendar by lia.
    rewrite daysBeforeMonth_succ by lia. f_equal. unfold msPerDay. lia.
Qed.

(** X2.  A day number past the end of the month rolls into the next
    month: for a year from 100 to 199999 and a month from 1 to 12,
    [dayRangeUTC y m (daysInMonth + d)] is [dayRangeUTC y (m + 1) d], in
    both scripts and for every formatter and zone; month 13 is January of
    the next year. *)
Theorem dayRangeUTC_day_overflow
    (Intl : DateTimeFormat) y m d (tz : option string) :
  100 <= y <= 199999 -> 1 <= m <= 12 ->
  GameStatsToday.dayRangeUTC Intl y m (daysInMonth (isLeapYear y) (m - 1) + d) tz
  = GameStatsToday.dayRangeUTC Intl y (m + 1) d tz
  /\ StatsToday.dayRangeUTC Intl y m (daysInMonth (isLeapYear y) (m - 1) + d) tz
     = StatsToday.dayRangeUTC Intl y (m + 1) d tz.
Proof.
  intros Hy Hm.
  assert (Hroll : forall d' h,
             Date_UTC y (m - 1) (daysInMonth (isLeapYear y) (m - 1) + d') h 0 0 0
             = Date_UTC y (m + 1 - 1) d' h 0 0 0).
  { intros d' h. rewrite Date_UTC_day_overflow by lia. f_equal. lia. }
  unfold GameStatsToday.dayRangeUTC, StatsToday.dayRangeUTC.
  rewrite <- Z.add_assoc, !Hroll. done.
Qed.

(** 32 October 2025 is 1 November 2025. *)
Lemma dayRangeUTC_day_overflow_witness :
  GameStatsToday.dayRangeUTC icu 2025 10 (31 + 1) None
  = GameStatsToday.dayRangeUTC icu 2025 (10 + 1) 1 None.
Proof.
  apply (dayRangeUTC_day_overflow icu 2025 10 1 None); lia.
Defined.

(** ** The offset helper against an ideal formatter *)

(** X3.  With a formatter that shows the calendar fields of [t + off t],
    [tzOffsetMsAt] returns the zone offset [off t] less the milliseconds
    of the local time, which [formatToParts] does not show: the offset is
    exact at a whole second and up to 999 ms short otherwise.  This holds
    from the local year 100 on. *)
Theorem tzOffsetMsAt_of_clock
    (Intl : DateTimeFormat) (tz : string) (off : Z -> Z) (t : Z) :
  Intl tz = Some (clockOf off) ->
  100 <= YearFromTime (t + off t) ->
  t + off t <= maxTimeValue ->
  tzOffsetMsAt Intl (mkDate (Some t)) tz
  = Normal (Some (off t - (t + off t) mod 1000))
  /\ ((t + off t) mod 1000 = 0 ->
      tzOffsetMsAt Intl (mkDate (Some t)) tz = Normal (Some (off t))).
Proof.
  intros HIntl Hyear Hmax.
  assert (H : tzOffsetMsAt Intl (mkDate (Some t)) tz
              = Normal (Some (off t - (t + off t) mod 1000))).
  { unfold tzOffsetMsAt. rewrite HIntl. cbn [getTime].
    unfold clockOf, wallClockAt.
    cbn [wc_year wc_month wc_day wc_hour wc_minute wc_second].
    replace (MonthFromTime (t + off t) + 1 - 1) with (MonthFromTime (t + off t)) by lia.
    rewrite (Date_UTC_of_fields (t + off t) Hyear Hmax). cbn [numSub].
    do 2 f_equal. lia. }
  split; [exact H |].
  intros Hms. rewrite H, Hms. do 2 f_equal. lia.
Qed.

Lemma tzOffsetMsAt_of_clock_witness :
  tzOffsetMsAt icu (mkDate (Some 1759593600123)) "America/Indiana/Indianapolis"
  = Normal (Some (-14400000 - 123)).
Proof.
  apply (proj1 (tzOffsetMsAt_of_clock icu "America/Indiana/Indianapolis"
                  usEastern 1759593600123 eq_refl
                  ltac:(apply Z.leb_le; vm_compute; reflexivity)
                  ltac:(apply Z.leb_le; vm_compute; reflexivity))).
Defined.

Lemma time_fields_inverse day h mi s :
  0 <= h < 24 -> 0 <= mi < 60 -> 0 <= s < 60 ->
  let t := day * msPerDay + MakeTime h mi s 0 in
  Day t = day /\ HourFromTime t = h /\ MinFromTime t = mi /\ SecFromTime t = s.
Proof.
  intros Hh Hmi Hs t. subst t.
  unfold Day, MakeTime, HourFromTime, MinFromTime, SecFromTime,
    msPerDay, msPerHour, msPerMinute, msPerSecond.
  repeat split; dlia.
Qed.

Lemma daysBeforeMonth_plus_length leap mn :
  0 <= mn <= 11 ->
  daysBeforeMonth leap mn + daysInMonth leap mn <= 365 + (if leap then 1 else 0).
Proof. intros Hmn. each_month mn H; destruct leap; cbn; lia. Qed.

Lemma MonthFromTime_of_day t mn d :
  0 <= mn <= 11 ->
  1 <= d <= daysInMonth (isLeapYear (YearFromTime t)) mn ->
  DayWithinYear t = daysBeforeMonth (isLeapYear (YearFromTime t)) mn + d - 1 ->
  MonthFromTime t = mn /\ DateFromTime t = d.
Proof.
  intros Hmn Hd Hday.
  assert (Hmonth : MonthFromTime t = mn).
  { unfold MonthFromTime. rewrite Hday.
    each_month mn H; destruct (isLeapYear (YearFromTime t));
      cbn [daysBeforeMonth daysInMonth] in *;
      repeat match goal with
             | |- context [?a <? ?b] => destruct (Z.ltb_spec a b)
             end; lia. }
  split; [exact Hmonth |].
  unfold DateFromTime. rewrite Hmonth, Hday. lia.
Qed.

(** Reading the calendar fields of [Date.UTC] of a calendar date gives
    the date back. *)
Lemma fields_of_Date_UTC y m d h mi s t :
  100 <= y <= 200000 -> validCalendarDate y m d ->
  0 <= h < 24 -> 0 <= mi < 60 -> 0 <= s < 60 ->
  Date_UTC y (m - 1) d h mi s 0 = Some t ->
  wallClockAt t = mkWallClock y m d h mi s.
Proof.
  intros Hy [Hm Hd] Hh Hmi Hs Ht.
  rewrite Date_UTC_calendar in Ht by lia. apply TimeClip_Some in Ht.
  set (day := DayFromYear y + daysBeforeMonth (isLeapYear y) (m - 1) + d - 1) in *.
  pose proof (time_fields_inverse day h mi s Hh Hmi Hs) as Hfields.
  cbv zeta in Hfields. rewrite <- Ht in Hfields.
  destruct Hfields as (Hday & Hhour & Hmin & Hsec).
  pose proof (daysBeforeMonth_bounds (isLeapYear y) (m - 1) ltac:(lia)).
  pose proof (daysBeforeMonth_plus_length (isLeapYear y) (m - 1) ltac:(lia)).
  assert (Hyear : YearFromTime t = y).
  { unfold YearFromTime. rewrite Hday. apply yearOfDay_unique.
    rewrite DayFromYear_succ. subst day. lia. }
  assert (Hwithin : DayWithinYear t
                    = daysBeforeMonth (isLeapYear (YearFromTime t)) (m - 1) + d - 1).
  { unfold DayWithinYear. rewrite Hday, Hyear. subst day. lia. }
  destruct (MonthFromTime_of_day t (m - 1) d ltac:(lia)
              ltac:(rewrite Hyear; exact Hd) Hwithin) as [Hmonth Hdate].
  unfold wallClockAt. rewrite Hyear, Hmonth, Hdate, Hhour, Hmin, Hsec.
  f_equal. lia.
Qed.

Section LocalMidnight.

Variable Intl : DateTimeFormat.
Variable off : Z -> Z.
Variables (y m d p : Z).

Hypothesis year_range : 101 <= y <= 199999.
Hypothesis calendar_date : validCalendarDate y m d.
Hypothesis probe_instant : Date_UTC y (m - 1) d 12 0 0 0 = Some p.
Hypothesis offset_range : - msPerDay <= off p <= msPerDay.
Hypothesis offset_seconds : off p mod 1000 = 0.

Let day : Z := DayFromYear y + daysBeforeMonth (isLeapYear y) (m - 1) + d - 1.

Lemma probe_value : p = day * msPerDay + 12 * msPerHour.
Proof using probe_instant year_range calendar_date.
  destruct calendar_date as [Hm Hd].
  rewrite Date_UTC_calendar in probe_instant by lia.
  apply TimeClip_Some in probe_instant. rewrite probe_instant.
  unfold MakeTime, day. lia.
Qed.

Lemma day_range : DayFromYear 101 <= day <= 72328972 + 366.
Proof using year_range calendar_date.
  destruct calendar_date as [Hm Hd].
  pose proof (DayFromYear_mono 101 y ltac:(lia)).
  pose proof (DayFromYear_range y ltac:(lia)).
  pose proof (daysBeforeMonth_bounds (isLeapYear y) (m - 1) ltac:(lia)).
  pose proof (daysBeforeMonth_plus_length (isLeapYear y) (m - 1) ltac:(lia)).
  unfold day. destruct (isLeapYear y); lia.
Qed.

Lemma probe_offset tz :
  Intl tz = Some (clockOf off) ->
  tzOffsetMsAt Intl (mkDate (Date_UTC y (m - 1) d 12 0 0 0)) tz = Normal (Some (off p)).
Proof using All.
  intros HIntl. rewrite probe_instant.
  pose proof probe_value as Hp. pose proof day_range as Hday.
  change (DayFromYear 101) with (-682638) in Hday.
  unfold msPerDay, msPerHour in *.
  apply (tzOffsetMsAt_of_clock Intl tz off p HIntl).
  - unfold YearFromTime. apply yearOfDay_at_least.
    change (DayFromYear 100) with (-683003). unfold Day, msPerDay. dlia.
  - unfold maxTimeValue. lia.
  - dlia.
Qed.

Lemma window_of_clock :
  let s := day * msPerDay - off p in
  newDate (numSub (Date_UTC y (m - 1) d 0 0 0 0) (Some (off p))) = mkDate (Some s)
  /\ newDate (numSub (Date_UTC y (m - 1) (d + 1) 0 0 0 0) (Some (off p)))
     = mkDate (Some (s + msPerDay))
  /\ (off s = off p -> clockOf off s = mkWallClock y m d 0 0 0)
  /\ (off (s + msPerDay) = off p ->
      wc_hour (clockOf off (s + msPerDay)) = 0
      /\ wc_minute (clockOf off (s + msPerDay)) = 0
      /\ wc_second (clockOf off (s + msPerDay)) = 0).
Proof using year_range calendar_date offset_range.
  intros s. pose proof day_range as Hday.
  change (DayFromYear 101) with (-682638) in Hday.
  destruct calendar_date as [Hm Hd].
  assert (Hstart : Date_UTC y (m - 1) d 0 0 0 0 = Some (day * msPerDay)).
  { rewrite Date_UTC_calendar by lia. fold day.
    unfold MakeTime. rewrite !Z.mul_0_l, !Z.add_0_r.
    apply TimeClip_in_range. unfold maxTimeValue, msPerDay. lia. }
  assert (Hnext : Date_UTC y (m - 1) (d + 1) 0 0 0 0 = Some (day * msPerDay + msPerDay)).
  { rewrite Date_UTC_calendar by lia.
    replace (DayFromYear y + daysBeforeMonth (isLeapYear y) (m - 1) + (d + 1) - 1)
      with (day + 1) by (unfold day; lia).
    unfold MakeTime. rewrite !Z.mul_0_l, !Z.add_0_r.
    rewrite TimeClip_in_range by (unfold maxTimeValue, msPerDay; lia).
    f_equal. lia. }
  rewrite Hstart, Hnext. cbn [numSub]. unfold msPerDay in offset_range.
  rewrite !newDate_in_range by (subst s; unfold msPerDay; lia).
  split; [done |]. split; [f_equal; f_equal; subst s; lia |]. split.
  - intros Hoff. unfold clockOf. rewrite Hoff.
    replace (s + off p) with (day * msPerDay) by (subst s; lia).
    apply (fields_of_Date_UTC y m d 0 0 0); try lia; [done | exact Hstart].
  - intros Hoff. unfold clockOf. rewrite Hoff.
    replace (s + msPerDay + off p) with ((day + 1) * msPerDay + MakeTime 0 0 0 0)
      by (subst s; unfold MakeTime; lia).
    destruct (time_fields_inverse (day + 1) 0 0 0) as (_ & Hh & Hmi & Hs); try lia.
    unfold wallClockAt. cbn [wc_hour wc_minute wc_second]. done.
Qed.

End LocalMidnight.

(** X4.  For a calendar date of the years 101 to 199999 and a formatter
    that shows the fields of [t + off t], the offset at the noon probe
    being a whole number of seconds within a day: [dayRangeUTC] returns
    the window [s, s + 24h) with [s] the UTC midnight of the date less the
    probe offset.  When the offset in force at [s] is the one of the probe,
    the wall clock at [s] reads 00:00:00 on the requested date; when the
    one in force at the end is, the wall clock there reads 00:00:00 too.
    [stats-today.ts] does the same with its fixed zone. *)
Theorem dayRangeUTC_is_local_midnight
    (Intl : DateTimeFormat) (off : Z -> Z) (tz : string) y m d p :
  101 <= y <= 199999 ->
  validCalendarDate y m d ->
  Date_UTC y (m - 1) d 12 0 0 0 = Some p ->
  - msPerDay <= off p <= msPerDay ->
  off p mod 1000 = 0 ->
  exists s,
    (Intl tz = Some (clockOf off) ->
     GameStatsToday.dayRangeUTC Intl y m d (Some tz)
     = Normal {| start := mkDate (Some s); end_ := mkDate (Some (s + msPerDay)) |})
    /\ (Intl "America/Indiana/Indianapolis"%string = Some (clockOf off) ->
        StatsToday.dayRangeUTC Intl y m d (Some tz)
        = Normal {| start := mkDate (Some s); end_ := mkDate (Some (s + msPerDay)) |})
    /\ (off s = off p -> clockOf off s = mkWallClock y m d 0 0 0)
    /\ (off (s + msPerDay) = off p ->
        wc_hour (clockOf off (s + msPerDay)) = 0
        /\ wc_minute (clockOf off (s + msPerDay)) = 0
        /\ wc_second (clockOf off (s + msPerDay)) = 0).
Proof.
  intros Hy Hdate Hp Hrange Hsec.
  destruct (window_of_clock off y m d p Hy Hdate Hrange) as (Hs & He & Hmid & Hend).
  eexists. split; [| split; [| split; [exact Hmid | exact Hend]]].
  - intros HIntl. unfold GameStatsToday.dayRangeUTC.
    change (default GameStatsToday.defaultTimeZone (Some tz)) with tz.
    rewrite (probe_offset Intl off y m d p Hy Hdate Hp Hrange Hsec tz HIntl).
    cbn [bindC]. by rewrite Hs, He.
  - intros HIntl. unfold StatsToday.dayRangeUTC.
    rewrite (probe_offset Intl off y m d p Hy Hdate Hp Hrange Hsec _ HIntl).
    cbn [bindC]. by rewrite Hs, He.
Qed.

Lemma dayRangeUTC_is_local_midnight_witness :
  GameStatsToday.dayRangeUTC icu 2025 10 4 (Some "America/Indiana/Indianapolis"%string)
  = Normal {| start := mkDate (Some 1759550400000);
              end_ := mkDate (Some 1759636800000) |}
  /\ clockOf usEastern 1759550400000 = mkWallClock 2025 10 4 0 0 0.
Proof.
  assert (Hoff : usEastern 1759579200000 = -14400000) by (vm_compute; reflexivity).
  assert (Hcomputed :
            GameStatsToday.dayRangeUTC icu 2025 10 4
              (Some "America/Indiana/Indianapolis"%string)
            = Normal {| start := mkDate (Some 1759550400000);
                        end_ := mkDate (Some 1759636800000) |})
    by (vm_compute; reflexivity).
  split; [exact Hcomputed |].
  destruct (dayRangeUTC_is_local_midnight icu usEastern
              "America/Indiana/Indianapolis"%string 2025 10 4 1759579200000)
    as (s & Hgame & _ & Hmidnight & _).
  - lia.
  - split; [lia |]. change (daysInMonth (isLeapYear 2025) (10 - 1)) with 31. lia.
  - vm_compute. reflexivity.
  - rewrite Hoff. unfold msPerDay. lia.
  - rewrite Hoff. reflexivity.
  - rewrite (Hgame eq_refl) in Hcomputed. injection Hcomputed as -> _.
    apply Hmidnight. rewrite Hoff. vm_compute. reflexivity.
Defined.

(** ** The listener across several runs *)

Section ListenerRuns.

Variable Date_parse : string -> option Z.
Variable printDoc : Obj -> Completion unit.

Lemma filter_none {A} (f : A -> bool) (l : list A) :
  Forall (fun x => f x = false) l -> List.filter f l = [].
Proof. induction 1 as [| x l Hx _ IH]; simpl; [done |]. by rewrite Hx. Qed.



End ListenerRuns.

(** X5.  What the initial load has shown is not shown again: when the
    newest-first batch [d :: snap] is loaded (every [submittedAt]
    converting without a throw, every [printDoc] completing) and the first
    document has a valid instant [t], the load prints the whole batch and
    leaves [lastSeen] at [t], and a first snapshot delivering the same
    batch prints nothing and leaves the state where it is. *)
Theorem initial_load_not_repeated
    (Date_parse : string -> option Z) (printDoc : Obj -> Completion unit)
    (d : Doc) (snap : list Doc) (t : Z) :
  toDateStrict Date_parse (submittedAt (withId d)) = Normal (Some (mkDate (Some t))) ->
  newestFirst Date_parse (map withId (d :: snap)) ->
  Forall (normalises Date_parse) (map withId (d :: snap)) ->
  Forall (fun x => printDoc x = Normal tt) (map withId (d :: snap)) ->
  initialLoad Date_parse printDoc (d :: snap)
  = mkRun (Some (mkDate (Some t))) (map withId (d :: snap)) (Normal tt)
  /\ onSnapshot Date_parse printDoc
       (lastSeenAfter (initialLoad Date_parse printDoc (d :: snap))) (d :: snap)
     = mkRun (Some (mkDate (Some t))) [] (Normal tt).
Proof.
  intros Hd Hsorted Hn Hp.
  assert (Hload : initialLoad Date_parse printDoc (d :: snap)
                  = mkRun (Some (mkDate (Some t))) (map withId (d :: snap)) (Normal tt)).
  { unfold initialLoad. cbn [map] in *.
    rewrite (printAll_all printDoc _ Hp), Hd. reflexivity. }
  split; [exact Hload |].
  rewrite Hload. cbn [lastSeenAfter].
  rewrite (onSnapshot_fresh Date_parse printDoc t (d :: snap) Hn Hp).
  rewrite filter_none; [reflexivity |].
  apply Forall_forall. intros x Hx. unfold exceeds.
  destruct (instantOf Date_parse x) as [tx |] eqn:Htx; [| done].
  cbn [map] in *.
  pose proof (newestFirst_head Date_parse (withId d) (map withId snap) t Hsorted
                (instantOf_of_toDateStrict Date_parse _ _ Hd) x tx Hx Htx).
  apply Z.ltb_ge. lia.
Qed.

Lemma initial_load_not_repeated_witness :
  onSnapshot (fun _ => None) (fun _ => Normal tt)
    (lastSeenAfter (initialLoad (fun _ => None) (fun _ => Normal tt) [d3; d1; d2]))
    [d3; d1; d2]
  = mkRun (atSecond 7) [] (Normal tt).
Proof.
  apply (initial_load_not_repeated (fun _ => None) (fun _ => Normal tt) d3 [d1; d2] 7000).
  - vm_compute. reflexivity.
  - repeat constructor; intros ta tb Ha Hb; vm_compute in Ha, Hb;
      injection Ha as <-; injection Hb as <-; discriminate.
  - repeat constructor.
  - repeat constructor.
Defined.



(** ** The client-side scan of [gameStats-today.ts] *)

Section Scan.

Variable Date_parse : string -> option Z.
Variable ToNumber : JSValue -> Completion number.
Variables (start end_ : Date).

Lemma matchingField_found pre f post d :
  Forall (outOfWindow Date_parse ToNumber start end_ d) pre ->
  insideWindow Date_parse ToNumber start end_ d f ->
  matchingField Date_parse ToNumber (pre ++ f :: post) start end_ d = Normal (Some f).
Proof.
  intros Hpre (Htruthy & dt & Hdt & Hin).
  induction Hpre as [| g pre Hg _ IH]; cbn [app matchingField].
  - by rewrite Htruthy, Hdt; cbn [negb bindC]; rewrite Hin.
  - destruct Hg as [-> | (dt' & Hdt' & Hout)]; [done |].
    destruct (truthy (field d g)); [| done]. cbn [negb].
    rewrite Hdt'. cbn [bindC]. by rewrite Hout.
Qed.

Lemma matchingField_inv fields d f :
  matchingField Date_parse ToNumber fields start end_ d = Normal (Some f) ->
  exists pre post,
    fields = pre ++ f :: post
    /\ Forall (outOfWindow Date_parse ToNumber start end_ d) pre
    /\ insideWindow Date_parse ToNumber start end_ d f.
Proof.
  induction fields as [| g fields IH]; cbn [matchingField]; [discriminate |].
  destruct (truthy (field d g)) eqn:Htruthy; cbn [negb].
  - destruct (fieldDate Date_parse ToNumber (field d g)) as [dt | e] eqn:Hdt;
      cbn [bindC]; [| discriminate].
    destruct (inWindow start end_ dt) eqn:Hin.
    + intros [= <-]. exists [], fields. split; [done |]. split; [constructor |].
      split; [done |]. by exists dt.
    + intros (pre & post & -> & Hpre & Hf)%IH. exists (g :: pre), post.
      split; [done |]. split; [| done]. constructor; [| done]. right. by exists dt.
  - intros (pre & post & -> & Hpre & Hf)%IH. exists (g :: pre), post.
    split; [done |]. split; [| done]. constructor; [by left | done].
Qed.

(** The filter keeps the documents that pass, in their order, and leaves
    in [usedField] the match of the last one it kept. *)
Lemma filterInRange_result fields all used0 kept used :
  filterInRange Date_parse ToNumber fields start end_ all used0 = Normal (kept, used) ->
  kept = List.filter (passes Date_parse ToNumber start end_ fields) all
  /\ used = match last kept with
            | Some d => matchOf Date_parse ToNumber start end_ fields d
            | None => used0
            end.
Proof.
  revert used0 kept used.
  induction all as [| d all IH]; intros used0 kept used; cbn [filterInRange List.filter].
  - intros [= <- <-]. done.
  - unfold passes, matchOf.
    destruct (matchingField Date_parse ToNumber fields start end_ d) as [[f |] | e] eqn:Hd;
      cbn [bindC]; [| apply IH | discriminate].
    destruct (filterInRange Date_parse ToNumber fields start end_ all (Some f))
      as [[kept' used'] |] eqn:Hrest; cbn [bindC fst snd]; [| discriminate].
    intros [= <- <-]. destruct (IH _ _ _ Hrest) as [Hkept Hused].
    unfold passes, matchOf in Hkept. split; [by rewrite Hkept |].
    rewrite Hused. destruct kept' as [| d' kept'].
    + cbn. by rewrite Hd.
    + rewrite last_cons_cons.
      destruct (last (d' :: kept')) eqn:Hlast; [done | by apply last_None in Hlast].
Qed.

End Scan.

(** X7.  In the client-side scan a document passes by the first candidate,
    in priority order, whose value converts to a date inside the window:
    the filter callback returns that field exactly when every earlier
    candidate is falsy or converts, without raising, to something outside
    the window. *)
Theorem matchingField_first_in_window
    (Date_parse : string -> option Z) (ToNumber : JSValue -> Completion number)
    (start end_ : Date) (fields : list string) (d : Obj) (f : string) :
  matchingField Date_parse ToNumber fields start end_ d = Normal (Some f)
  <-> exists pre post,
      fields = pre ++ f :: post
      /\ Forall (outOfWindow Date_parse ToNumber start end_ d) pre
      /\ insideWindow Date_parse ToNumber start end_ d f.
Proof.
  split; [apply matchingField_inv |].
  intros (pre & post & -> & Hpre & Hf). by apply matchingField_found.
Qed.

Lemma matchingField_first_in_window_witness :
  matchingField noParse toNumberNaN TIME_FIELDS oct4 oct5 (withId byCreatedAt)
  = Normal (Some "createdAt"%string).
Proof.
  apply (proj2 (matchingField_first_in_window noParse toNumberNaN oct4 oct5
                  TIME_FIELDS (withId byCreatedAt) "createdAt")).
  exists ["submittedAt"; "updatedAt"; "lastUpdatedAt"]%string, ["gameDate"%string].
  split; [reflexivity |]. split.
  - forall_elements
      ltac:(first [ left; vm_compute; reflexivity
                  | right; eexists;
                    split; [vm_compute; reflexivity | vm_compute; reflexivity] ]).
  - split; [vm_compute; reflexivity |].
    eexists. split; [vm_compute; reflexivity | vm_compute; reflexivity].
Defined.

(** X8.  When every candidate range query misses and the scan of the
    fetched documents completes with at least one document kept, the
    result is the fetched documents that pass, in their fetched order, and
    the field named in the "Filtered by" line is the one by which the last
    kept document passed, whatever field let the earlier ones pass. *)
Theorem probe_scan_reports_last_match
    (Date_parse : string -> option Z) (ToNumber : JSValue -> Completion number)
    (Timestamp : Type) (getDocs : Query Timestamp -> Completion (list Doc))
    (start end_ : Date) (startTs endTs : Timestamp)
    (fields : list string) (allSnap : list Doc) (rep : Report) issued :
  Forall (misses Timestamp getDocs startTs endTs) fields ->
  getDocs (allQuery Timestamp) = Normal allSnap ->
  probe Date_parse ToNumber Timestamp getDocs fields start end_ startTs endTs
  = (Finished rep, issued) ->
  List.filter (passes Date_parse ToNumber start end_ fields) (map withId allSnap) <> [] ->
  docs rep = List.filter (passes Date_parse ToNumber start end_ fields) (map withId allSnap)
  /\ exists lastKept f,
      last (docs rep) = Some lastKept
      /\ matchOf Date_parse ToNumber start end_ fields lastKept = Some f
      /\ usedField rep = Some f.
Proof.
  intros Hmiss Hall Hprobe Hsome. unfold probe in Hprobe.
  rewrite (rangeLoop_all_miss Timestamp getDocs startTs endTs fields [] Hmiss) in Hprobe.
  rewrite Hall in Hprobe. cbn [bindC] in Hprobe.
  destruct (filterInRange Date_parse ToNumber fields start end_ (map withId allSnap) None)
    as [[kept used] | e] eqn:Hscan; cbn [bindC fst snd] in Hprobe; [| discriminate].
  apply filterInRange_result in Hscan as [Hkept Hused].
  rewrite <- Hkept in Hsome |- *.
  destruct kept as [| k kept]; [done |].
  injection Hprobe as <- _. cbn [docs usedField report].
  split; [done |].
  destruct (last (k :: kept)) as [lastKept |] eqn:Hlast; [| by apply last_None in Hlast].
  assert (Hin : lastKept ∈ List.filter (passes Date_parse ToNumber start end_ fields)
                              (map withId allSnap))
    by (rewrite <- Hkept; by eapply last_Some_elem_of).
  apply list_elem_of_In, filter_In in Hin as [_ Hpass]. unfold passes in Hpass.
  destruct (matchOf Date_parse ToNumber start end_ fields lastKept) as [f |] eqn:Hf;
    [| discriminate].
  exists lastKept, f. by rewrite Hused.
Qed.

Lemma probe_scan_reports_last_match_witness :
  probe noParse toNumberNaN Date notIndexed TIME_FIELDS oct4 oct5 oct4 oct5
  = (Finished {| usedField := Some "createdAt"%string;
                 docs := [withId byUpdatedAt; withId byCreatedAt];
                 diagnostic := FilteredBy "createdAt" |},
     map (fun g => rangeQuery Date g oct4 oct5) TIME_FIELDS ++ [allQuery Date])
  /\ matchOf noParse toNumberNaN oct4 oct5 TIME_FIELDS (withId byUpdatedAt)
     = Some "updatedAt"%string.
Proof.
  assert (Hprobe :
            probe noParse toNumberNaN Date notIndexed TIME_FIELDS oct4 oct5 oct4 oct5
            = (Finished {| usedField := Some "createdAt"%string;
                           docs := [withId byUpdatedAt; withId byCreatedAt];
                           diagnostic := FilteredBy "createdAt" |},
               map (fun g => rangeQuery Date g oct4 oct5) TIME_FIELDS ++ [allQuery Date]))
    by (vm_compute; reflexivity).
  split; [exact Hprobe |].
  destruct (probe_scan_reports_last_match noParse toNumberNaN Date notIndexed
              oct4 oct5 oct4 oct5 TIME_FIELDS [byUpdatedAt; old1; byCreatedAt] _ _
              ltac:(forall_elements ltac:(right; eexists; reflexivity))
              eq_refl Hprobe ltac:(vm_compute; discriminate)) as [_ _].
  vm_compute. reflexivity.
Defined.

(** ** The users lookup and its cache *)

Section MapFacts.
Import JSMap.

Variable sameRef : JSValue -> JSValue -> bool.

Lemma sameNumber_eq a b : sameNumber a b = true <-> a = b.
Proof.
  destruct a as [|x|x], b as [|y|y]; cbn; try (split; [discriminate | congruence]); try done.
  - destruct x, y; cbn; split; congruence.
  - rewrite Z.eqb_eq. split; congruence.
Qed.

(** On a primitive, SameValueZero is equality. *)
Lemma sameValueZero_primitive k k' :
  isPrimitive k = true ->
  sameValueZero sameRef k' k = true <-> k' = k.
Proof.
  intros Hk. destruct k; try discriminate; destruct k'; cbn;
    try (split; [discriminate | congruence]); try done.
  - destruct b, b0; cbn; split; congruence.
  - rewrite sameNumber_eq. split; congruence.
  - rewrite String.eqb_eq. split; congruence.
Qed.

Lemma sameValueZero_primitive_l k k' :
  isPrimitive k = true ->
  sameValueZero sameRef k k' = true <-> k = k'.
Proof.
  intros Hk. destruct k; try discriminate; destruct k'; cbn;
    try (split; [discriminate | congruence]); try done.
  - destruct b, b0; cbn; split; congruence.
  - rewrite sameNumber_eq. split; congruence.
  - rewrite String.eqb_eq. split; congruence.
Qed.

Lemma sameValueZero_refl k : isPrimitive k = true -> sameValueZero sameRef k k = true.
Proof. intros Hk. by apply sameValueZero_primitive. Qed.

Lemma get_set_same {V} (m : list (JSValue * V)) k v :
  isPrimitive k = true ->
  get sameRef (set sameRef m k v) k = Some v.
Proof.
  intros Hk. induction m as [|[k' v'] m IH]; cbn.
  - by rewrite sameValueZero_refl.
  - destruct (sameValueZero sameRef k' k) eqn:E; cbn; rewrite E; done.
Qed.

Lemma get_set_other {V} (m : list (JSValue * V)) k k0 v :
  isPrimitive k = true -> k0 <> k ->
  get sameRef (set sameRef m k0 v) k = get sameRef m k.
Proof.
  intros Hk Hne. induction m as [|[k' v'] m IH]; cbn.
  - destruct (sameValueZero sameRef k0 k) eqn:E; [|done].
    by apply sameValueZero_primitive in E.
  - destruct (sameValueZero sameRef k' k0) eqn:E; cbn.
    + destruct (sameValueZero sameRef k' k) eqn:E'; [|done].
      apply sameValueZero_primitive in E'; [|done]. subst k'.
      apply sameValueZero_primitive_l in E; [|done]. by subst.
    + destruct (sameValueZero sameRef k' k); [done | apply IH].
Qed.

(** [get] and [set] look at the same entry, whatever [sameRef] is. *)
Lemma Forall_set {V} (P : JSValue * V -> Prop) m k v :
  (forall k', P (k', v)) -> Forall P m -> Forall P (set sameRef m k v).
Proof.
  intros Hv. induction 1 as [|[k' v'] m Hx Hm IH]; cbn.
  - by repeat constructor.
  - destruct (sameValueZero sameRef k' k); constructor; auto.
Qed.

Lemma Forall_get {V} (P : JSValue * V -> Prop) m k v :
  (forall k1 k2 x, P (k1, x) -> P (k2, x)) ->
  Forall P m -> get sameRef m k = Some v -> P (k, v).
Proof.
  intros Hk. induction 1 as [|[k' v'] m Hx Hm IH]; cbn; [done|].
  destruct (sameValueZero sameRef k' k); [|done].
  intros [= <-]. by eapply Hk.
Qed.

End MapFacts.

Section LookupFacts.
Import JSMap Users.

Variable sameRef : JSValue -> JSValue -> bool.
Variable getDoc : list JSValue -> JSValue -> Completion (option Obj).
Variable emailOr : JSValue -> JSValue -> JSValue.
Variable onError : JSValue -> Completion unit.

#[local] Abbreviation lookup := (getUserEmailWith sameRef getDoc emailOr onError).

Lemma lookup_cached before cache id v :
  truthy id = true -> get sameRef cache id = Some v ->
  lookup before cache id = mkLookup (Normal v) cache [].
Proof. intros Ht Hc. unfold getUserEmailWith. by rewrite Ht, Hc. Qed.

Lemma lookup_falsy before cache id :
  truthy id = false ->
  lookup before cache id = mkLookup (Normal (VString "(no playerId)")) cache [].
Proof. intros Ht. unfold getUserEmailWith. by rewrite Ht. Qed.

Lemma lookup_lookedUp before cache id :
  lookedUp (lookup before cache id)
  = if truthy id then
      match get sameRef cache id with Some _ => [] | None => [id] end
    else [].
Proof.
  unfold getUserEmailWith. destruct (truthy id); [|done]. cbn.
  destruct (get sameRef cache id); [done|].
  by destruct (getDoc before id) as [[?|]|].
Qed.

Lemma lookup_cache_other before cache p id :
  isPrimitive id = true -> p <> id ->
  get sameRef (cacheAfter (lookup before cache p)) id = get sameRef cache id.
Proof.
  intros Hid Hne. unfold getUserEmailWith. destruct (truthy p); [|done]. cbn.
  destruct (get sameRef cache p); [done|].
  destruct (getDoc before p) as [[?|]|]; cbn; try done; by apply get_set_other.
Qed.

Lemma lookup_cache_kept before cache p id v :
  isPrimitive id = true ->
  get sameRef cache id = Some v ->
  get sameRef (cacheAfter (lookup before cache p)) id = Some v.
Proof.
  intros Hid Hc. unfold getUserEmailWith. destruct (truthy p); [|done]. cbn.
  destruct (get sameRef cache p) eqn:Hp; [done|].
  assert (p <> id) by congruence.
  destruct (getDoc before p) as [[?|]|]; cbn; try done; by rewrite get_set_other.
Qed.

Lemma lookup_answered before cache id :
  isPrimitive id = true -> truthy id = true ->
  get sameRef cache id = None ->
  (forall e, getDoc before id <> Throw e) ->
  exists v, email (lookup before cache id) = Normal v
         /\ get sameRef (cacheAfter (lookup before cache id)) id = Some v.
Proof.
  intros Hid Ht Hc Hok. unfold getUserEmailWith. rewrite Ht, Hc. cbn.
  destruct (getDoc before id) as [[?|]|e] eqn:E; cbn.
  - eexists; split; [done | by apply get_set_same].
  - eexists; split; [done | by apply get_set_same].
  - by destruct (Hok e).
Qed.

Lemma lookup_failed before cache id e :
  truthy id = true -> get sameRef cache id = None ->
  getDoc before id = Throw e ->
  cacheAfter (lookup before cache id) = cache.
Proof. intros Ht Hc He. unfold getUserEmailWith. by rewrite Ht, Hc, He. Qed.

(** X9.  In all three scripts an answer is cached: when the lookup of a
    primitive id does not fail, every later call of [getUserEmail] for
    that id, whatever the database has become, returns the same email,
    starts no lookup and leaves the cache as it is. *)
Theorem getUserEmail_answer_cached before before' cache id :
  isPrimitive id = true ->
  (forall e, getDoc before id <> Throw e) ->
  let first := getUserEmailWith sameRef getDoc emailOr onError before cache id in
  getUserEmailWith sameRef getDoc emailOr onError before' (cacheAfter first) id
  = mkLookup (email first) (cacheAfter first) [].
Proof.
  intros Hid Hok first. subst first.
  destruct (truthy id) eqn:Ht.
  - destruct (get sameRef cache id) as [v|] eqn:Hc.
    + rewrite (lookup_cached before cache id v) by done. cbn.
      by apply lookup_cached.
    + destruct (lookup_answered before cache id) as (v & Hv & Hget); try done.
      rewrite Hv. by apply lookup_cached.
  - rewrite (lookup_falsy before cache id) by done. cbn. by apply lookup_falsy.
Qed.

End LookupFacts.

Lemma getUserEmail_answer_cached_witness :
  let first :=
    WatchUsers.getUserEmail UserExamples.noRefs UserExamples.directory
      UserExamples.noString [] [] (VString "p1") in
  WatchUsers.getUserEmail UserExamples.noRefs UserExamples.directory
    UserExamples.noString [VString "p1"] (Users.cacheAfter first) (VString "p1")
  = Users.mkLookup (Normal (VString "ann@example.org"))
                   [(VString "p1", VString "ann@example.org")] [].
Proof.
  intros first. subst first. unfold WatchUsers.getUserEmail.
  rewrite (getUserEmail_answer_cached UserExamples.noRefs UserExamples.directory
             Users.orElse (Users.logWithId UserExamples.noString)
             [] [VString "p1"] [] (VString "p1") eq_refl
             ltac:(intros e; vm_compute; discriminate)).
  vm_compute. reflexivity.
Defined.

Section EmailDefault.
Import Users.

Variable sameRef : JSValue -> JSValue -> bool.
Variable getDoc : list JSValue -> JSValue -> Completion (option Obj).
Variable ToString : JSValue -> Completion string.

Lemma orElse_nullishElse v d :
  truthy d = true ->
  orElse v d <> nullishElse v d <-> blank v = true.
Proof.
  intros Hd. unfold orElse, blank.
  destruct (truthy v) eqn:Hv.
  - cbn. split; [|done]. intros H. destruct H. by destruct v.
  - destruct v; cbn in *; try done; try (split; [done | congruence]);
      split; try done; intros _ ->; cbn in *; congruence.
Qed.

(** X10.  [index.ts] replaces a missing email with [||], the two report
    scripts with [??]: the two versions of [getUserEmail] return different
    emails exactly when the lookup is made and finds a user whose stored
    email is blank (the empty string, [0], [NaN] or [false]); [index.ts]
    then shows ["(no email)"] and the reports the stored value. *)
Theorem email_default_differs before cache id :
  Users.email (WatchUsers.getUserEmail sameRef getDoc ToString before cache id)
  <> Users.email (StatsTodayReport.getUserEmail sameRef getDoc ToString before cache id)
  <-> truthy id = true
      /\ JSMap.get sameRef cache id = None
      /\ exists data, getDoc before id = Normal (Some data)
                   /\ blank (field data "email") = true.
Proof.
  unfold WatchUsers.getUserEmail, StatsTodayReport.getUserEmail, getUserEmailWith.
  destruct (truthy id); cbn; [|split; [done | by intros [? _]]].
  destruct (JSMap.get sameRef cache id); [split; [done | by intros (_ & ? & _)]|].
  destruct (getDoc before id) as [[data|]|e]; cbn.
  - pose proof (orElse_nullishElse (field data "email") (VString "(no email)") eq_refl)
      as Hiff.
    split.
    + intros H. repeat split; try done. exists data. split; [done|].
      apply Hiff. congruence.
    + intros (_ & _ & data' & [= <-] & H). apply Hiff in H. congruence.
  - split; [done | by intros (_ & _ & ? & ? & _)].
  - split; [done | by intros (_ & _ & ? & ? & _)].
Qed.

End EmailDefault.

Lemma email_default_differs_witness :
  Users.email (WatchUsers.getUserEmail UserExamples.noRefs UserExamples.directory
                 UserExamples.noString [] [] (VString "p2"))
  <> Users.email (StatsTodayReport.getUserEmail UserExamples.noRefs UserExamples.directory
                    UserExamples.noString [] [] (VString "p2")).
Proof.
  apply (email_default_differs UserExamples.noRefs UserExamples.directory
           UserExamples.noString [] [] (VString "p2")).
  split; [reflexivity |]. split; [reflexivity |].
  exists {[ "email"%string := VString "" ]}. split; [reflexivity | vm_compute; reflexivity].
Defined.

(** ** The aggregation of [stats-today.ts] *)

Section AggregateFacts.
Import JSMap Users StatsTodayReport.

Variable sameRef : JSValue -> JSValue -> bool.
Variable getDoc : list JSValue -> JSValue -> Completion (option Obj).
Variable ToString : JSValue -> Completion string.
Variable ToNumber : JSValue -> Completion number.

#[local] Abbreviation agg := (aggregate sameRef getDoc ToString ToNumber).
#[local] Abbreviation count := (occurrences sameRef).
#[local] Abbreviation under := (guessesUnder sameRef getDoc ToString).

Lemma occurrences_app id l1 l2 :
  count id (l1 ++ l2) = (count id l1 + count id l2)%nat.
Proof. unfold occurrences. by rewrite List.filter_app, length_app. Qed.

Lemma aggregate_cached_no_lookup docs stats0 before cache id v :
  isPrimitive id = true ->
  get sameRef cache id = Some v ->
  count id (lookups (agg docs stats0 before cache)) = 0%nat.
Proof.
  intros Hid. revert stats0 before cache.
  induction docs as [|d docs IH]; intros stats0 before cache Hc; [done|].
  cbn [aggregate].
  set (p := field (data d) "playerId").
  set (l := getUserEmail sameRef getDoc ToString before cache p).
  assert (Hl : count id (lookedUp l) = 0%nat).
  { unfold l, getUserEmail. rewrite lookup_lookedUp.
    destruct (truthy p); [|done].
    destruct (get sameRef cache p) eqn:Hp; [done|].
    unfold occurrences. cbn.
    destruct (sameValueZero sameRef p id) eqn:E; [|done].
    apply sameValueZero_primitive in E; [|done]. congruence. }
  assert (Hc' : get sameRef (cacheAfter l) id = Some v)
    by (by apply lookup_cache_kept).
  destruct (Users.email l); [|done].
  destruct (pointsAwarded ToNumber (data d)); [|done].
  cbn [lookups]. rewrite occurrences_app, Hl. by erewrite IH.
Qed.

(** X11.  In a run of [stats-today.ts] that reaches its end, a player
    whose lookup does not fail is looked up once, however many guesses
    name that player; a failed lookup is not cached, so a player whose
    lookup fails every time is looked up once for each of their guesses. *)
Theorem aggregate_lookups_per_player docs stats0 before cache id st :
  isPrimitive id = true -> truthy id = true ->
  JSMap.get sameRef cache id = None ->
  stats (aggregate sameRef getDoc ToString ToNumber docs stats0 before cache) = Normal st ->
  let n := occurrences sameRef id (playerIds docs) in
  let k := occurrences sameRef id
             (lookups (aggregate sameRef getDoc ToString ToNumber docs stats0 before cache)) in
  (k <= n)%nat
  /\ ((forall h e, getDoc h id <> Throw e) -> k = Nat.min 1 n)
  /\ ((forall h, exists e, getDoc h id = Throw e) -> k = n).
Proof.
  intros Hid Ht. revert stats0 before cache.
  induction docs as [|d docs IH]; intros stats0 before cache Hc Hst; [done|].
  cbn [aggregate playerIds map] in *.
  set (p := field (data d) "playerId") in *.
  set (l := getUserEmail sameRef getDoc ToString before cache p) in *.
  destruct (Users.email l) as [em|] eqn:Hem; [|done].
  destruct (pointsAwarded ToNumber (data d)) as [pa|]; [|done].
  cbn [stats lookups] in Hst |- *.
  rewrite occurrences_app.
  change (count id (p :: map _ docs)) with (count id ([p] ++ playerIds docs)).
  rewrite occurrences_app.
  destruct (sameValueZero sameRef p id) eqn:E.
  - apply sameValueZero_primitive in E; [|done].
    assert (Hl : lookedUp l = [id]).
    { unfold l, getUserEmail. rewrite lookup_lookedUp, E, Ht, Hc. done. }
    rewrite Hl in *.
    assert (H1 : count id [id] = 1%nat).
    { unfold occurrences. cbn. by rewrite sameValueZero_refl. }
    rewrite E, H1.
    destruct (getDoc before id) as [r|e] eqn:Hg.
    + assert (exists v, get sameRef (cacheAfter l) id = Some v) as [v Hv].
      { unfold l, getUserEmail, getUserEmailWith. rewrite E, Ht, Hc, Hg. cbn.
        destruct r; eexists; by apply get_set_same. }
      rewrite (aggregate_cached_no_lookup _ _ _ _ id v) by done.
      split; [lia|]. split; [intros _; lia|].
      intros Hall. destruct (Hall before) as [e He]. congruence.
    + assert (Hk : cacheAfter l = cache).
      { unfold l, getUserEmail. rewrite E. by eapply lookup_failed. }
      rewrite Hk in *.
      destruct (IH _ _ _ Hc Hst) as (Hle & Hok & Hfail).
      split; [lia|]. split.
      * intros Hall. by destruct (Hall before e).
      * intros Hall. specialize (Hfail Hall). lia.
  - assert (Hne : p <> id).
    { intros ->. by rewrite sameValueZero_refl in E. }
    assert (Hl : count id (lookedUp l) = 0%nat).
    { unfold l, getUserEmail. rewrite lookup_lookedUp.
      destruct (truthy p); [|done].
      destruct (get sameRef cache p); [done|].
      unfold occurrences. cbn. by rewrite E. }
    assert (Hp : count id [p] = 0%nat) by (unfold occurrences; cbn; by rewrite E).
    rewrite Hl, Hp.
    assert (Hc' : get sameRef (cacheAfter l) id = None).
    { unfold l, getUserEmail. by rewrite lookup_cache_other. }
    apply (IH _ _ _ Hc' Hst).
Qed.

Lemma sumOf_set (f : Entry -> Z) m k v :
  f (mkEntry 0 0) = 0 ->
  sumOf f (set sameRef m k v)
  = sumOf f m - f (default (mkEntry 0 0) (get sameRef m k)) + f v.
Proof.
  intros Hf. unfold sumOf. induction m as [|[k' v'] m IH]; cbn.
  - rewrite Hf. lia.
  - destruct (sameValueZero sameRef k' k); cbn; [lia | rewrite IH; lia].
Qed.

Lemma aggregate_sums docs stats0 before cache st :
  Forall sound stats0 ->
  stats (agg docs stats0 before cache) = Normal st ->
  sumOf total st = sumOf total stats0 + Z.of_nat (length docs)
  /\ sumOf correct st
     = sumOf correct stats0 + Z.of_nat (length (List.filter (scoresPoint ToNumber) docs))
  /\ Forall sound st.
Proof.
  revert stats0 before cache.
  induction docs as [|d docs IH]; intros stats0 before cache Hinv Hst.
  - cbn in *. injection Hst as <-. repeat split; [lia | lia | done].
  - cbn [aggregate] in Hst.
    set (l := getUserEmail sameRef getDoc ToString before cache _) in *.
    destruct (Users.email l) as [em|]; [|done].
    cbn [List.filter length]. unfold scoresPoint at 1.
    destruct (pointsAwarded ToNumber (data d)) as [pa|]; [|done].
    cbn [stats] in Hst.
    set (e0 := default (mkEntry 0 0) (get sameRef stats0 em)) in *.
    assert (He0 : 0 <= correct e0 <= total e0).
    { unfold e0. destruct (get sameRef stats0 em) as [x|] eqn:Hget; cbn; [|lia].
      apply (Forall_get sameRef sound) in Hget; [apply Hget | done | done]. }
    apply IH in Hst as (Ht & Hc & Hs).
    + rewrite Ht, Hc, !sumOf_set by done. fold e0.
      destruct (isCorrect pa); cbn [total correct length]; repeat split; try lia; done.
    + apply Forall_set; [|done].
      intros k'. unfold sound. destruct (isCorrect pa); cbn; lia.
Qed.

(** X12.  When the loop of [stats-today.ts] reaches its end, every guess
    has been counted once: the totals of the entries add up to the number
    of guesses, the correct counts to the number of guesses whose points
    are a number other than [0] and [NaN], and each entry has at least
    one guess and no more correct ones than guesses.  This holds for any
    emails, objects included. *)
Theorem aggregate_counts_every_guess_once docs before cache st :
  stats (aggregate sameRef getDoc ToString ToNumber docs [] before cache) = Normal st ->
  sumOf total st = Z.of_nat (length docs)
  /\ sumOf correct st = Z.of_nat (length (List.filter (scoresPoint ToNumber) docs))
  /\ Forall sound st.
Proof.
  intros Hst. apply aggregate_sums in Hst; [|constructor]. apply Hst.
Qed.

Lemma aggregate_entry docs stats0 before cache st e :
  isPrimitive e = true ->
  stats (agg docs stats0 before cache) = Normal st ->
  get sameRef st e
  = match under e docs before cache with
    | [] => get sameRef stats0 e
    | g => Some (entryOf ToNumber (default (mkEntry 0 0) (get sameRef stats0 e)) g)
    end.
Proof.
  intros He. revert stats0 before cache.
  induction docs as [|d docs IH]; intros stats0 before cache Hst.
  - cbn in *. by injection Hst as <-.
  - cbn [aggregate guessesUnder] in *.
    set (l := getUserEmail sameRef getDoc ToString before cache _) in *.
    destruct (Users.email l) as [em|]; [|done].
    destruct (pointsAwarded ToNumber (data d)) as [pa|] eqn:Hpa; [|done].
    cbn [stats] in Hst. apply IH in Hst. rewrite Hst. clear Hst IH.
    set (g := under e docs _ _).
    destruct (sameValueZero sameRef em e) eqn:E.
    + apply sameValueZero_primitive in E; [|done]. subst em.
      rewrite get_set_same by done. cbn [default].
      set (e0 := default (mkEntry 0 0) (get sameRef stats0 e)).
      assert (Hs : scoresPoint ToNumber d = isCorrect pa)
        by (unfold scoresPoint; by rewrite Hpa).
      unfold entryOf. cbn [List.filter length]. rewrite Hs.
      destruct g as [|d' g'], (isCorrect pa);
        cbn [total correct length List.filter default from_option];
        unfold Datatypes.id; cbn [total correct]; f_equal; f_equal; lia.
    + assert (em <> e).
      { intros ->. by rewrite sameValueZero_refl in E. }
      by rewrite get_set_other.
Qed.

(** X13.  When the loop of [stats-today.ts] reaches its end, the entry of
    a primitive email [e] counts exactly the guesses for which
    [getUserEmail] answered [e], and among them those that count as
    correct; an email that no guess resolved to has no entry.  Players
    that resolve to one email (["(not found)"], ["(error)"], a shared
    address) are counted together. *)
Theorem aggregate_counts_per_email docs before cache st e :
  isPrimitive e = true ->
  stats (aggregate sameRef getDoc ToString ToNumber docs [] before cache) = Normal st ->
  let g := guessesUnder sameRef getDoc ToString e docs before cache in
  JSMap.get sameRef st e
  = match g with
    | [] => None
    | _ => Some (mkEntry (Z.of_nat (length g))
                         (Z.of_nat (length (List.filter (scoresPoint ToNumber) g))))
    end.
Proof.
  intros He Hst g. rewrite (aggregate_entry docs [] before cache st e He Hst).
  fold g. by destruct g.
Qed.



End AggregateFacts.

Lemma tallied_guesses :
  StatsTodayReport.stats
    (StatsTodayReport.aggregate UserExamples.noRefs UserExamples.directory
       UserExamples.noString UserExamples.noNumber UserExamples.guesses [] [] [])
  = Normal UserExamples.tallied.
Proof. vm_compute. reflexivity. Qed.

Lemma aggregate_lookups_per_player_witness :
  let run :=
    StatsTodayReport.aggregate UserExamples.noRefs UserExamples.directory
      UserExamples.noString UserExamples.noNumber UserExamples.guesses [] [] [] in
  occurrences UserExamples.noRefs (VString "p1") (StatsTodayReport.lookups run) = 1%nat
  /\ occurrences UserExamples.noRefs (VString "p9") (StatsTodayReport.lookups run) = 2%nat.
Proof.
  intros run. split.
  - destruct (aggregate_lookups_per_player UserExamples.noRefs UserExamples.directory
                UserExamples.noString UserExamples.noNumber UserExamples.guesses
                [] [] [] (VString "p1") UserExamples.tallied
                eq_refl eq_refl eq_refl tallied_guesses) as (_ & Hok & _).
    unfold run. rewrite Hok; [vm_compute; reflexivity |].
    intros h e. vm_compute. discriminate.
  - destruct (aggregate_lookups_per_player UserExamples.noRefs UserExamples.directory
                UserExamples.noString UserExamples.noNumber UserExamples.guesses
                [] [] [] (VString "p9") UserExamples.tallied
                eq_refl eq_refl eq_refl tallied_guesses) as (_ & _ & Hfail).
    unfold run. rewrite Hfail; [vm_compute; reflexivity |].
    intros h. exists (Thrown "unavailable"). reflexivity.
Defined.

Lemma aggregate_counts_every_guess_once_witness :
  sumOf StatsTodayReport.total UserExamples.tallied = 5
  /\ sumOf StatsTodayReport.correct UserExamples.tallied = 3
  /\ Forall sound UserExamples.tallied.
Proof.
  exact (aggregate_counts_every_guess_once UserExamples.noRefs UserExamples.directory
           UserExamples.noString UserExamples.noNumber UserExamples.guesses
           [] [] UserExamples.tallied tallied_guesses).
Defined.

Lemma aggregate_counts_per_email_witness :
  JSMap.get UserExamples.noRefs UserExamples.tallied (VString "(error)")
  = Some (StatsTodayReport.mkEntry 2 1).
Proof.
  rewrite (aggregate_counts_per_email UserExamples.noRefs UserExamples.directory
             UserExamples.noString UserExamples.noNumber UserExamples.guesses
             [] [] UserExamples.tallied (VString "(error)") eq_refl tallied_guesses).
  vm_compute. reflexivity.
Defined.


(** ** The rows of [gameStats-today.ts] *)

Section RowsFacts.
Import Users GameStatsTodayRows.

Variable sameRef : JSValue -> JSValue -> bool.
Variable getDoc : list JSValue -> JSValue -> Completion (option Obj).
Variable ToNumber : JSValue -> Completion number.

Lemma numberOrZero_keeps v n :
  numberOrZero ToNumber v = Normal n -> keepsNumber v n.
Proof.
  unfold numberOrZero, keepsNumber.
  destruct v; cbn; try (intros [= <-]; split; [congruence | done]);
    try (destruct (ToNumber _) as [[| |z]|]; cbn; [| |destruct (z =? 0)|];
         intros [= <-]; split; congruence).
  intros [= <-]. split; congruence.
Qed.

(** The [catch] of this version is silent: the call always answers. *)
Lemma silent_lookup_answers before cache p :
  exists v, Users.email (getUserEmail sameRef getDoc before cache p) = Normal v.
Proof.
  unfold getUserEmail, getUserEmailWith.
  destruct (truthy p); cbn; [|by eexists].
  destruct (JSMap.get sameRef cache p); [by eexists|].
  destruct (getDoc before p) as [[?|]|]; by eexists.
Qed.

Lemma emailOf_answers before cache d :
  exists v, Users.email (emailOf sameRef getDoc before cache d) = Normal v
         /\ (truthy (field d "email") = true -> v = field d "email").
Proof.
  unfold emailOf. destruct (truthy (field d "email")) eqn:E; cbn.
  - by eexists.
  - destruct (truthy (field d "playerId")); cbn.
    + destruct (silent_lookup_answers before cache (field d "playerId")) as [v Hv].
      exists v. by split.
    + by eexists.
Qed.

(** X15.  When the loop that builds the rows reaches its end there is one
    row for each document, in the same order; the row shows the
    document's own email when it has one, its email is never [null] or
    [undefined], and a stored number is shown as it is, [NaN] appearing
    only where [NaN] is stored. *)
Theorem buildRows_row_per_document docs before cache rs :
  rows (buildRows sameRef getDoc ToNumber docs before cache) = Normal rs ->
  Forall2 rowFor docs rs.
Proof.
  revert before cache rs.
  induction docs as [|d docs IH]; intros before cache rs Hrs.
  - cbn in Hrs. injection Hrs as <-. constructor.
  - cbn [buildRows] in Hrs.
    destruct (emailOf_answers before cache d) as (v & Hv & Hown).
    rewrite Hv in Hrs.
    destruct (numberOrZero ToNumber (field d "totalPoints")) as [pts|] eqn:Hp; [|done].
    destruct (numberOrZero ToNumber (field d "totalPredictions")) as [prs|] eqn:Hq;
      [|done].
    cbn [rows] in Hrs.
    destruct (rows (buildRows sameRef getDoc ToNumber docs _ _)) as [rs'|] eqn:Hrest;
      [|done].
    cbn in Hrs. injection Hrs as <-.
    constructor; [|by eapply IH].
    unfold rowFor. cbn [email totalPoints totalPredictions].
    split; [|split; [|split]]; try (by apply numberOrZero_keeps).
    + intros Ht. pose proof (Hown Ht) as Hx. rewrite <- Hx in Ht |- *. by destruct v.
    + by destruct v.
Qed.


(** X17.  [gameStats-today.ts] starts a users lookup only for the player
    named by a document that has no email of its own. *)
Theorem buildRows_looks_up_only_without_email docs before cache :
  Forall (fun id => exists d, d ∈ docs /\ needsLookup d = true
                              /\ field d "playerId" = id)
         (lookups (buildRows sameRef getDoc ToNumber docs before cache)).
Proof.
  revert before cache.
  induction docs as [|d docs IH]; intros before cache; [constructor|].
  cbn [buildRows].
  assert (Hl : Forall (fun id => exists d', d' ∈ d :: docs /\ needsLookup d' = true
                              /\ field d' "playerId" = id)
                 (Users.lookedUp (emailOf sameRef getDoc before cache d))).
  { unfold emailOf. fold (needsLookup d).
    destruct (needsLookup d) eqn:Hn; [|constructor].
    unfold getUserEmail. rewrite lookup_lookedUp.
    destruct (truthy (field d "playerId")); [|constructor].
    destruct (JSMap.get _ _ _); constructor; [|constructor].
    exists d. split; [left | done]. }
  destruct (Users.email _); [|done].
  destruct (numberOrZero _ _); [|done].
  destruct (numberOrZero _ _); [|done].
  cbn [lookups]. apply Forall_app. split; [done|].
  eapply Forall_impl; [apply IH|].
  intros id (d' & Hin & H). exists d'. split; [by right | done].
Qed.

End RowsFacts.

Lemma buildRows_row_per_document_witness :
  Forall2 rowFor UserExamples.statRows
    [GameStatsTodayRows.mkRow (VString "bob@example.org") (Num 7) (Num 0);
     GameStatsTodayRows.mkRow (VString "ann@example.org") NaN (Num 4)].
Proof.
  apply (buildRows_row_per_document UserExamples.noRefs UserExamples.directory
           UserExamples.noNumber UserExamples.statRows [] []).
  vm_compute. reflexivity.
Defined.


(** ** Printing a guess in [index.ts] *)

Ltac in_list := repeat first [apply list_elem_of_here | apply list_elem_of_further].

Lemma hidden_cases k :
  k ∈ hiddenFields ->
  k = "mode"%string \/ k = "pointsAwarded"%string
  \/ k = "groupId"%string \/ k = "userName"%string.
Proof.
  unfold hiddenFields. rewrite !elem_of_cons, elem_of_nil. tauto.
Qed.

Lemma shown_lookup rawDoc k :
  k ∉ hiddenFields -> k <> "id"%string -> shown rawDoc !! k = rawDoc !! k.
Proof.
  intros Hk Hid. unfold shown, WatchPrint.stripFields, hiddenFields in *.
  assert (k <> "mode"%string /\ k <> "pointsAwarded"%string
          /\ k <> "groupId"%string /\ k <> "userName"%string) as (H1 & H2 & H3 & H4)
    by (repeat split; intros ->; apply Hk; in_list).
  rewrite lookup_insert_ne by done.
  by rewrite !lookup_delete_ne by congruence.
Qed.

Lemma shown_hidden rawDoc k : k ∈ hiddenFields -> shown rawDoc !! k = None.
Proof.
  intros Hk. unfold shown, WatchPrint.stripFields.
  apply hidden_cases in Hk as [-> | [-> | [-> | ->]]];
    rewrite lookup_insert_ne by done;
    repeat first [by rewrite lookup_delete_eq | rewrite lookup_delete_ne by done].
Qed.

Section PrintFacts.
Import WatchPrint.

Variable Date_parse : string -> option Z.
Variable toLocaleString : Date -> Completion string.
Variable sameRef : JSValue -> JSValue -> bool.
Variable getDoc : list JSValue -> JSValue -> Completion (option Obj).
Variable ToString : JSValue -> Completion string.
Variable strictMode : bool.

#[local] Abbreviation deep := (deepTransformTimestamps Date_parse toLocaleString).
#[local] Abbreviation fields := (eachField Date_parse toLocaleString).
#[local] Abbreviation print :=
  (printDoc Date_parse toLocaleString sameRef getDoc ToString strictMode).

Lemma eachField_lookup props out :
  fields props = Normal out ->
  forall k, k <> "__proto__"%string ->
    match props !! k with
    | None => out !! k = None
    | Some v => exists v', deep v = Normal v' /\ out !! k = Some v'
    end.
Proof.
  unfold eachField. revert out.
  apply (map_fold_weak_ind
           (fun r m => forall out, r = Normal out ->
              forall k, k <> "__proto__"%string ->
                        match m !! k with
                        | None => out !! k = None
                        | Some v => exists v', deep v = Normal v' /\ out !! k = Some v'
                        end)).
  - intros out [= <-] k _. by rewrite !lookup_empty.
  - intros i x m r Hi IH out Hout k Hk.
    destruct r as [out0|]; [|done]. cbn in Hout.
    destruct (deep x) as [x'|] eqn:Hx; [|done]. cbn in Hout. injection Hout as <-.
    specialize (IH out0 eq_refl k Hk).
    destruct (String.eqb_spec i "__proto__") as [-> | Hi'].
    + by rewrite lookup_insert_ne.
    + destruct (decide (i = k)) as [->|Hne].
      * rewrite !lookup_insert_eq. by exists x'.
      * by rewrite !lookup_insert_ne.
Qed.

(** An object becomes an object, field by field, unless it reads as a
    timestamp itself. *)
Lemma deep_object props v :
  deep (VObject props) = Normal v ->
  (exists out, v = VObject out /\ fields props = Normal out
               /\ toDateStrict Date_parse (VObject props) = Normal None)
  \/ (exists d s, v = VString s /\ toLocaleString d = Normal s
               /\ toDateStrict Date_parse (VObject props) = Normal (Some d)).
Proof.
  cbn [deepTransformTimestamps].
  destruct (toDateStrict Date_parse (VObject props)) as [[d|]|]; cbn [bindC]; [| |done].
  - cbn. destruct (toLocaleString d) as [s|] eqn:Hs; [|done]. cbn. intros [= <-].
    right. by exists d, s.
  - fold (fields props). destruct (fields props) as [out|]; [|done].
    cbn. intros [= <-]. left. by exists out.
Qed.

Lemma assign_object target k v o :
  assign strictMode target k v = Normal (VObject o) ->
  exists props, target = VObject props /\ o = <[k := v]> props.
Proof.
  destruct target; cbn; try (destruct strictMode; done).
  intros [= <-]. by eexists.
Qed.

(** The parts of a run of [printDoc] that prints an object. *)
Lemma printDoc_object before cache rawDoc o :
  output (print before cache rawDoc) = Normal (VObject o) ->
  exists s email out,
    (let! dt := toDateStrict Date_parse (field rawDoc "submittedAt") in
     toESTString toLocaleString dt) = Normal s
    /\ Users.email (WatchUsers.getUserEmail sameRef getDoc ToString before cache
                                            (field rawDoc "playerId")) = Normal email
    /\ fields (shown rawDoc) = Normal out
    /\ o = <["email"%string := email]> (<["submittedAt"%string := VString s]> out).
Proof.
  unfold printDoc. fold (shown rawDoc).
  destruct (toDateStrict Date_parse (field rawDoc "submittedAt")) as [dt|]; [|done].
  cbn [bindC].
  destruct (toESTString toLocaleString dt) as [s|]; [|done]. cbn [bindC].
  destruct (deep (VObject (shown rawDoc))) as [tr|] eqn:Hdeep; [|done]. cbn [bindC].
  destruct (assign strictMode tr "submittedAt" (VString s)) as [tr'|] eqn:Ha; [|done].
  cbn [output].
  destruct (Users.email _) as [email|]; [|done]. cbn [bindC].
  intros Hb. apply assign_object in Hb as (props & -> & ->).
  apply assign_object in Ha as (out & -> & ->).
  apply deep_object in Hdeep as [(out' & [= <-] & Hout & _) | (? & ? & ? & _)]; [|done].
  by exists s, email, out.
Qed.

(** X18.  An object printed by [printDoc] has none of the fields [mode],
    [pointsAwarded], [groupId] and [userName]; its [submittedAt] is the
    formatted date of the guess (or the placeholder), its [email] the
    answer of [getUserEmail] for the guess's player, and its [id] the
    transformed id of the guess. *)
Theorem printDoc_hides_and_adds before cache rawDoc o :
  output (printDoc Date_parse toLocaleString sameRef getDoc ToString strictMode
            before cache rawDoc) = Normal (VObject o) ->
  Forall (fun k => o !! k = None) hiddenFields
  /\ (exists s,
        (let! dt := toDateStrict Date_parse (field rawDoc "submittedAt") in
         toESTString toLocaleString dt) = Normal s
        /\ o !! "submittedAt"%string = Some (VString s))
  /\ (exists email,
        Users.email (WatchUsers.getUserEmail sameRef getDoc ToString before cache
                                            (field rawDoc "playerId")) = Normal email
        /\ o !! "email"%string = Some email)
  /\ (exists v', deepTransformTimestamps Date_parse toLocaleString (field rawDoc "id")
                 = Normal v'
                 /\ o !! "id"%string = Some v').
Proof.
  intros H. apply printDoc_object in H as (s & email & out & Hs & He & Hout & ->).
  pose proof (eachField_lookup _ _ Hout) as Hk.
  split; [|split; [|split]].
  - apply Forall_forall. intros k Hin.
    specialize (Hk k). rewrite (shown_hidden rawDoc k Hin) in Hk.
    apply hidden_cases in Hin as [-> | [-> | [-> | ->]]];
      rewrite !lookup_insert_ne by done; by apply Hk.
  - exists s. split; [done|]. by rewrite lookup_insert_ne, lookup_insert_eq.
  - exists email. split; [done|]. by rewrite lookup_insert_eq.
  - specialize (Hk "id"%string ltac:(done)).
    unfold shown in Hk at 1. rewrite lookup_insert_eq in Hk.
    destruct Hk as (v' & Hv & Hl). exists v'. split; [done|].
    by rewrite !lookup_insert_ne.
Qed.

(** X19.  Every other field of the guess (the key [__proto__] apart) is
    printed, under its own name, as what [deepTransformTimestamps] makes
    of its value, and the printed object has no field that the guess
    does not have. *)
Theorem printDoc_field_transformed before cache rawDoc o k :
  output (printDoc Date_parse toLocaleString sameRef getDoc ToString strictMode
            before cache rawDoc) = Normal (VObject o) ->
  k ∉ hiddenFields ++ addedFields -> k <> "id"%string -> k <> "__proto__"%string ->
  match rawDoc !! k with
  | None => o !! k = None
  | Some v => exists v', deepTransformTimestamps Date_parse toLocaleString v = Normal v'
                         /\ o !! k = Some v'
  end.
Proof.
  intros H Hk Hid Hproto.
  apply printDoc_object in H as (s & email & out & Hs & He & Hout & ->).
  pose proof (eachField_lookup _ _ Hout k Hproto) as Hf.
  rewrite shown_lookup in Hf; [| intros Hin; apply Hk, elem_of_app; by left | done].
  rewrite !lookup_insert_ne; [done | |]; intros <-; apply Hk, elem_of_app; right;
    unfold addedFields; in_list.
Qed.

Lemma deep_scalar v t :
  readsAsDate Date_parse v = Some t ->
  deep v = let! s := toLocaleString (mkDate (Some t)) in Normal (VString s).
Proof.
  destruct v as [| | |[| |n]|str| | | |]; try done; cbn [readsAsDate].
  - intros Ht. cbn [deepTransformTimestamps]. unfold toDateStrict.
    replace (negb (truthy (VNumber (Num n))) && strictNotZero (VNumber (Num n)))
      with false by (cbn; by destruct (n =? 0)).
    unfold isFSTimestampMethod, isFSTimestampPojo. cbn.
    unfold newDate. rewrite Ht. by destruct (n =? 0).
  - destruct (String.eqb str "") eqn:E; [done|].
    intros Ht. cbn [deepTransformTimestamps].
    unfold toDateStrict, isFSTimestampMethod, isFSTimestampPojo.
    cbn. rewrite E. cbn. unfold newDate.
    destruct (Date_parse str) as [p|]; [|done]. cbn in Ht. rewrite Ht. done.
Qed.

(** X20.  [printDoc] shows as a date every field whose value is a number
    within the range of time values, [0] included, or a non-empty string
    that [Date.parse] accepts: the field is printed as the formatted date
    at that time value, not as the number or the text stored. *)
Theorem printDoc_scalars_as_dates before cache rawDoc o k v t :
  output (printDoc Date_parse toLocaleString sameRef getDoc ToString strictMode
            before cache rawDoc) = Normal (VObject o) ->
  k ∉ hiddenFields ++ addedFields -> k <> "id"%string -> k <> "__proto__"%string ->
  rawDoc !! k = Some v ->
  readsAsDate Date_parse v = Some t ->
  exists s, toLocaleString (mkDate (Some t)) = Normal s
            /\ o !! k = Some (VString s).
Proof.
  intros H Hk Hid Hproto Hv Ht.
  apply printDoc_object in H as (s0 & email & out & Hs & He & Hout & ->).
  pose proof (eachField_lookup _ _ Hout k Hproto) as Hf.
  rewrite shown_lookup, Hv in Hf; [| intros Hin; apply Hk, elem_of_app; by left | done].
  destruct Hf as (v' & Hdeep & Hl).
  rewrite (deep_scalar v t Ht) in Hdeep.
  destruct (toLocaleString _) as [s|]; [|done]. cbn in Hdeep. injection Hdeep as <-.
  exists s. split; [done|].
  rewrite !lookup_insert_ne; [done | |]; intros <-; apply Hk, elem_of_app; right;
    unfold addedFields; in_list.
Qed.



End PrintFacts.

Lemma printed_guess :
  WatchPrint.output
    (WatchPrint.printDoc Examples.noParse UserExamples.someDate UserExamples.noRefs
       UserExamples.directory UserExamples.noString true [] [] UserExamples.rawGuess)
  = Normal (VObject UserExamples.printedGuess).
Proof. vm_compute. reflexivity. Qed.

Lemma printDoc_hides_and_adds_witness :
  Forall (fun k => UserExamples.printedGuess !! k = None) hiddenFields
  /\ UserExamples.printedGuess !! "email"%string = Some (VString "ann@example.org").
Proof.
  destruct (printDoc_hides_and_adds Examples.noParse UserExamples.someDate
              UserExamples.noRefs UserExamples.directory UserExamples.noString true
              [] [] UserExamples.rawGuess UserExamples.printedGuess printed_guess)
    as (Hhidden & _ & (email & Hemail & Hshown) & _).
  split; [exact Hhidden |].
  rewrite Hshown. vm_compute in Hemail. by injection Hemail as <-.
Defined.

Lemma printDoc_field_transformed_witness :
  exists v',
    WatchPrint.deepTransformTimestamps Examples.noParse UserExamples.someDate
      (VString "p1") = Normal v'
    /\ UserExamples.printedGuess !! "playerId"%string = Some v'.
Proof.
  apply (printDoc_field_transformed Examples.noParse UserExamples.someDate
           UserExamples.noRefs UserExamples.directory UserExamples.noString true
           [] [] UserExamples.rawGuess UserExamples.printedGuess "playerId"
           printed_guess).
  - unfold hiddenFields, addedFields. cbn [app].
    rewrite !not_elem_of_cons. repeat split; try discriminate. apply not_elem_of_nil.
  - discriminate.
  - discriminate.
Defined.

Lemma printDoc_scalars_as_dates_witness :
  exists s,
    UserExamples.someDate (mkDate (Some 42)) = Normal s
    /\ UserExamples.printedGuess !! "guess"%string = Some (VString s).
Proof.
  apply (printDoc_scalars_as_dates Examples.noParse UserExamples.someDate
           UserExamples.noRefs UserExamples.directory UserExamples.noString true
           [] [] UserExamples.rawGuess UserExamples.printedGuess "guess"
           (VNumber (Num 42)) 42 printed_guess).
  - unfold hiddenFields, addedFields. cbn [app].
    rewrite !not_elem_of_cons. repeat split; try discriminate. apply not_elem_of_nil.
  - discriminate.
  - discriminate.
  - vm_compute. reflexivity.
  - vm_compute. reflexivity.
Defined.


(** ** The two readers of timestamps *)

(** X22.  The client-side scan of [gameStats-today.ts] reads a timestamp
    as [toDateStrict] of [index.ts] does: for a truthy value whose
    [toDate], if any, is a method, whenever [toDateStrict] returns a date
    the scan's conversion returns the same date, and whenever
    [toDateStrict] raises the scan raises the same error. *)
Theorem scan_reads_what_toDateStrict_reads
    (Date_parse : string -> option Z) (ToNumber : JSValue -> Completion number)
    (v : JSValue) :
  truthy v = true ->
  toDateIsMethodOrAbsent v = true ->
  match toDateStrict Date_parse v with
  | Normal (Some d) => fieldDate Date_parse ToNumber v = Normal (Some d)
  | Throw e => fieldDate Date_parse ToNumber v = Throw e
  | Normal None => True
  end.
Proof.
  intros Ht Hm. unfold toDateIsMethodOrAbsent in Hm.
  unfold toDateStrict, fieldDate, isFSTimestampMethod, isFSTimestampPojo.
  rewrite Ht. cbn [negb andb].
  destruct v as [| | b | n | s | d | items | props | c]; try done.
  - cbn. by destruct (nullIfInvalid (newDateOfNumber n)).
  - cbn. by destruct (nullIfInvalid (newDate (Date_parse s))).
  - cbn [typeofIs typeof JS.get] in *.
    destruct (field props "toDate") as [| | b | n | s | d | items | props' | c] eqn:Htd;
      cbn in Hm; try discriminate; cbn [truthy typeof].
    all: try (by destruct (call0 _) as [?|]).
    all: try (destruct b; [discriminate|]).
    all: try (destruct n as [| |z]; [|discriminate|destruct (z =? 0); [|discriminate]]).
    all: try (destruct (String.eqb s ""); [|discriminate]).
    all: cbn [negb];
      destruct (field props "seconds") as [| | ? | sec | ? | ? | ? | ? | ?];
      cbn [typeof andb]; try done;
      unfold nanosOrZero; cbn [JS.get];
      destruct (field props "nanoseconds") as [| | ? | ns | ? | ? | ? | ? | ?];
      cbn [typeof andb bindC numberOf]; try done;
      by destruct (newDateOfNumber _) as [[t|]].
Qed.

Lemma scan_reads_what_toDateStrict_reads_witness :
  fieldDate noParse toNumberNaN
    (VObject {[ "seconds"%string := VNumber (Num 1700000000);
                "nanoseconds"%string := VNumber (Num 500000000) ]})
  = Normal (Some (mkDate (Some 1700000000500))).
Proof.
  exact (scan_reads_what_toDateStrict_reads noParse toNumberNaN
           (VObject {[ "seconds"%string := VNumber (Num 1700000000);
                       "nanoseconds"%string := VNumber (Num 500000000) ]})
           eq_refl eq_refl).
Defined.
